(** * velociraptor.autoplotter.objects: plot descriptors and their parsing

    A shallow embedding of [src/velociraptor/autoplotter/objects.py]:
    the [VelociraptorPlot] object built from one entry of the YAML
    configuration, its [_parse_*] methods, the [_make_plot_*] methods and
    the [AutoPlotter] that builds one plot per entry.

    Python values are modelled as follows.
    - The result of [yaml.safe_load] is a [yaml] tree; mappings are
      association lists in declaration order (keys are strings).
    - A Python float is a [pyfloat]: the rational value of a double, or one
      of the IEEE special values; the arithmetic rounds to the nearest
      double.
    - An exception is a value of [exn]; a method is a function from the
      object state to the new state and either a value or a raised
      exception, so that the attributes set before an exception was raised
      stay set, as they do in Python.
    - numpy, unyt, the catalogue and the rendering functions are not part of
      this file of the repository; what the code uses of them is gathered in
      the classes [Library] and [Engine]. *)

From Stdlib Require Import String Ascii List ZArith QArith Qcanon Bool Lia.
Import ListNotations.
Open Scope string_scope.

(** ** Python floats

    A float is an IEEE double: a rational, or one of the special values.
    The arithmetic rounds every finite result to the nearest double, ties
    to even, and gives an infinity beyond the largest double, as the
    hardware does.  The sign of a zero is not kept. *)

Inductive pyfloat : Type :=
| Fin (q : Qc)
| PInf
| NInf
| NaN.

(** The float whose value is the integer, or the rational, itself. *)
Definition of_Z (z : Z) : pyfloat := Fin (Q2Qc (inject_Z z)).
Definition of_Q (q : Q) : pyfloat := Fin (Q2Qc q).

Definition fneg (a : pyfloat) : pyfloat :=
  match a with
  | Fin q => Fin (- q)%Qc
  | PInf => NInf
  | NInf => PInf
  | NaN => NaN
  end.

Definition pyfloat_eqb (a b : pyfloat) : bool :=
  match a, b with
  | Fin p, Fin q => Qeq_bool p q
  | PInf, PInf | NInf, NInf | NaN, NaN => true
  | _, _ => false
  end.

Fixpoint floats_eqb (l l' : list pyfloat) : bool :=
  match l, l' with
  | [], [] => true
  | a :: l, b :: l' => pyfloat_eqb a b && floats_eqb l l'
  | _, _ => false
  end.

(** *** Rounding to the nearest double *)

(** [2 ^ k <= n / d], for positive [n] and [d]. *)
Definition at_least_power (n d k : Z) : bool :=
  if (0 <=? k)%Z then (d * 2 ^ k <=? n)%Z else (d <=? n * 2 ^ (- k))%Z.

(** The [k] with [2 ^ k <= n / d < 2 ^ (k + 1)]. *)
Definition binade (n d : Z) : Z :=
  let k := (Z.log2 n - Z.log2 d)%Z in
  if at_least_power n d k then k else (k - 1)%Z.

(** [n / d], for positive [n] and [d], as [m * 2 ^ e] with a mantissa [m]
    of 53 bits; [e] is not below -1074, the exponent of the subnormal
    doubles.  A remainder above one half rounds the mantissa up, a
    remainder of one half rounds it to the even neighbour.  The largest
    double is [(2 ^ 53 - 1) * 2 ^ 971]. *)
Definition round_positive (n d : Z) : pyfloat :=
  let e := Z.max (binade n d - 52) (-1074) in
  let N := if (0 <=? e)%Z then n else (n * 2 ^ (- e))%Z in
  let D := if (0 <=? e)%Z then (d * 2 ^ e)%Z else d in
  let m := (N / D)%Z in
  let r := (N mod D)%Z in
  let m := if ((D <? 2 * r)%Z || ((D =? 2 * r)%Z && Z.odd m))%bool
           then (m + 1)%Z else m in
  if ((971 <? e)%Z || ((e =? 971)%Z && (m =? 2 ^ 53)%Z))%bool then PInf
  else if (0 <=? e)%Z then of_Z (m * 2 ^ e)
       else of_Q (Qred (m # Z.to_pos (2 ^ (- e)))).

Definition round (q : Qc) : pyfloat :=
  match Qnum q with
  | Z0 => of_Z 0
  | Zpos n => round_positive (Zpos n) (Zpos (Qden q))
  | Zneg n => fneg (round_positive (Zpos n) (Zpos (Qden q)))
  end.

(** *** Arithmetic *)

Definition fadd (a b : pyfloat) : pyfloat :=
  match a, b with
  | NaN, _ | _, NaN => NaN
  | Fin p, Fin q => round (p + q)%Qc
  | PInf, NInf | NInf, PInf => NaN
  | PInf, _ | _, PInf => PInf
  | NInf, _ | _, NInf => NInf
  end.

Definition fsub (a b : pyfloat) : pyfloat := fadd a (fneg b).

(** The sign of an infinity scaled by a finite factor; zero times infinity
    is not a number. *)
Definition scale_inf (positive : bool) (p : Qc) : pyfloat :=
  match (p ?= 0)%Qc with
  | Eq => NaN
  | Gt => if positive then PInf else NInf
  | Lt => if positive then NInf else PInf
  end.

Definition is_one (a : pyfloat) : bool := pyfloat_eqb a (of_Z 1).

(** A product by 1.0 is the other factor, whatever it is: no rounding can
    change it. *)
Definition fmul (a b : pyfloat) : pyfloat :=
  if is_one b then a
  else if is_one a then b
  else
    match a, b with
    | NaN, _ | _, NaN => NaN
    | Fin p, Fin q => round (p * q)%Qc
    | Fin p, PInf | PInf, Fin p => scale_inf true p
    | Fin p, NInf | NInf, Fin p => scale_inf false p
    | PInf, PInf | NInf, NInf => PInf
    | PInf, NInf | NInf, PInf => NInf
    end.

(** numpy division: a finite value over zero is an infinity, not an
    exception. *)
Definition fdiv (a b : pyfloat) : pyfloat :=
  match a, b with
  | NaN, _ | _, NaN => NaN
  | Fin p, Fin q =>
      match (q ?= 0)%Qc with
      | Eq => scale_inf true p
      | _ => round (p / q)%Qc
      end
  | Fin _, PInf | Fin _, NInf => Fin 0%Qc
  | PInf, Fin q => match (q ?= 0)%Qc with Lt => NInf | _ => PInf end
  | NInf, Fin q => match (q ?= 0)%Qc with Lt => PInf | _ => NInf end
  | _, _ => NaN
  end.

Definition fis_zero (a : pyfloat) : bool :=
  match a with
  | Fin q => match (q ?= 0)%Qc with Eq => true | _ => false end
  | _ => false
  end.

(** ** Values loaded from the YAML file *)

#[local] Set Warnings "-register-all".

Inductive yaml : Type :=
| YNull
| YBool (b : bool)
| YInt (z : Z)
| YFloat (f : pyfloat)
| YStr (s : string)
| YSeq (l : list yaml)
| YMap (m : list (string * yaml)).

Fixpoint assoc {A : Type} (k : string) (m : list (string * A)) : option A :=
  match m with
  | [] => None
  | (k', v) :: m' => if String.eqb k k' then Some v else assoc k m'
  end.

(** ** Exceptions and results *)

Inductive exn : Type :=
| AutoPlotterError (msg : string)
| KeyError (key : string)
| TypeError
| ValueError
| AttributeError
| OverflowError
| UnitParseError
| UnitConversionError
| OtherError (class_name : string).

Inductive result (A : Type) : Type :=
| Ok (a : A)
| Raise (e : exn).
Arguments Ok {A} a.
Arguments Raise {A} e.

Definition is_AutoPlotterError (e : exn) : bool :=
  match e with AutoPlotterError _ => true | _ => false end.

Definition is_Ok {A : Type} (r : result A) : bool :=
  match r with Ok _ => true | Raise _ => false end.

Definition value_or {A : Type} (r : result A) (default : A) : A :=
  match r with Ok a => a | Raise _ => default end.

Definition error_of {A : Type} (r : result A) : option exn :=
  match r with Ok _ => None | Raise e => Some e end.

Definition is_Some {A : Type} (o : option A) : bool :=
  match o with Some _ => true | None => false end.

Definition some_or {A : Type} (o : option A) (default : A) : A :=
  match o with Some a => a | None => default end.

Definition rbind {A B : Type} (r : result A) (k : A -> result B) : result B :=
  match r with
  | Ok a => k a
  | Raise e => Raise e
  end.

(** [v[key]] on a loaded value: only a mapping can be indexed by a string;
    a missing key is a [KeyError], any other value a [TypeError]. *)
Definition getitem (v : yaml) (key : string) : result yaml :=
  match v with
  | YMap m => match assoc key m with
              | Some x => Ok x
              | None => Raise (KeyError key)
              end
  | _ => Raise TypeError
  end.

(** [bool(v)] *)
Definition py_bool (v : yaml) : bool :=
  match v with
  | YNull => false
  | YBool b => b
  | YInt z => negb (z =? 0)%Z
  | YFloat f => negb (fis_zero f)
  | YStr s => negb (String.eqb s "")
  | YSeq l => match l with [] => false | _ => true end
  | YMap m => match m with [] => false | _ => true end
  end.

(** [float(z)] of an integer: the nearest double, and an [OverflowError]
    when there is none ("int too large to convert to float"). *)
Definition float_of_int (z : Z) : result pyfloat :=
  match round (Q2Qc (inject_Z z)) with
  | PInf | NInf => Raise OverflowError
  | f => Ok f
  end.

(** ** A state and exception monad for methods *)

Definition M (S A : Type) : Type := S -> S * result A.

Definition ret {S A : Type} (a : A) : M S A := fun s => (s, Ok a).
Definition raise {S A : Type} (e : exn) : M S A := fun s => (s, Raise e).
Definition bind {S A B : Type} (c : M S A) (k : A -> M S B) : M S B :=
  fun s => match c s with
           | (s', Ok a) => k a s'
           | (s', Raise e) => (s', Raise e)
           end.
Definition lift {S A : Type} (r : result A) : M S A := fun s => (s, r).
Definition get {S : Type} : M S S := fun s => (s, Ok s).
Definition modify {S : Type} (f : S -> S) : M S unit := fun s => (f s, Ok tt).

(** [try: body except KeyError: handler] *)
Definition try_except_KeyError {S A : Type} (body handler : M S A) : M S A :=
  fun s => match body s with
           | (s', Raise (KeyError _)) => handler s'
           | r => r
           end.

Declare Scope method_scope.
Delimit Scope method_scope with method.
Notation "x <- c ;; k" := (bind c (fun x => k))
  (at level 61, c at next level, right associativity) : method_scope.
Notation "c ;; k" := (bind c (fun _ => k))
  (at level 61, right associativity) : method_scope.

(** [for x in xs: body x] *)
Fixpoint for_each {S A : Type} (xs : list A) (body : A -> M S unit) : M S unit :=
  match xs with
  | [] => ret tt
  | x :: xs' => bind (body x) (fun _ => for_each xs' body)
  end.

(** [obs] is an observation of the state that the method [m] leaves as it
    is, whatever [m] returns or raises, on the states whose observation
    satisfies [J]. *)
Definition keeps {S T A : Type} (J : T -> Prop) (obs : S -> T) (m : M S A) : Prop :=
  forall s s' r, J (obs s) -> m s = (s', r) -> obs s' = obs s.

Definition always {T : Type} (t : T) : Prop := True.

(** ** What the code uses of Python, numpy and unyt

    [float_of_str] and [int_of_str] are [float(s)] and [int(s)] on a string
    ([None] when Python raises [ValueError]), [py_str] is [str(v)] as an
    f-string prints a value that is not a string.  [np_log10] and
    [np_power10] are numpy's [log10] and [power(10, .)], which return special
    values instead of raising.  A [Unit] is a unyt unit; [Unit_of_str] parses
    a unit expression and [conversion_factor u v] is the factor that takes a
    value in [u] to a value in [v], when the dimensions agree.  A [Line] is
    the [VelociraptorLine] object of [velociraptor.autoplotter.lines]. *)

Class Library : Type := {
  float_of_str : string -> option pyfloat;
  int_of_str : string -> option Z;
  py_str : yaml -> string;
  np_log10 : pyfloat -> pyfloat;
  np_power10 : pyfloat -> pyfloat;
  Unit : Type;
  dimensionless : Unit;
  Unit_of_str : string -> option Unit;
  conversion_factor : Unit -> Unit -> option pyfloat;
  Line : Type;
  VelociraptorLine : string -> yaml -> result Line
}.

Section Objects.

Context {L : Library}.

(** [float(v)] *)
Definition py_float (v : yaml) : result pyfloat :=
  match v with
  | YFloat f => Ok f
  | YInt z => float_of_int z
  | YBool b => Ok (of_Z (if b then 1 else 0))
  | YStr s => match float_of_str s with
              | Some f => Ok f
              | None => Raise ValueError
              end
  | YNull | YSeq _ | YMap _ => Raise TypeError
  end.

(** [int(v)]: a float is truncated towards zero. *)
Definition py_int (v : yaml) : result Z :=
  match v with
  | YInt z => Ok z
  | YBool b => Ok (if b then 1 else 0)%Z
  | YFloat (Fin q) => Ok (Z.quot (Qnum q) (Zpos (Qden q)))
  | YFloat NaN => Raise ValueError
  | YFloat _ => Raise OverflowError
  | YStr s => match int_of_str s with
              | Some z => Ok z
              | None => Raise ValueError
              end
  | YNull | YSeq _ | YMap _ => Raise TypeError
  end.

(** The text an f-string puts in place of [{v}]. *)
Definition format_value (v : yaml) : string :=
  match v with
  | YStr s => s
  | _ => py_str v
  end.

(** [str] of a list of plain strings, as in [f"{valid_plot_types}"]. *)
Fixpoint join (sep : string) (l : list string) : string :=
  match l with
  | [] => ""
  | [s] => s
  | s :: l' => s ++ sep ++ join sep l'
  end.

Definition str_of_list (l : list string) : string :=
  "[" ++ join ", " (map (fun s => "'" ++ s ++ "'") l) ++ "]".

(** *** unyt quantities and arrays *)

Record unyt_quantity : Type := {
  value : pyfloat;
  units : Unit
}.

Record unyt_array : Type := {
  values : list pyfloat;
  array_units : Unit
}.

(** The [units=] argument of [unyt_quantity]: [None] is dimensionless, a
    string is parsed, anything else is refused. *)
Definition Unit_of (u : yaml) : result Unit :=
  match u with
  | YNull => Ok dimensionless
  | YStr s => match Unit_of_str s with
              | Some un => Ok un
              | None => Raise UnitParseError
              end
  | _ => Raise UnitParseError
  end.

Definition new_unyt_quantity (v : pyfloat) (u : yaml) : result unyt_quantity :=
  rbind (Unit_of u) (fun un => Ok {| value := v; units := un |}).

(** [a.convert_to_units(u)]: the values are scaled by the conversion
    factor and the array takes the new unit. *)
Definition convert_to_units (a : unyt_array) (u : Unit) : result unyt_array :=
  match conversion_factor (array_units a) u with
  | Some f => Ok {| values := map (fun v => fmul v f) (values a);
                    array_units := u |}
  | None => Raise UnitConversionError
  end.

(** *** numpy.linspace and numpy.logspace *)

Fixpoint set_last {A : Type} (l : list A) (x : A) : list A :=
  match l with
  | [] => []
  | [_] => [x]
  | a :: l' => a :: set_last l' x
  end.

Definition arange (num : Z) : list pyfloat :=
  map (fun i => of_Z (Z.of_nat i)) (seq 0 (Z.to_nat num)).

(** [linspace(start, stop, num)] with [endpoint=True]: [num] samples
    [start + i * step]; the last one is set to [stop]. *)
Definition linspace (start stop : pyfloat) (num : Z) : result (list pyfloat) :=
  if (num <? 0)%Z then Raise ValueError
  else
    let div := (num - 1)%Z in
    let delta := fsub stop start in
    let y := arange num in
    let y :=
      if (0 <? div)%Z then
        let step := fdiv delta (of_Z div) in
        if fis_zero step
        then map (fun v => fmul (fdiv v (of_Z div)) delta) y
        else map (fun v => fmul v step) y
      else map (fun v => fmul v delta) y in
    let y := map (fun v => fadd v start) y in
    Ok (if (1 <? num)%Z then set_last y stop else y).

(** [logspace(start, stop, num)] is [power(10, linspace(start, stop, num))]. *)
Definition logspace (start stop : pyfloat) (num : Z) : result (list pyfloat) :=
  rbind (linspace start stop num) (fun y => Ok (map np_power10 y)).

(** [log10(q)] on a limit: numpy has no [log10] of [None]; of a quantity
    it is the logarithm of the value, without the unit. *)
Definition log10 (q : option unyt_quantity) : result pyfloat :=
  match q with
  | None => Raise TypeError
  | Some q => Ok (np_log10 (value q))
  end.

(** [linspace(start, end, num)] on two limits.  When a limit is a quantity,
    numpy hands the call over to unyt, which fails on a limit that is [None]
    before the number of samples is looked at; the samples of two
    quantities keep the unit of the limits (both are made with the unit of
    the same axis).  With no quantity at all the call stays in numpy, which
    refuses a negative number of samples first. *)
Definition linspace_quantity (start stop : option unyt_quantity) (num : Z)
  : result unyt_array :=
  match start, stop with
  | Some s, Some e =>
      rbind (linspace (value s) (value e) num)
            (fun y => Ok {| values := y; array_units := units s |})
  | None, None => if (num <? 0)%Z then Raise ValueError else Raise TypeError
  | _, _ => Raise TypeError
  end.

(** ** VelociraptorPlot *)

Definition valid_plot_types : list string :=
  ["scatter"; "2dhistogram"; "massfunction"].

Inductive coordinate : Type := X | Y.

Definition coordinate_name (c : coordinate) : string :=
  match c with X => "x" | Y => "y" end.

Inductive line_type : Type := median | mean.

Definition line_type_name (t : line_type) : string :=
  match t with median => "median" | mean => "mean" end.

Definition valid_line_types : list line_type := [median; mean].

(** The attributes of one coordinate: [self.x], [self.x_units],
    [self.x_log], [self.x_lim], [self.x_label_override] and [self.x_bins]
    (the same for [y]).  An attribute that has not been set yet is [None].
    [self.x_units] is always [unyt_quantity(1.0, units=u)] and is kept as
    its unit [u]. *)
Record Axis : Type := {
  c_quantity : option yaml;
  c_units : option Unit;
  c_log : option bool;
  c_lim : option (option unyt_quantity * option unyt_quantity);
  c_label_override : option yaml;
  c_bins : option unyt_array
}.

Record VelociraptorPlot : Type := {
  filename : string;
  data : yaml;
  plot_type : option yaml;
  x : Axis;
  y : Axis;
  mean_line : option (option Line);
  median_line : option (option Line);
  number_of_bins : option Z
}.

Definition unset_axis : Axis :=
  {| c_quantity := None; c_units := None; c_log := None; c_lim := None;
     c_label_override := None; c_bins := None |}.

Definition axis (c : coordinate) (p : VelociraptorPlot) : Axis :=
  match c with X => x p | Y => y p end.

Definition with_axis (c : coordinate) (f : Axis -> Axis) (p : VelociraptorPlot)
  : VelociraptorPlot :=
  match c with
  | X => {| filename := filename p; data := data p; plot_type := plot_type p;
            x := f (x p); y := y p; mean_line := mean_line p;
            median_line := median_line p; number_of_bins := number_of_bins p |}
  | Y => {| filename := filename p; data := data p; plot_type := plot_type p;
            x := x p; y := f (y p); mean_line := mean_line p;
            median_line := median_line p; number_of_bins := number_of_bins p |}
  end.

Definition with_quantity (v : yaml) (a : Axis) : Axis :=
  {| c_quantity := Some v; c_units := c_units a; c_log := c_log a;
     c_lim := c_lim a; c_label_override := c_label_override a;
     c_bins := c_bins a |}.

Definition with_units (u : Unit) (a : Axis) : Axis :=
  {| c_quantity := c_quantity a; c_units := Some u; c_log := c_log a;
     c_lim := c_lim a; c_label_override := c_label_override a;
     c_bins := c_bins a |}.

Definition with_log (b : bool) (a : Axis) : Axis :=
  {| c_quantity := c_quantity a; c_units := c_units a; c_log := Some b;
     c_lim := c_lim a; c_label_override := c_label_override a;
     c_bins := c_bins a |}.

Definition with_lim (l : option unyt_quantity * option unyt_quantity) (a : Axis)
  : Axis :=
  {| c_quantity := c_quantity a; c_units := c_units a; c_log := c_log a;
     c_lim := Some l; c_label_override := c_label_override a;
     c_bins := c_bins a |}.

Definition with_label_override (v : yaml) (a : Axis) : Axis :=
  {| c_quantity := c_quantity a; c_units := c_units a; c_log := c_log a;
     c_lim := c_lim a; c_label_override := Some v; c_bins := c_bins a |}.

Definition with_bins (b : unyt_array) (a : Axis) : Axis :=
  {| c_quantity := c_quantity a; c_units := c_units a; c_log := c_log a;
     c_lim := c_lim a; c_label_override := c_label_override a;
     c_bins := Some b |}.

Definition with_plot_type (v : yaml) (p : VelociraptorPlot) : VelociraptorPlot :=
  {| filename := filename p; data := data p; plot_type := Some v;
     x := x p; y := y p; mean_line := mean_line p;
     median_line := median_line p; number_of_bins := number_of_bins p |}.

Definition with_number_of_bins (n : Z) (p : VelociraptorPlot) : VelociraptorPlot :=
  {| filename := filename p; data := data p; plot_type := plot_type p;
     x := x p; y := y p; mean_line := mean_line p;
     median_line := median_line p; number_of_bins := Some n |}.

Definition with_line (t : line_type) (l : option Line) (p : VelociraptorPlot)
  : VelociraptorPlot :=
  match t with
  | median =>
      {| filename := filename p; data := data p; plot_type := plot_type p;
         x := x p; y := y p; mean_line := mean_line p;
         median_line := Some l; number_of_bins := number_of_bins p |}
  | mean =>
      {| filename := filename p; data := data p; plot_type := plot_type p;
         x := x p; y := y p; mean_line := Some l;
         median_line := median_line p; number_of_bins := number_of_bins p |}
  end.

Local Open Scope method_scope.

Definition Method (A : Type) : Type := M VelociraptorPlot A.

(** [setattr(self, ...)] on an attribute of a coordinate *)
Definition setattr (c : coordinate) (f : Axis -> Axis) : Method unit :=
  modify (with_axis c f).

(** [getattr(self, ...)]: reading an attribute that was never set raises
    [AttributeError]. *)
Definition getattr {A : Type} (field : VelociraptorPlot -> option A) : Method A :=
  fun p => match field p with
           | Some a => (p, Ok a)
           | None => (p, Raise AttributeError)
           end.

(** [d[coordinate][key]] *)
Definition subitem (d : yaml) (c : coordinate) (key : string) : result yaml :=
  rbind (getitem d (coordinate_name c)) (fun d' => getitem d' key).

(** [self.data[coordinate][key]] *)
Definition data_item (c : coordinate) (key : string) : Method yaml :=
  p <- get ;;
  lift (subitem (data p) c key).

(** [f"You must provide an {coordinate}-quantity and units to plot for
    {self.filename}"] *)
Definition missing_quantity_message (c : coordinate) (name : string) : string :=
  "You must provide an " ++ coordinate_name c
  ++ "-quantity and units to plot for " ++ name.

Definition _parse_coordinate_quantity (c : coordinate) : Method unit :=
  try_except_KeyError
    (q <- data_item c "quantity" ;;
     setattr c (with_quantity q) ;;
     u <- data_item c "units" ;;
     un <- lift (Unit_of u) ;;
     setattr c (with_units un))
    (p <- get ;;
     raise (AutoPlotterError (missing_quantity_message c (filename p)))).

Definition _set_coordinate_quantity_none (c : coordinate) : Method unit :=
  setattr c (with_quantity YNull) ;;
  setattr c (with_units dimensionless).

(** [getattr(self, f"{coordinate}_lim")[i] = q] *)
Definition set_lim_item (c : coordinate) (i : nat) (q : unyt_quantity)
  : Method unit :=
  l <- getattr (fun p => c_lim (axis c p)) ;;
  match i with
  | O => setattr c (with_lim (Some q, snd l))
  | _ => setattr c (with_lim (fst l, Some q))
  end.

(** One of the two [try] blocks of [_parse_coordinate_limit]. *)
Definition parse_limit_item (c : coordinate) (key : string) (i : nat)
  : Method unit :=
  try_except_KeyError
    (s <- data_item c key ;;
     f <- lift (py_float s) ;;
     u <- data_item c "units" ;;
     q <- lift (new_unyt_quantity f u) ;;
     set_lim_item c i q)
    (ret tt).

Definition _parse_coordinate_limit (c : coordinate) : Method unit :=
  setattr c (with_lim (None, None)) ;;
  parse_limit_item c "start" 0 ;;
  parse_limit_item c "end" 1.

Definition _parse_coordinate_log (c : coordinate) : Method unit :=
  try_except_KeyError
    (v <- data_item c "log" ;;
     setattr c (with_log (py_bool v)))
    (setattr c (with_log true)).

Definition _parse_coordinate_label_override (c : coordinate) : Method unit :=
  try_except_KeyError
    (v <- data_item c "label_override" ;;
     setattr c (with_label_override v))
    (setattr c (with_label_override YNull)).

Definition _parse_line (t : line_type) : Method unit :=
  try_except_KeyError
    (p <- get ;;
     d <- lift (getitem (data p) (line_type_name t)) ;;
     l <- lift (VelociraptorLine (line_type_name t) d) ;;
     modify (with_line t (Some l)))
    (modify (with_line t None)).

Definition _parse_lines : Method unit :=
  for_each valid_line_types _parse_line.

Definition _parse_number_of_bins : Method unit :=
  try_except_KeyError
    (p <- get ;;
     v <- lift (getitem (data p) "number_of_bins") ;;
     n <- lift (py_int v) ;;
     modify (with_number_of_bins n))
    (modify (with_number_of_bins 128)).

(** [start.units] *)
Definition units_of_limit (q : option unyt_quantity) : result Unit :=
  match q with
  | Some q => Ok (units q)
  | None => Raise AttributeError
  end.

Definition _parse_coordinate_histogram_bin (c : coordinate) : Method unit :=
  l <- getattr (fun p => c_lim (axis c p)) ;;
  let (start, end_) := l in
  is_log <- getattr (fun p => c_log (axis c p)) ;;
  if is_log then
    a <- lift (log10 start) ;;
    b <- lift (log10 end_) ;;
    n <- getattr number_of_bins ;;
    e <- lift (logspace a b n) ;;
    u <- lift (units_of_limit start) ;;
    setattr c (with_bins {| values := e; array_units := u |})
  else
    n <- getattr number_of_bins ;;
    e <- lift (linspace_quantity start end_ n) ;;
    setattr c (with_bins e).

Definition _parse_scatter : Method unit :=
  for_each [X; Y] (fun c =>
    _parse_coordinate_quantity c ;;
    _parse_coordinate_log c ;;
    _parse_coordinate_limit c ;;
    _parse_coordinate_label_override c) ;;
  _parse_lines.

Definition _parse_2dhistogram : Method unit :=
  _parse_scatter ;;
  _parse_number_of_bins ;;
  for_each [X; Y] _parse_coordinate_histogram_bin.

Definition _parse_massfunction : Method unit :=
  _parse_coordinate_quantity X ;;
  _set_coordinate_quantity_none Y ;;
  for_each [X; Y] (fun c =>
    _parse_coordinate_log c ;;
    _parse_coordinate_limit c ;;
    _parse_coordinate_label_override c) ;;
  _parse_number_of_bins ;;
  _parse_coordinate_histogram_bin X.

Definition _parse_histogram : Method unit :=
  _parse_massfunction.

(** [v in valid_plot_types]: only a string can equal a member. *)
Definition in_valid_plot_types (v : yaml) : bool :=
  match v with
  | YStr s => existsb (String.eqb s) valid_plot_types
  | _ => false
  end.

(** [getattr(self, f"_parse_{self.plot_type}")]: the methods of the class
    that build a plot of some type.  The other names are never looked up,
    as [_parse_data] only gets here with a member of [valid_plot_types]. *)
Definition parse_method (v : yaml) : Method unit :=
  match v with
  | YStr s =>
      if String.eqb s "scatter" then _parse_scatter
      else if String.eqb s "2dhistogram" then _parse_2dhistogram
      else if String.eqb s "massfunction" then _parse_massfunction
      else if String.eqb s "histogram" then _parse_histogram
      else raise AttributeError
  | _ => raise AttributeError
  end.

(** [f"Plot type {self.plot_type} is not valid. Please choose from
    {valid_plot_types}."] *)
Definition invalid_type_message (t : yaml) : string :=
  "Plot type " ++ format_value t ++ " is not valid. Please choose from "
  ++ str_of_list valid_plot_types ++ ".".

Definition _parse_data : Method unit :=
  try_except_KeyError
    (p <- get ;;
     t <- lift (getitem (data p) "type") ;;
     modify (with_plot_type t))
    (modify (with_plot_type (YStr "scatter"))) ;;
  t <- getattr plot_type ;;
  if negb (in_valid_plot_types t) then
    raise (AutoPlotterError (invalid_type_message t))
  else
    parse_method t.

(** [VelociraptorPlot(filename, data)]: the object is returned when
    [__init__] raises nothing. *)
Definition new_plot (filename : string) (data : yaml) : VelociraptorPlot :=
  {| filename := filename; data := data; plot_type := None;
     x := unset_axis; y := unset_axis; mean_line := None;
     median_line := None; number_of_bins := None |}.

Definition VelociraptorPlot_init (filename : string) (data : yaml)
  : result VelociraptorPlot :=
  match _parse_data (new_plot filename data) with
  | (p, Ok _) => Ok p
  | (_, Raise e) => Raise e
  end.


(** ** AutoPlotter.parse_yaml

    [self.plots = [VelociraptorPlot(filename, plot) for filename, plot in
    self.yaml.items()]].  The first component of the result lists the
    entries for which [VelociraptorPlot] was called, in order; the second is
    the list assigned to [self.plots], or the exception that left the
    comprehension. *)

Fixpoint build_plots (items : list (string * yaml))
  : list string * result (list VelociraptorPlot) :=
  match items with
  | [] => ([], Ok [])
  | (name, entry) :: rest =>
      match VelociraptorPlot_init name entry with
      | Raise e => ([name], Raise e)
      | Ok p =>
          let (visited, r) := build_plots rest in
          (name :: visited, rbind r (fun ps => Ok (p :: ps)))
      end
  end.

Definition parse_yaml (loaded : yaml)
  : list string * result (list VelociraptorPlot) :=
  match loaded with
  | YMap items => build_plots items
  | _ => ([], Raise AttributeError)
  end.

(** ** Making the plots *)

(** Modelled from the spec: the catalogue ([VelociraptorCatalogue], whose
    module is not among the sources) is the data source of section 6: it
    "exposes dotted-path attribute resolution returning a unit-bearing
    numeric series, a method to convert a series to a target unit in place"
    and "catalogue-level scalar metadata".  It is a tree of named
    attributes whose leaves are arrays and numbers; a scalar quantity is an
    array of one value. *)
Inductive pyobj : Type :=
| Array (a : unyt_array)
| Number (f : pyfloat)
| Object (attrs : list (string * pyobj)).

Definition getattr_obj (o : pyobj) (name : string) : result pyobj :=
  match o with
  | Object attrs => match assoc name attrs with
                    | Some v => Ok v
                    | None => Raise AttributeError
                    end
  | _ => Raise AttributeError
  end.

(** [reduce(getattr, path, catalogue)] *)
Definition reduce_getattr (path : list string) (catalogue : pyobj)
  : result pyobj :=
  fold_left (fun r name => rbind r (fun o => getattr_obj o name))
            path (Ok catalogue).

Fixpoint replace_attr (name : string) (f : pyobj -> pyobj)
  (attrs : list (string * pyobj)) : list (string * pyobj) :=
  match attrs with
  | [] => []
  | (k, v) :: rest =>
      if String.eqb name k then (k, f v) :: rest
      else (k, v) :: replace_attr name f rest
  end.

(** The catalogue after the object found along [path] was changed in
    place to [v]. *)
Fixpoint store_at (path : list string) (v : pyobj) (o : pyobj) : pyobj :=
  match path with
  | [] => v
  | name :: rest =>
      match o with
      | Object attrs => Object (replace_attr name (store_at rest v) attrs)
      | _ => o
      end
  end.

(** [s.split(".")] *)
Fixpoint split_dots (s : string) : list string :=
  match s with
  | EmptyString => [""]
  | String c s' =>
      if Ascii.eqb c "."%char then "" :: split_dots s'
      else match split_dots s' with
           | h :: t => String c h :: t
           | [] => [String c ""]
           end
  end.

(** [self.x.split(".")]: only a string has a [split]. *)
Definition split_quantity (q : yaml) : result (list string) :=
  match q with
  | YStr s => Ok (split_dots s)
  | _ => Raise AttributeError
  end.

(** Modelled from the spec: the functions of [velociraptor.autoplotter.plot],
    the matplotlib axes and figure and [VelociraptorLine.plot_line] are the
    rendering engine and the overlay computer of section 6, which produce a
    figure from the series, bins and settings they are given ("errors from
    the rendering collaborator propagate unchanged").  A call is recorded
    with its arguments, in the order the calls are made. *)
Inductive draw : Type :=
| scatter_x_against_y (xs ys : unyt_array)
| histogram_x_against_y (xs ys x_bins y_bins : unyt_array)
| mass_function (xs x_bins : unyt_array) (box_volume : pyobj)
| set_xscale (scale : string)
| set_yscale (scale : string)
| set_xlim (lim : option unyt_quantity * option unyt_quantity)
| set_ylim (lim : option unyt_quantity * option unyt_quantity)
| plot_line (l : Line) (xs ys : unyt_array) (label : string)
| decorate_axes
| tight_layout
| savefig (path : string).

(** The state a call of [make_plot] works on: the plot object itself, the
    catalogue it is given, and the calls made to the rendering functions. *)
Record Render : Type := {
  self : VelociraptorPlot;
  catalogue : pyobj;
  drawn : list draw
}.

Definition Plotting (A : Type) : Type := M Render A.

Definition self_attr {A : Type} (field : VelociraptorPlot -> option A)
  : Plotting A :=
  fun r => match field (self r) with
           | Some a => (r, Ok a)
           | None => (r, Raise AttributeError)
           end.

(** The rendering functions can raise as well, and their exceptions are
    not caught: [rendering r d] is what the call [d] does in the state [r],
    it returns or it raises. *)
Class Engine : Type := {
  rendering : Render -> draw -> result unit
}.

Context {Eng : Engine}.

(** A call that returns is recorded; the exception of a call that raises
    goes to the caller. *)
Definition call (d : draw) : Plotting unit :=
  fun r => match rendering r d with
           | Ok _ => ({| self := self r; catalogue := catalogue r;
                         drawn := drawn r ++ [d] |}, Ok tt)
           | Raise e => (r, Raise e)
           end.

(** [v = reduce(getattr, self.x.split("."), catalogue)]: the variable is a
    reference to the array inside the catalogue, kept here as its path. *)
Definition catalogue_quantity (c : coordinate) : Plotting (list string) :=
  q <- self_attr (fun p => c_quantity (axis c p)) ;;
  path <- lift (split_quantity q) ;;
  r <- get ;;
  _ <- lift (reduce_getattr path (catalogue r)) ;;
  ret path.

(** The array a variable refers to, as it is now. *)
Definition deref (path : list string) : Plotting unyt_array :=
  r <- get ;;
  o <- lift (reduce_getattr path (catalogue r)) ;;
  match o with
  | Array a => ret a
  | _ => raise AttributeError
  end.

(** [v.convert_to_units(self.x_units)] on an array of the catalogue: the
    array is changed in place. *)
Definition convert_quantity (path : list string) (c : coordinate)
  : Plotting unit :=
  a <- deref path ;;
  u <- self_attr (fun p => c_units (axis c p)) ;;
  a' <- lift (convert_to_units a u) ;;
  modify (fun r => {| self := self r;
                      catalogue := store_at path (Array a') (catalogue r);
                      drawn := drawn r |}).

(** [self.x_bins.convert_to_units(self.x_units)]: the bins of the plot are
    changed in place. *)
Definition convert_bins (c : coordinate) : Plotting unit :=
  b <- self_attr (fun p => c_bins (axis c p)) ;;
  u <- self_attr (fun p => c_units (axis c p)) ;;
  b' <- lift (convert_to_units b u) ;;
  modify (fun r => {| self := with_axis c (with_bins b') (self r);
                      catalogue := catalogue r;
                      drawn := drawn r |}).

Definition set_scales_and_limits : Plotting unit :=
  x_log <- self_attr (fun p => c_log (x p)) ;;
  (if x_log : bool then call (set_xscale "log") else ret tt) ;;
  y_log <- self_attr (fun p => c_log (y p)) ;;
  (if y_log : bool then call (set_yscale "log") else ret tt) ;;
  x_lim <- self_attr (fun p => c_lim (x p)) ;;
  call (set_xlim x_lim) ;;
  y_lim <- self_attr (fun p => c_lim (y p)) ;;
  call (set_ylim y_lim).

Definition _add_lines_to_axes (xp yp : list string) : Plotting unit :=
  l <- self_attr median_line ;;
  match l with
  | Some l => xs <- deref xp ;; ys <- deref yp ;;
              call (plot_line l xs ys "Median")
  | None => ret tt
  end ;;
  l <- self_attr mean_line ;;
  match l with
  | Some l => xs <- deref xp ;; ys <- deref yp ;;
              call (plot_line l xs ys "Mean")
  | None => ret tt
  end.

Definition _make_plot_scatter : Plotting unit :=
  xp <- catalogue_quantity X ;;
  convert_quantity xp X ;;
  yp <- catalogue_quantity Y ;;
  convert_quantity yp Y ;;
  xs <- deref xp ;;
  ys <- deref yp ;;
  call (scatter_x_against_y xs ys) ;;
  set_scales_and_limits ;;
  _add_lines_to_axes xp yp.

Definition _make_plot_2dhistogram : Plotting unit :=
  xp <- catalogue_quantity X ;;
  convert_quantity xp X ;;
  yp <- catalogue_quantity Y ;;
  convert_quantity yp Y ;;
  convert_bins X ;;
  convert_bins Y ;;
  xs <- deref xp ;;
  ys <- deref yp ;;
  x_bins <- self_attr (fun p => c_bins (x p)) ;;
  y_bins <- self_attr (fun p => c_bins (y p)) ;;
  call (histogram_x_against_y xs ys x_bins y_bins) ;;
  set_scales_and_limits ;;
  _add_lines_to_axes xp yp.

(** [catalogue.units.box_volume / (catalogue.units.a ** 3)] *)
Definition comoving_box_volume (catalogue : pyobj) : result pyobj :=
  rbind (getattr_obj catalogue "units") (fun u =>
  rbind (getattr_obj u "box_volume") (fun v =>
  rbind (getattr_obj catalogue "units") (fun u' =>
  rbind (getattr_obj u' "a") (fun a =>
  match v, a with
  | Array v, Number a =>
      let a3 := fmul (fmul a a) a in
      Ok (Array {| values := map (fun w => fdiv w a3) (values v);
                   array_units := array_units v |})
  | Number v, Number a => Ok (Number (fdiv v (fmul (fmul a a) a)))
  | _, _ => Raise TypeError
  end)))).

Definition _make_plot_massfunction : Plotting unit :=
  xp <- catalogue_quantity X ;;
  convert_quantity xp X ;;
  convert_bins X ;;
  xs <- deref xp ;;
  x_bins <- self_attr (fun p => c_bins (x p)) ;;
  r <- get ;;
  v <- lift (comoving_box_volume (catalogue r)) ;;
  call (mass_function xs x_bins v) ;;
  set_scales_and_limits.

(** [getattr(self, f"_make_plot_{self.plot_type}")]: there is no
    [_make_plot_histogram]. *)
Definition make_plot_method (v : yaml) : Plotting unit :=
  match v with
  | YStr s =>
      if String.eqb s "scatter" then _make_plot_scatter
      else if String.eqb s "2dhistogram" then _make_plot_2dhistogram
      else if String.eqb s "massfunction" then _make_plot_massfunction
      else raise AttributeError
  | _ => raise AttributeError
  end.

Definition make_plot (directory file_extension : string) : Plotting unit :=
  t <- self_attr plot_type ;;
  make_plot_method t ;;
  call decorate_axes ;;
  call tight_layout ;;
  r <- get ;;
  call (savefig (directory ++ "/" ++ filename (self r) ++ "." ++ file_extension)).

End Objects.

(** ** Vocabulary of the properties *)

Section Vocabulary.

Context {L : Library}.

(** The sub-mapping of the coordinate has no [start], or no [end]. *)
Definition lacks_limit (m : list (string * yaml)) (c : coordinate) : Prop :=
  exists am, assoc (coordinate_name c) m = Some (YMap am)
             /\ (assoc "start" am = None \/ assoc "end" am = None).

(** The entry gives no [log] for the coordinate: the block of the
    coordinate is not there, or it has no [log] key. *)
Definition omits_log (m : list (string * yaml)) (c : coordinate) : Prop :=
  assoc (coordinate_name c) m = None
  \/ exists am, assoc (coordinate_name c) m = Some (YMap am)
                /\ assoc "log" am = None.

(** What one [try] block of [_parse_coordinate_limit] leaves in the limit
    for [key]: nothing when [key] or [units] is missing, the quantity when
    all is there; the exceptions other than [KeyError] go through. *)
Definition limit_value (d : yaml) (c : coordinate) (key : string)
  : result (option unyt_quantity) :=
  match subitem d c key with
  | Raise (KeyError _) => Ok None
  | Raise e => Raise e
  | Ok v =>
      match py_float v with
      | Raise e => Raise e
      | Ok f =>
          match subitem d c "units" with
          | Raise (KeyError _) => Ok None
          | Raise e => Raise e
          | Ok u =>
              match Unit_of u with
              | Ok un => Ok (Some {| value := f; units := un |})
              | Raise e => Raise e
              end
          end
      end
  end.

(** The log flag and the limits of a coordinate are set, the limits as the
    mapping [d] gives them. *)
Definition limits_resolved (d : yaml) (c : coordinate) (p : VelociraptorPlot)
  : Prop :=
  (exists b, c_log (axis c p) = Some b)
  /\ exists s e, limit_value d c "start" = Ok s
                 /\ limit_value d c "end" = Ok e
                 /\ c_lim (axis c p) = Some (s, e).

(** The unit of a coordinate is set, to the unit that [d] gives. *)
Definition units_resolved (d : yaml) (c : coordinate) (p : VelociraptorPlot)
  : Prop :=
  exists uy u, subitem d c "units" = Ok uy /\ Unit_of uy = Ok u
               /\ c_units (axis c p) = Some u.

(** The bins of a plot, where it has some, are in the unit of their
    coordinate. *)
Definition bins_in_units (p : VelociraptorPlot) : Prop :=
  forall c b, c_bins (axis c p) = Some b ->
              c_units (axis c p) = Some (array_units b).

(** The part of the loops of [_parse_scatter] and [_parse_massfunction]
    that both have, and the body of the loop of [_parse_scatter]. *)
Definition limits_body (c : coordinate) : Method unit :=
  (_parse_coordinate_log c ;;
   _parse_coordinate_limit c ;;
   _parse_coordinate_label_override c)%method.

Definition scatter_body (c : coordinate) : Method unit :=
  (_parse_coordinate_quantity c ;; limits_body c)%method.

(** A block of a coordinate that has a quantity, units that parse, and
    limits that, where they are given, are numbers. *)
Definition complete_axis (am : list (string * yaml)) : Prop :=
  (exists q, assoc "quantity" am = Some q)
  /\ (exists u un, assoc "units" am = Some u /\ Unit_of u = Ok un)
  /\ forall key v, key = "start" \/ key = "end" ->
                   assoc key am = Some v -> exists f, py_float v = Ok f.

(** The key of a line is not in the entry, or [VelociraptorLine] makes a
    line of its value. *)
Definition line_can_be_made (m : list (string * yaml)) (t : line_type) : Prop :=
  assoc (line_type_name t) m = None
  \/ exists v l, assoc (line_type_name t) m = Some v
                 /\ VelociraptorLine (line_type_name t) v = Ok l.

(** The method only adds calls to the rendering functions, after those
    that were made. *)
Definition only_draws {A : Type} (m : Plotting A) : Prop :=
  forall r r' res, m r = (r', res) -> exists calls, drawn r' = (drawn r ++ calls)%list.

(** On every plot whose entry is [d], the method raises nothing and leaves
    the entry alone. *)
Definition runs_on (d : yaml) (m : Method unit) : Prop :=
  forall p, data p = d -> exists p', m p = (p', Ok tt) /\ data p' = d.

End Vocabulary.

(** ** A small library to run the code on

    An instance of [Library] that is right where the examples below use
    it: decimal integers are read and printed, [log10] and [power(10, .)]
    are those of the powers of ten (and of zero, the negative numbers and
    the special values, as numpy has them), a unit is its expression and
    only equal units convert into one another, and a line keeps what it was
    made from. *)

Module Sample.

Definition digit_of (c : ascii) : option Z :=
  let n := Z.of_nat (nat_of_ascii c) in
  if ((48 <=? n) && (n <=? 57))%Z then Some (n - 48)%Z else None.

Fixpoint digits (s : string) (acc : Z) : option Z :=
  match s with
  | EmptyString => Some acc
  | String c s' => match digit_of c with
                   | Some d => digits s' (10 * acc + d)
                   | None => None
                   end
  end.

Definition read_int (s : string) : option Z :=
  match s with
  | EmptyString => None
  | String "-" (String c s') => option_map Z.opp (digits (String c s') 0)
  | _ => digits s 0
  end.

Fixpoint str_of_pos (fuel : nat) (n : Z) (acc : string) : string :=
  match fuel with
  | O => acc
  | S fuel' =>
      let d := ascii_of_nat (Z.to_nat (48 + n mod 10)) in
      if (n <? 10)%Z then String d acc
      else str_of_pos fuel' (n / 10) (String d acc)
  end.

Definition str_of_int (z : Z) : string :=
  if (z <? 0)%Z then String "-" (str_of_pos (Z.to_nat (Z.log2 (- z)) + 1) (- z) "")
  else str_of_pos (Z.to_nat (Z.log2 z) + 1) z "".

Definition show_value (v : yaml) : string :=
  match v with
  | YNull => "None"
  | YBool true => "True"
  | YBool false => "False"
  | YInt z => str_of_int z
  | YStr s => s
  | _ => "..."
  end.

(** [10 ^ k] *)
Definition power_of_ten (k : Z) : Qc :=
  if (0 <=? k)%Z then Q2Qc (inject_Z (10 ^ k))
  else Q2Qc (1 # Z.to_pos (10 ^ (- k))).

Definition is_power_of_ten (q : Qc) (k : Z) : bool :=
  ((-307 <=? k)%Z && (k <=? 308)%Z
   && pyfloat_eqb (round (power_of_ten k)) (Fin q))%bool.

(** [log10] of the double of a power of ten, among the normal doubles;
    other values are not looked at ([nan] stands for their logarithm). *)
Definition exact_log10 (f : pyfloat) : pyfloat :=
  match f with
  | Fin q =>
      match (q ?= 0)%Qc with
      | Eq => NInf
      | Lt => NaN
      | Gt =>
          let k := (((Z.log2 (Qnum q) - Z.log2 (Zpos (Qden q))) * 30103)
                    / 100000)%Z in
          if is_power_of_ten q (k - 1) then of_Z (k - 1)
          else if is_power_of_ten q k then of_Z k
          else if is_power_of_ten q (k + 1) then of_Z (k + 1)
          else NaN
      end
  | PInf => PInf
  | NInf => NaN
  | NaN => NaN
  end.

(** [power(10, .)] of an integer: the double of the power, an infinity
    above the doubles and zero below; other exponents are not looked at. *)
Definition exact_power10 (f : pyfloat) : pyfloat :=
  match f with
  | Fin q =>
      if (Zpos (Qden q) =? 1)%Z then
        if (400 <? Qnum q)%Z then PInf
        else if (Qnum q <? -400)%Z then of_Z 0
        else round (power_of_ten (Qnum q))
      else NaN
  | PInf => PInf
  | NInf => of_Z 0
  | NaN => NaN
  end.

Definition library : Library := {|
  float_of_str := fun s => option_map (fun z => round (Q2Qc (inject_Z z))) (read_int s);
  int_of_str := read_int;
  py_str := show_value;
  np_log10 := exact_log10;
  np_power10 := exact_power10;
  Unit := string;
  dimensionless := "dimensionless";
  Unit_of_str := fun s => Some s;
  conversion_factor := fun u v => if String.eqb u v then Some (of_Z 1) else None;
  Line := string * yaml;
  VelociraptorLine := fun t d => Ok (t, d)
|}.

(** A rendering engine that draws whatever it is given, and one that has no
    room to save a figure. *)
#[export] Instance engine : Engine (L := library) := {|
  rendering := fun _ _ => Ok tt
|}.

Definition full_disk : Engine (L := library) := {|
  rendering := fun _ d => match d with
                          | savefig _ => Raise (OtherError "OSError")
                          | _ => Ok tt
                          end
|}.

(** *** Entries of a configuration file to run the code on *)

Definition Msun : Unit (Library := library) := "Msun".
Definition kpc : Unit (Library := library) := "kpc".

Definition linear_axis : yaml :=
  YMap [("quantity", YStr "masses.mass_200crit"); ("units", YStr "Msun");
        ("log", YBool false); ("start", YInt 0); ("end", YInt 10)].

Definition log_axis (lower upper : Z) : yaml :=
  YMap [("quantity", YStr "masses.mass_200crit"); ("units", YStr "Msun");
        ("start", YInt lower); ("end", YInt upper)].

Definition axis_without_start : yaml :=
  YMap [("quantity", YStr "radii.r_200crit"); ("units", YStr "kpc");
        ("end", YInt 1000)].

Definition linear_massfunction : yaml :=
  YMap [("type", YStr "massfunction"); ("x", linear_axis);
        ("number_of_bins", YInt 5)].

Definition log_massfunction (lower upper bins : Z) : yaml :=
  YMap [("type", YStr "massfunction"); ("x", log_axis lower upper);
        ("number_of_bins", YInt bins)].

Definition histogram_entry : yaml :=
  YMap [("type", YStr "histogram"); ("x", log_axis 1 100)].

Definition histogram2d_without_start : yaml :=
  YMap [("type", YStr "2dhistogram"); ("x", log_axis 1 100);
        ("y", axis_without_start)].

Definition histogram2d : yaml :=
  YMap [("type", YStr "2dhistogram"); ("x", log_axis 1 100);
        ("y", linear_axis); ("number_of_bins", YInt 3)].

Definition scatter_entry : yaml :=
  YMap [("x", log_axis 1 100); ("y", linear_axis)].

Definition scatter_without_quantity : yaml :=
  YMap [("x", YMap [("units", YStr "Msun")]); ("y", linear_axis)].

Definition massfunction_with_y_limits : yaml :=
  YMap [("type", YStr "massfunction"); ("x", log_axis 1 100);
        ("y", YMap [("start", YInt 1); ("end", YInt 1000)])].

Definition pie_entry : yaml := YMap [("type", YStr "pie")].

(** The values of the bins of x of a plot. *)
Definition x_bin_values (r : result (VelociraptorPlot (L := library)))
  : option (list pyfloat) :=
  match r with
  | Ok p => option_map values (c_bins (x p))
  | Raise _ => None
  end.

(** The plot was built and the limits of y are both [None]. *)
Definition built_without_y_limits (r : result (VelociraptorPlot (L := library)))
  : bool :=
  match r with
  | Ok p => match c_lim (y p) with
            | Some (None, None) => true
            | _ => false
            end
  | Raise _ => false
  end.

Definition floats_opt_eqb (a b : option (list pyfloat)) : bool :=
  match a, b with
  | Some l, Some l' => floats_eqb l l'
  | None, None => true
  | _, _ => false
  end.

(** The plot of [histogram2d], and a catalogue that has its quantity. *)
Definition histogram2d_plot : VelociraptorPlot (L := library) :=
  value_or (VelociraptorPlot_init "mass_histogram" histogram2d)
           (new_plot "mass_histogram" histogram2d).

Definition small_catalogue : pyobj (L := library) :=
  Object [("masses",
           Object [("mass_200crit",
                    Array {| values := [of_Z 2; of_Z 50];
                             array_units := Msun |})])].

(** A plot about to parse the bins of x: five bins between 0 and 10 on a
    linear axis, or on a log axis. *)
Definition before_bins (is_log : bool) (lower upper bins : Z)
  : VelociraptorPlot (L := library) :=
  with_number_of_bins bins
    (with_axis X
       (fun a => with_lim (Some {| value := of_Z lower; units := Msun |},
                           Some {| value := of_Z upper; units := Msun |})
                          (with_log is_log a))
       (new_plot "mass_function" linear_massfunction)).

End Sample.

(** ** AutoPlotter *)

(** The sample of index [i] among the [n] samples of [linspace(a, b, n)],
    as numpy computes it in doubles: [i * step + a] with the step
    [(b - a) / (n - 1)], or [(i / (n - 1)) * (b - a) + a] when the step
    rounds to zero. *)
Definition sample (a b : pyfloat) (n : Z) (i : nat) : pyfloat :=
  let delta := fsub b a in
  let step := fdiv delta (of_Z (n - 1)) in
  fadd (if fis_zero step
        then fmul (fdiv (of_Z (Z.of_nat i)) (of_Z (n - 1))) delta
        else fmul (of_Z (Z.of_nat i)) step)
       a.

(** The samples from [a] to [b]: all but the last are computed, the last
    is [b] itself. *)
Definition samples (a b : pyfloat) (n : Z) : list pyfloat :=
  (map (sample a b n) (seq 0 (Z.to_nat n - 1)) ++ [b])%list.

(** The rational is the value of a double. *)
Definition is_double (q : Qc) : Prop := round q = Fin q.

Section Plotter.

Context {L : Library} {Eng : Engine}.

(** The paths given to [fig.savefig], in the order of the calls. *)
Fixpoint saved_files (calls : list draw) : list string :=
  match calls with
  | [] => []
  | savefig path :: rest => path :: saved_files rest
  | _ :: rest => saved_files rest
  end.

(** [f"{directory}/{self.filename}.{file_extension}"] *)
Definition figure_path (directory file_extension : string) (p : VelociraptorPlot)
  : string :=
  directory ++ "/" ++ filename p ++ "." ++ file_extension.

(** What [create_plots] uses of [os]: the directories, [path.exists], and
    [mkdir], which gives [None] when it raises an [OSError]. *)
Variable filesystem : Type.
Variable path_exists : filesystem -> string -> bool.
Variable mkdir : filesystem -> string -> option filesystem.

(** The attributes [plots] and [catalogue] of an [AutoPlotter]; the
    catalogue is not set before [link_catalogue]. *)
Record AutoPlotter : Type := {
  plots : list VelociraptorPlot;
  linked_catalogue : option pyobj
}.

(** [AutoPlotter(filename)], from what [load_yaml] read in the file. *)
Definition AutoPlotter_init (loaded : yaml) : result AutoPlotter :=
  match snd (parse_yaml loaded) with
  | Ok ps => Ok {| plots := ps; linked_catalogue := None |}
  | Raise e => Raise e
  end.

Definition link_catalogue (cat : pyobj) (a : AutoPlotter) : AutoPlotter :=
  {| plots := plots a; linked_catalogue := Some cat |}.

(** The loop of [create_plots]: [plot.make_plot(catalogue=self.catalogue,
    ...)] for each plot in turn.  The plots and the catalogue are objects
    that [make_plot] changes in place; the first exception ends the loop. *)
Fixpoint plot_each (directory file_extension : string)
  (todo : list VelociraptorPlot) (cat : option pyobj) (calls : list draw)
  : list VelociraptorPlot * option pyobj * list draw * result unit :=
  match todo with
  | [] => ([], cat, calls, Ok tt)
  | p :: rest =>
      match cat with
      | None => (p :: rest, cat, calls, Raise AttributeError)
      | Some c =>
          match make_plot directory file_extension
                  {| self := p; catalogue := c; drawn := calls |} with
          | (r, Ok _) =>
              match plot_each directory file_extension rest
                      (Some (catalogue r)) (drawn r) with
              | (rest', cat', calls', res) => (self r :: rest', cat', calls', res)
              end
          | (r, Raise e) =>
              (self r :: rest, Some (catalogue r), drawn r, Raise e)
          end
      end
  end.

(** What [create_plots] works on: the plotter, the file system, and the
    calls made to the rendering functions. *)
Record Session : Type := {
  plotter : AutoPlotter;
  files : filesystem;
  figures : list draw
}.

Inductive raised : Type :=
| PlotError (e : exn)
| OSError.

(** [create_plots(directory, file_extension)]: the session after the call,
    and what was raised, if anything. *)
Definition create_plots (directory file_extension : string) (s : Session)
  : Session * option raised :=
  match (if path_exists (files s) directory then Some (files s)
         else mkdir (files s) directory) with
  | None => (s, Some OSError)
  | Some fs =>
      match plot_each directory file_extension (plots (plotter s))
              (linked_catalogue (plotter s)) (figures s) with
      | (ps, cat, calls, res) =>
          ({| plotter := {| plots := ps; linked_catalogue := cat |};
              files := fs; figures := calls |},
           match res with
           | Ok _ => None
           | Raise e => Some (PlotError e)
           end)
      end
  end.

End Plotter.

(** ** More entries, and files, to run the code on *)

Module Cases.

Import Sample.

Definition scatter_plot : VelociraptorPlot (L := library) :=
  value_or (VelociraptorPlot_init "mass_size" scatter_entry)
           (new_plot "mass_size" scatter_entry).

Definition massfunction_plot : VelociraptorPlot (L := library) :=
  value_or (VelociraptorPlot_init "mass_function" massfunction_with_y_limits)
           (new_plot "mass_function" massfunction_with_y_limits).

Definition text_axis_items : list (string * yaml) :=
  [("x", YStr "masses.mass_200crit"); ("y", linear_axis)].

Definition start_only_axis : list (string * yaml) :=
  [("quantity", YStr "masses.mass_200crit"); ("units", YStr "Msun");
   ("start", YInt 1)].

Definition start_only_items : list (string * yaml) :=
  [("x", YMap start_only_axis); ("y", linear_axis)].

Definition bad_start_axis : list (string * yaml) :=
  [("quantity", YStr "masses.mass_200crit"); ("units", YStr "Msun");
   ("start", YStr "low")].

Definition bad_start_items : list (string * yaml) :=
  [("x", YMap bad_start_axis); ("y", linear_axis)].

Definition linear_massfunction_items : list (string * yaml) :=
  [("type", YStr "massfunction"); ("x", linear_axis);
   ("number_of_bins", YInt 5)].

Definition scatter_items : list (string * yaml) :=
  [("x", log_axis 1 100); ("y", linear_axis)].

Definition configuration : list (string * yaml) :=
  [("mass_size", scatter_entry); ("mass_histogram", histogram2d)].

(** The directories that exist; [mkdir] always makes the directory. *)
Definition directories : Type := list string.

Definition directory_exists (fs : directories) (d : string) : bool :=
  existsb (String.eqb d) fs.

Definition make_directory (fs : directories) (d : string) : option directories :=
  Some (d :: fs).

Definition empty_catalogue : pyobj (L := library) := Object [].

Definition session (cat : option (pyobj (L := library)))
  : Session (L := library) directories :=
  {| plotter := {| plots := [histogram2d_plot; scatter_plot];
                   linked_catalogue := cat |};
     files := [];
     figures := [] |}.

Definition histogram2d_render : Render (L := library) :=
  {| self := histogram2d_plot; catalogue := small_catalogue; drawn := [] |}.

Definition scatter_render : Render (L := library) :=
  {| self := scatter_plot; catalogue := small_catalogue; drawn := [] |}.

Definition log_axis_items : list (string * yaml) :=
  [("quantity", YStr "masses.mass_200crit"); ("units", YStr "Msun");
   ("start", YInt 1); ("end", YInt 100)].

Definition linear_axis_items : list (string * yaml) :=
  [("quantity", YStr "masses.mass_200crit"); ("units", YStr "Msun");
   ("log", YBool false); ("start", YInt 0); ("end", YInt 10)].

(** A scatter plot of two quantities, and a catalogue that has both. *)
Definition mass_radius_entry : yaml :=
  YMap [("x", log_axis 1 100); ("y", axis_without_start)].

Definition mass_radius_plot : VelociraptorPlot (L := library) :=
  value_or (VelociraptorPlot_init "mass_radius" mass_radius_entry)
           (new_plot "mass_radius" mass_radius_entry).

Definition catalogue_with_radii : pyobj (L := library) :=
  Object [("masses",
           Object [("mass_200crit",
                    Array {| values := [of_Z 2; of_Z 50];
                             array_units := Msun |})]);
          ("radii",
           Object [("r_200crit",
                    Array {| values := [of_Z 3; of_Z 40];
                             array_units := kpc |})])].

Definition mass_radius_render : Render (L := library) :=
  {| self := mass_radius_plot; catalogue := catalogue_with_radii; drawn := [] |}.

(** Three plots and a catalogue that lacks the y quantity of the second. *)
Definition session_without_radii : Session (L := library) directories :=
  {| plotter := {| plots := [scatter_plot; mass_radius_plot; histogram2d_plot];
                   linked_catalogue := Some small_catalogue |};
     files := [];
     figures := [] |}.

(** The loop of [create_plots] on the first of them, and [make_plot] on the
    second in the state the first one left. *)
Abbreviation first_made :=
  (plot_each (L := library) "plots" "png" [scatter_plot]
             (linked_catalogue (plotter _ session_without_radii))
             (figures _ session_without_radii)).

Abbreviation second_tried :=
  (make_plot (L := library) "plots" "png"
     {| self := mass_radius_plot;
        catalogue := some_or (snd (fst (fst first_made))) small_catalogue;
        drawn := snd (fst first_made) |}).

Definition massfunction_items : list (string * yaml) :=
  [("type", YStr "massfunction"); ("x", log_axis 1 100);
   ("y", YMap [("start", YInt 1); ("end", YInt 1000)])].

Definition render_without_quantity : Render (L := library) :=
  {| self := histogram2d_plot; catalogue := empty_catalogue; drawn := [] |}.

Definition run (cat : option (pyobj (L := library)))
  : Session (L := library) directories * option raised :=
  create_plots directories directory_exists make_directory "plots" "png"
               (session cat).

End Cases.

(** * Properties *)

(** ** Floats, lists and numpy *)

Lemma pyfloat_eqb_eq (a b : pyfloat) : pyfloat_eqb a b = true -> a = b.
Proof.
  destruct a as [p| | |], b as [q| | |]; cbn; try discriminate; try reflexivity.
  intros H. f_equal. apply Qc_is_canon. now apply Qeq_bool_iff.
Qed.

Lemma floats_eqb_eq (l l' : list pyfloat) : floats_eqb l l' = true -> l = l'.
Proof.
  revert l'. induction l as [|a l IH]; intros [|b l']; cbn;
    try discriminate; try reflexivity.
  intros H. apply andb_prop in H as [Ha Hl].
  f_equal; [now apply pyfloat_eqb_eq | now apply IH].
Qed.

Lemma fmul_1_r (v : pyfloat) : fmul v (of_Z 1) = v.
Proof. reflexivity. Qed.

Lemma map_fmul_1_r (l : list pyfloat) : map (fun v => fmul v (of_Z 1)) l = l.
Proof.
  induction l as [|v l IH]; simpl; [reflexivity|].
  now rewrite fmul_1_r, IH.
Qed.

Lemma set_last_length {A : Type} (l : list A) (a : A) :
  length (set_last l a) = length l.
Proof.
  induction l as [|b l IH]; [reflexivity|].
  destruct l as [|c l]; [reflexivity|].
  change (S (length (set_last (c :: l) a)) = S (length (c :: l))).
  now rewrite IH.
Qed.

Lemma arange_length (n : Z) : length (arange n) = Z.to_nat n.
Proof. unfold arange. now rewrite length_map, length_seq. Qed.

(** [linspace] returns [num] samples whenever [num] is not negative. *)
Lemma linspace_samples (start stop : pyfloat) (num : Z) :
  (0 <= num)%Z ->
  exists l, linspace start stop num = Ok l /\ length l = Z.to_nat num.
Proof.
  intros Hn. unfold linspace.
  destruct (Z.ltb_spec num 0) as [Hlt|_]; [lia|].
  eexists. split; [reflexivity|].
  assert (Hlen : forall f g h, length (map (A:=pyfloat) (B:=pyfloat) f
            (if (0 <? num - 1)%Z
             then if fis_zero (fdiv (fsub stop start) (of_Z (num - 1)))
                  then map g (arange num) else map h (arange num)
             else map (fun v => fmul v (fsub stop start)) (arange num)))
          = Z.to_nat num).
  { intros f g h. rewrite length_map.
    destruct (0 <? num - 1)%Z; [destruct (fis_zero _)|];
      now rewrite length_map, arange_length. }
  destruct (1 <? num)%Z; [rewrite set_last_length|]; apply Hlen.
Qed.

Lemma linspace_negative (start stop : pyfloat) (num : Z) :
  (num < 0)%Z -> linspace start stop num = Raise ValueError.
Proof.
  intros Hn. unfold linspace.
  destruct (Z.ltb_spec num 0) as [_|Hge]; [reflexivity|lia].
Qed.

Section Properties.

Context {L : Library} {Eng : Engine}.

Lemma logspace_samples (a b : pyfloat) (num : Z) :
  (0 <= num)%Z ->
  exists l, logspace a b num = Ok l /\ length l = Z.to_nat num.
Proof.
  intros Hn. unfold logspace.
  destruct (linspace_samples a b num Hn) as (l & -> & Hl).
  exists (map np_power10 l). split; [reflexivity|].
  now rewrite length_map.
Qed.

(** ** Running a method *)

Lemma bind_ok {S A B : Type} (c : M S A) (k : A -> M S B) (s s1 : S) (a : A) :
  c s = (s1, Ok a) -> bind c k s = k a s1.
Proof. intros H. unfold bind. now rewrite H. Qed.

Lemma bind_raise {S A B : Type} (c : M S A) (k : A -> M S B) (s s1 : S) (e : exn) :
  c s = (s1, Raise e) -> bind c k s = (s1, Raise e).
Proof. intros H. unfold bind. now rewrite H. Qed.

(** A sequence that ends well went well in both halves. *)
Lemma bind_inv_ok {S A B : Type} (c : M S A) (k : A -> M S B) (s s' : S) (b : B) :
  bind c k s = (s', Ok b) ->
  exists s1 a, c s = (s1, Ok a) /\ k a s1 = (s', Ok b).
Proof.
  unfold bind. destruct (c s) as [s1 [a|e]]; intros H.
  - now exists s1, a.
  - discriminate.
Qed.

Section Keeps.

Context {S T : Type} (J : T -> Prop) (obs : S -> T).

Lemma keeps_ret {A : Type} (a : A) : keeps J obs (ret a).
Proof. intros s s' r _ [= <- _]. reflexivity. Qed.

Lemma keeps_raise {A : Type} (e : exn) : keeps J obs (raise (A:=A) e).
Proof. intros s s' r _ [= <- _]. reflexivity. Qed.

Lemma keeps_lift {A : Type} (x : result A) : keeps J obs (lift x).
Proof. intros s s' r _ [= <- _]. reflexivity. Qed.

Lemma keeps_get : keeps J obs get.
Proof. intros s s' r _ [= <- _]. reflexivity. Qed.

Lemma keeps_modify (f : S -> S) :
  (forall s, J (obs s) -> obs (f s) = obs s) -> keeps J obs (modify f).
Proof. intros Hf s s' r HJ [= <- _]. now apply Hf. Qed.

Lemma keeps_bind {A B : Type} (c : M S A) (k : A -> M S B) :
  keeps J obs c -> (forall a, keeps J obs (k a)) -> keeps J obs (bind c k).
Proof.
  intros Hc Hk s s' r HJ. unfold bind.
  destruct (c s) as [s1 [a|e]] eqn:E; intros H.
  - pose proof (Hc _ _ _ HJ E) as H1.
    rewrite <- H1. apply (Hk a s1 s' r); [now rewrite H1 | exact H].
  - injection H as <- _. exact (Hc _ _ _ HJ E).
Qed.

Lemma keeps_try {A : Type} (body handler : M S A) :
  keeps J obs body -> keeps J obs handler ->
  keeps J obs (try_except_KeyError body handler).
Proof.
  intros Hb Hh s s' r HJ. unfold try_except_KeyError.
  destruct (body s) as [s1 [a|e]] eqn:E.
  - intros [= <- _]. exact (Hb _ _ _ HJ E).
  - pose proof (Hb _ _ _ HJ E) as H1.
    destruct e; try (intros [= <- _]; exact H1).
    intros H. rewrite <- H1. apply (Hh s1 s' r); [now rewrite H1 | exact H].
Qed.

Lemma keeps_for_each {A : Type} (xs : list A) (body : A -> M S unit) :
  (forall a, keeps J obs (body a)) -> keeps J obs (for_each xs body).
Proof.
  intros Hb. induction xs as [|a xs IH]; simpl.
  - apply keeps_ret.
  - apply keeps_bind; [apply Hb | intros _; exact IH].
Qed.

End Keeps.


(** ** What the parsing methods leave alone *)

Lemma keeps_getattr {T A : Type} (J : T -> Prop) (obs : VelociraptorPlot -> T)
  (field : VelociraptorPlot -> option A) : keeps J obs (getattr field).
Proof.
  intros s s' r _. unfold getattr.
  destruct (field s); intros [= <- _]; reflexivity.
Qed.

Lemma keeps_setattr {T : Type} (J : T -> Prop) (obs : VelociraptorPlot -> T)
  (c : coordinate) (f : Axis -> Axis) :
  (forall p, obs (with_axis c f p) = obs p) -> keeps J obs (setattr c f).
Proof. intros H. apply keeps_modify. intros s _. apply H. Qed.

Lemma keeps_data_item {T : Type} (J : T -> Prop) (obs : VelociraptorPlot -> T)
  (c : coordinate) (key : string) : keeps J obs (data_item c key).
Proof.
  unfold data_item. apply keeps_bind; [apply keeps_get|].
  intros a. apply keeps_lift.
Qed.

Ltac keeps_step :=
  lazymatch goal with
  | |- keeps _ _ (bind _ _) => apply keeps_bind; [|intros ?]
  | |- keeps _ _ (try_except_KeyError _ _) => apply keeps_try
  | |- keeps _ _ (for_each _ _) => apply keeps_for_each; intros ?
  | |- keeps _ _ (ret _) => apply keeps_ret
  | |- keeps _ _ (raise _) => apply keeps_raise
  | |- keeps _ _ (lift _) => apply keeps_lift
  | |- keeps _ _ get => apply keeps_get
  | |- keeps _ _ (getattr _) => apply keeps_getattr
  | |- keeps _ _ (data_item _ _) => apply keeps_data_item
  | |- keeps _ _ (setattr _ _) => apply keeps_setattr; intros ?
  | |- keeps _ _ (modify _) => apply keeps_modify; intros ? _
  | |- keeps _ _ (if ?b then _ else _) => destruct b
  | |- keeps _ _ (match ?v with _ => _ end) => destruct v
  | |- keeps _ _ (let (_, _) := ?v in _) => destruct v
  end.

Ltac same_observation :=
  repeat match goal with
         | c : coordinate |- _ => destruct c
         | t : line_type |- _ => destruct t
         end;
  try reflexivity; try congruence.

Ltac keeps_tac := repeat keeps_step; same_observation.



Arguments with_axis : simpl never.
Arguments with_plot_type : simpl never.
Arguments with_number_of_bins : simpl never.
Arguments with_line : simpl never.

(** *** Reading an attribute after another one was set *)

Lemma data_with_axis c f p : data (with_axis c f p) = data p.
Proof. now destruct c. Qed.
Lemma filename_with_axis c f p : filename (with_axis c f p) = filename p.
Proof. now destruct c. Qed.
Lemma plot_type_with_axis c f p : plot_type (with_axis c f p) = plot_type p.
Proof. now destruct c. Qed.
Lemma number_of_bins_with_axis c f p :
  number_of_bins (with_axis c f p) = number_of_bins p.
Proof. now destruct c. Qed.
Lemma axis_with_axis c f p : axis c (with_axis c f p) = f (axis c p).
Proof. now destruct c. Qed.
Lemma axis_with_other_axis c c' f p :
  c <> c' -> axis c (with_axis c' f p) = axis c p.
Proof. destruct c, c'; try reflexivity; congruence. Qed.
Lemma x_with_axis_X f p : x (with_axis X f p) = f (x p).
Proof. reflexivity. Qed.
Lemma x_with_axis_Y f p : x (with_axis Y f p) = x p.
Proof. reflexivity. Qed.
Lemma y_with_axis_Y f p : y (with_axis Y f p) = f (y p).
Proof. reflexivity. Qed.
Lemma y_with_axis_X f p : y (with_axis X f p) = y p.
Proof. reflexivity. Qed.

Lemma data_with_plot_type t p : data (with_plot_type t p) = data p.
Proof. reflexivity. Qed.
Lemma filename_with_plot_type t p : filename (with_plot_type t p) = filename p.
Proof. reflexivity. Qed.
Lemma plot_type_with_plot_type t p : plot_type (with_plot_type t p) = Some t.
Proof. reflexivity. Qed.
Lemma axis_with_plot_type c t p : axis c (with_plot_type t p) = axis c p.
Proof. now destruct c. Qed.
Lemma number_of_bins_with_plot_type t p :
  number_of_bins (with_plot_type t p) = number_of_bins p.
Proof. reflexivity. Qed.

Lemma data_with_number_of_bins n p : data (with_number_of_bins n p) = data p.
Proof. reflexivity. Qed.
Lemma filename_with_number_of_bins n p :
  filename (with_number_of_bins n p) = filename p.
Proof. reflexivity. Qed.
Lemma plot_type_with_number_of_bins n p :
  plot_type (with_number_of_bins n p) = plot_type p.
Proof. reflexivity. Qed.
Lemma axis_with_number_of_bins c n p : axis c (with_number_of_bins n p) = axis c p.
Proof. now destruct c. Qed.
Lemma number_of_bins_with_number_of_bins n p :
  number_of_bins (with_number_of_bins n p) = Some n.
Proof. reflexivity. Qed.

Lemma data_with_line t l p : data (with_line t l p) = data p.
Proof. now destruct t. Qed.
Lemma filename_with_line t l p : filename (with_line t l p) = filename p.
Proof. now destruct t. Qed.
Lemma plot_type_with_line t l p : plot_type (with_line t l p) = plot_type p.
Proof. now destruct t. Qed.
Lemma axis_with_line c t l p : axis c (with_line t l p) = axis c p.
Proof. now destruct c, t. Qed.
Lemma number_of_bins_with_line t l p :
  number_of_bins (with_line t l p) = number_of_bins p.
Proof. now destruct t. Qed.

Lemma data_new_plot name d : data (new_plot name d) = d.
Proof. reflexivity. Qed.
Lemma filename_new_plot name d : filename (new_plot name d) = name.
Proof. reflexivity. Qed.

Create Rewrite HintDb plot.

#[local] Hint Rewrite
  data_with_axis filename_with_axis plot_type_with_axis
  number_of_bins_with_axis axis_with_axis
  x_with_axis_X x_with_axis_Y y_with_axis_Y y_with_axis_X
  data_with_plot_type filename_with_plot_type plot_type_with_plot_type
  axis_with_plot_type number_of_bins_with_plot_type
  data_with_number_of_bins filename_with_number_of_bins
  plot_type_with_number_of_bins axis_with_number_of_bins
  number_of_bins_with_number_of_bins
  data_with_line filename_with_line plot_type_with_line axis_with_line
  number_of_bins_with_line data_new_plot filename_new_plot : plot.

Ltac run :=
  unfold data_item, subitem, setattr, try_except_KeyError, bind, get, lift,
    modify, getattr, raise, ret, rbind; cbn; autorewrite with plot; cbn.

(** The text of the message about a plot type, with the list written out. *)
Lemma invalid_type_message_text (t : yaml) :
  invalid_type_message t =
  "Plot type " ++ format_value t
  ++ " is not valid. Please choose from ['scatter', '2dhistogram', 'massfunction'].".
Proof. reflexivity. Qed.

Lemma missing_quantity_message_text (c : coordinate) (name : string) :
  missing_quantity_message c name =
  "You must provide an " ++ coordinate_name c
  ++ "-quantity and units to plot for " ++ name.
Proof. reflexivity. Qed.

Opaque invalid_type_message missing_quantity_message.

(** ** Plot types *)

(** A [type] that is not in [valid_plot_types] ends [__init__] with the
    message about the plot type, before anything else is parsed. *)
Lemma invalid_type_rejected (name : string) (m : list (string * yaml)) (t : yaml) :
  assoc "type" m = Some t ->
  in_valid_plot_types t = false ->
  VelociraptorPlot_init name (YMap m)
  = Raise (AutoPlotterError (invalid_type_message t)).
Proof.
  intros Ht Hv. unfold VelociraptorPlot_init, _parse_data. run.
  rewrite Ht. run. now rewrite Hv.
Qed.

(** C7 (as amended): an entry whose [type] is not a valid plot type is
    refused with an [AutoPlotterError] whose message gives the offending
    value and lists the valid plot types; the message is made from the
    value of [type] alone, so it is the same whatever the name of the
    entry. *)
Theorem invalid_type_error_lists_valid_types
  (name : string) (m : list (string * yaml)) (t : yaml) :
  assoc "type" m = Some t ->
  in_valid_plot_types t = false ->
  VelociraptorPlot_init name (YMap m)
  = Raise (AutoPlotterError
             ("Plot type " ++ format_value t
              ++ " is not valid. Please choose from ['scatter', '2dhistogram', 'massfunction'].")).
Proof.
  intros Ht Hv. rewrite (invalid_type_rejected name m t Ht Hv).
  now rewrite invalid_type_message_text.
Qed.

(** C2: a [type] of [histogram] is refused as an invalid plot type, though
    the class has a [_parse_histogram] that does what [_parse_massfunction]
    does: the entry never reaches it. *)
Theorem histogram_type_is_rejected (name : string) (m : list (string * yaml)) :
  assoc "type" m = Some (YStr "histogram") ->
  VelociraptorPlot_init name (YMap m)
  = Raise (AutoPlotterError
             "Plot type histogram is not valid. Please choose from ['scatter', '2dhistogram', 'massfunction'].")
  /\ parse_method (YStr "histogram") = _parse_massfunction.
Proof.
  intros Ht. split; [|reflexivity].
  rewrite (invalid_type_rejected name m _ Ht eq_refl).
  now rewrite invalid_type_message_text.
Qed.

(** ** Axis quantities *)

Lemma missing_quantity_run
  (c : coordinate) (p : VelociraptorPlot) (am : list (string * yaml)) :
  getitem (data p) (coordinate_name c) = Ok (YMap am) ->
  assoc "quantity" am = None \/ assoc "units" am = None ->
  _parse_coordinate_quantity c p
  = (match assoc "quantity" am with
     | Some q => with_axis c (with_quantity q) p
     | None => p
     end,
     Raise (AutoPlotterError (missing_quantity_message c (filename p)))).
Proof.
  intros Hd Hk. unfold _parse_coordinate_quantity. run.
  rewrite Hd. run.
  destruct (assoc "quantity" am) as [q|] eqn:Eq; run; [|reflexivity].
  destruct Hk as [Hk|Hk]; [discriminate|].
  rewrite Hd. run. rewrite Hk. now run.
Qed.

(** C8: when the sub-mapping of a coordinate has no [quantity] key, or no
    [units] key, [_parse_coordinate_quantity] raises an [AutoPlotterError]
    whose message names the coordinate and the entry ([self.filename]). *)
Theorem missing_quantity_names_coordinate_and_entry
  (c : coordinate) (p : VelociraptorPlot) (am : list (string * yaml)) :
  getitem (data p) (coordinate_name c) = Ok (YMap am) ->
  assoc "quantity" am = None \/ assoc "units" am = None ->
  snd (_parse_coordinate_quantity c p)
  = Raise (AutoPlotterError
             ("You must provide an " ++ coordinate_name c
              ++ "-quantity and units to plot for " ++ filename p)).
Proof.
  intros Hd Hk. rewrite (missing_quantity_run c p am Hd Hk).
  cbn [snd]. now rewrite missing_quantity_message_text.
Qed.

(** The same at the public interface, for the x axis, which every plot type
    parses first. *)
Lemma missing_x_quantity_rejected
  (name : string) (m am : list (string * yaml)) (t : yaml) :
  assoc "type" m = Some t ->
  in_valid_plot_types t = true ->
  assoc "x" m = Some (YMap am) ->
  assoc "quantity" am = None \/ assoc "units" am = None ->
  VelociraptorPlot_init name (YMap m)
  = Raise (AutoPlotterError (missing_quantity_message X name)).
Proof.
  intros Ht Hv Hx Hk. unfold VelociraptorPlot_init, _parse_data. run.
  rewrite Ht. run. rewrite Hv. cbn.
  destruct t as [| | | |s| |]; try discriminate.
  unfold in_valid_plot_types, valid_plot_types in Hv. cbn in Hv.
  unfold parse_method.
  set (p := with_plot_type (YStr s) (new_plot name (YMap m))).
  assert (Hq := missing_quantity_run X p am).
  unfold p in Hq at 1 3. autorewrite with plot in Hq. cbn in Hq.
  rewrite Hx in Hq. specialize (Hq eq_refl Hk).
  destruct (String.eqb s "scatter");
    [|destruct (String.eqb s "2dhistogram");
      [|destruct (String.eqb s "massfunction"); [|discriminate]]].
  - unfold _parse_scatter. cbn [for_each]. unfold bind at 1 2 3 4 5.
    now rewrite Hq.
  - unfold _parse_2dhistogram, _parse_scatter. cbn [for_each].
    unfold bind at 1 2 3 4 5 6 7. now rewrite Hq.
  - unfold _parse_massfunction. unfold bind at 1. now rewrite Hq.
Qed.


(** ** Defaults *)

Lemma parse_scatter_keeps_plot_type : keeps always plot_type _parse_scatter.
Proof.
  unfold _parse_scatter, _parse_lines, _parse_line,
    _parse_coordinate_label_override, _parse_coordinate_limit,
    parse_limit_item, set_lim_item, _parse_coordinate_log,
    _parse_coordinate_quantity.
  keeps_tac.
Qed.

Lemma parse_number_of_bins_default
  (p : VelociraptorPlot) (m : list (string * yaml)) :
  data p = YMap m ->
  assoc "number_of_bins" m = None ->
  _parse_number_of_bins p = (with_number_of_bins 128 p, Ok tt).
Proof.
  intros Hd Hk. unfold _parse_number_of_bins. run.
  rewrite Hd. run. rewrite Hk. reflexivity.
Qed.

Lemma parse_data_default_type (name : string) (m : list (string * yaml)) :
  assoc "type" m = None ->
  _parse_data (new_plot name (YMap m))
  = _parse_scatter (with_plot_type (YStr "scatter") (new_plot name (YMap m))).
Proof.
  intros Hk. unfold _parse_data. run. rewrite Hk. reflexivity.
Qed.

(** ** Limits *)

(** A limit key of a sub-mapping without [units]: the [KeyError] of the
    missing [units] is caught, and nothing is set. *)
Lemma parse_limit_item_without_units
  (c : coordinate) (key : string) (i : nat) (p : VelociraptorPlot)
  (am : list (string * yaml)) :
  getitem (data p) (coordinate_name c) = Ok (YMap am) ->
  assoc "units" am = None ->
  (forall v, assoc key am = Some v -> exists f, py_float v = Ok f) ->
  parse_limit_item c key i p = (p, Ok tt).
Proof.
  intros Hd Hu Hf. unfold parse_limit_item. run.
  rewrite Hd. run.
  destruct (assoc key am) as [v|] eqn:Ev; run; [|reflexivity].
  destruct (Hf v eq_refl) as [f ->]. run. now rewrite Hu.
Qed.

(** C10: when the sub-mapping of a coordinate has a [start] or an [end] that
    is a number but has no [units] key, [_parse_coordinate_limit] raises
    nothing and leaves both limits [None]: the bound is dropped. *)
Theorem limit_without_units_is_dropped
  (c : coordinate) (p : VelociraptorPlot) (am : list (string * yaml)) :
  getitem (data p) (coordinate_name c) = Ok (YMap am) ->
  assoc "units" am = None ->
  (exists v, assoc "start" am = Some v \/ assoc "end" am = Some v) ->
  (forall key v, assoc key am = Some v -> key = "start" \/ key = "end" ->
                 exists f, py_float v = Ok f) ->
  _parse_coordinate_limit c p = (with_axis c (with_lim (None, None)) p, Ok tt)
  /\ c_lim (axis c (fst (_parse_coordinate_limit c p))) = Some (None, None).
Proof.
  intros Hd Hu _ Hf.
  assert (H : _parse_coordinate_limit c p
              = (with_axis c (with_lim (None, None)) p, Ok tt)).
  { unfold _parse_coordinate_limit.
    set (p1 := with_axis c (with_lim (None, None)) p).
    assert (Hd1 : getitem (data p1) (coordinate_name c) = Ok (YMap am)).
    { unfold p1. now rewrite data_with_axis. }
    unfold bind at 1. unfold setattr at 1, modify. fold p1.
    unfold bind.
    rewrite (parse_limit_item_without_units c "start" 0 p1 am Hd1 Hu)
      by (intros v Hv; apply (Hf "start" v Hv); now left).
    rewrite (parse_limit_item_without_units c "end" 1 p1 am Hd1 Hu)
      by (intros v Hv; apply (Hf "end" v Hv); now right).
    reflexivity. }
  split; [exact H|]. rewrite H. cbn [fst]. now rewrite axis_with_axis.
Qed.


(** ** Histogram bins *)

(** With both limits, the log flag and the number of bins set, and a number
    of bins that is not negative, [_parse_coordinate_histogram_bin] sets the
    bins to an array of [number_of_bins] values in the unit of the lower
    limit. *)
Lemma histogram_bin_run
  (c : coordinate) (p : VelociraptorPlot) (s e : unyt_quantity) (b : bool) (n : Z) :
  c_lim (axis c p) = Some (Some s, Some e) ->
  c_log (axis c p) = Some b ->
  number_of_bins p = Some n ->
  (0 <= n)%Z ->
  exists edges,
    _parse_coordinate_histogram_bin c p = (with_axis c (with_bins edges) p, Ok tt)
    /\ length (values edges) = Z.to_nat n
    /\ array_units edges = units s.
Proof.
  intros Hl Hb Hn Hpos. unfold _parse_coordinate_histogram_bin. run.
  rewrite Hl. run. rewrite Hb. destruct b; run; rewrite Hn; run.
  - destruct (logspace_samples (np_log10 (value s)) (np_log10 (value e)) n Hpos)
      as (l & -> & Hlen).
    eexists. split; [reflexivity|]. now split.
  - unfold linspace_quantity.
    destruct (linspace_samples (value s) (value e) n Hpos) as (l & -> & Hlen).
    eexists. split; [reflexivity|]. now split.
Qed.

(** C1: with both limits set, on a log-scaled and on a linear axis,
    [_parse_coordinate_histogram_bin] makes [number_of_bins] bin edges (and
    so one bin fewer than [number_of_bins]), not [number_of_bins + 1]. *)
Theorem histogram_bins_have_number_of_bins_edges
  (c : coordinate) (p : VelociraptorPlot) (s e : unyt_quantity) (b : bool) (n : Z) :
  c_lim (axis c p) = Some (Some s, Some e) ->
  c_log (axis c p) = Some b ->
  number_of_bins p = Some n ->
  (0 <= n)%Z ->
  exists edges,
    _parse_coordinate_histogram_bin c p = (with_axis c (with_bins edges) p, Ok tt)
    /\ length (values edges) = Z.to_nat n
    /\ length (values edges) <> Z.to_nat (n + 1).
Proof.
  intros Hl Hb Hn Hpos.
  destruct (histogram_bin_run c p s e b n Hl Hb Hn Hpos) as (edges & Hrun & Hlen & _).
  exists edges. repeat split; [exact Hrun | exact Hlen | lia].
Qed.

(** C6 (as amended): on a log-scaled axis whose lower limit is zero or
    negative, [_parse_coordinate_histogram_bin] raises nothing: numpy's
    [log10] returns a special value, and the bins are set to an array of
    [number_of_bins] values. *)
Theorem log_bins_of_nonpositive_lower_limit_are_made
  (c : coordinate) (p : VelociraptorPlot) (s e : unyt_quantity) (q : Qc) (n : Z) :
  c_lim (axis c p) = Some (Some s, Some e) ->
  c_log (axis c p) = Some true ->
  number_of_bins p = Some n ->
  (0 <= n)%Z ->
  value s = Fin q ->
  (q <= 0)%Qc ->
  exists edges,
    _parse_coordinate_histogram_bin c p = (with_axis c (with_bins edges) p, Ok tt)
    /\ length (values edges) = Z.to_nat n.
Proof.
  intros Hl Hb Hn Hpos _ _.
  destruct (histogram_bin_run c p s e true n Hl Hb Hn Hpos) as (edges & Hrun & Hlen & _).
  now exists edges.
Qed.

(** The samples of the second example of the specification:
    [linspace(0, 10, 5)] is [0, 2.5, 5, 7.5, 10]. *)
Lemma linspace_0_10_5 :
  linspace (of_Z 0) (of_Z 10) 5
  = Ok [of_Z 0; of_Q (5 # 2); of_Z 5; of_Q (15 # 2); of_Z 10].
Proof.
  unfold linspace. cbn [Z.ltb Z.compare].
  apply (f_equal Ok), floats_eqb_eq. vm_compute. reflexivity.
Qed.


(** ** What each parsing method sets and what it leaves alone *)

Arguments subitem : simpl never.
Arguments limit_value : simpl never.

Ltac unfold_parsers :=
  unfold scatter_body, limits_body, _parse_lines, _parse_line,
    _parse_number_of_bins, _parse_coordinate_histogram_bin,
    _parse_coordinate_label_override, _parse_coordinate_limit,
    parse_limit_item, set_lim_item, _parse_coordinate_log,
    _set_coordinate_quantity_none, _parse_coordinate_quantity.

Ltac parser_keeps := unfold_parsers; keeps_tac.

Ltac step :=
  unfold data_item, setattr, try_except_KeyError, bind, get, lift,
    modify, getattr, raise, ret; cbn; autorewrite with plot; cbn.

(** *** [self.data] *)

Lemma quantity_keeps_data c : keeps always data (_parse_coordinate_quantity c).
Proof. parser_keeps. Qed.

Lemma set_none_keeps_data c : keeps always data (_set_coordinate_quantity_none c).
Proof. parser_keeps. Qed.

Lemma log_keeps_data c : keeps always data (_parse_coordinate_log c).
Proof. parser_keeps. Qed.

Lemma limits_body_keeps_data c : keeps always data (limits_body c).
Proof. parser_keeps. Qed.

Lemma scatter_body_keeps_data c : keeps always data (scatter_body c).
Proof. parser_keeps. Qed.

Lemma lines_keep_data : keeps always data _parse_lines.
Proof. parser_keeps. Qed.

Lemma number_of_bins_keeps_data : keeps always data _parse_number_of_bins.
Proof. parser_keeps. Qed.

(** *** The other coordinate *)

Lemma quantity_keeps_other_axis c c' :
  c <> c' -> keeps always (axis c) (_parse_coordinate_quantity c').
Proof. intros H. parser_keeps. Qed.

Lemma set_none_keeps_other_axis c c' :
  c <> c' -> keeps always (axis c) (_set_coordinate_quantity_none c').
Proof. intros H. parser_keeps. Qed.

Lemma limits_body_keeps_other_axis c c' :
  c <> c' -> keeps always (axis c) (limits_body c').
Proof. intros H. parser_keeps. Qed.

Lemma scatter_body_keeps_other_axis c c' :
  c <> c' -> keeps always (axis c) (scatter_body c').
Proof. intros H. parser_keeps. Qed.

Lemma histogram_bin_keeps_other_axis c c' :
  c <> c' -> keeps always (axis c) (_parse_coordinate_histogram_bin c').
Proof. intros H. parser_keeps. Qed.

Lemma lines_keep_axis c : keeps always (axis c) _parse_lines.
Proof. parser_keeps. Qed.

Lemma number_of_bins_keeps_axis c : keeps always (axis c) _parse_number_of_bins.
Proof. parser_keeps. Qed.

(** *** The coordinate itself *)

Lemma quantity_keeps_bins c :
  keeps always (fun p => c_bins (axis c p)) (_parse_coordinate_quantity c).
Proof. parser_keeps. Qed.

Lemma set_none_keeps_bins c :
  keeps always (fun p => c_bins (axis c p)) (_set_coordinate_quantity_none c).
Proof. parser_keeps. Qed.

Lemma limits_body_keeps_units_and_bins c :
  keeps always (fun p => (c_units (axis c p), c_bins (axis c p))) (limits_body c).
Proof. parser_keeps. Qed.

Lemma limit_keeps_log c :
  keeps always (fun p => c_log (axis c p)) (_parse_coordinate_limit c).
Proof. parser_keeps. Qed.

Lemma label_override_keeps_log_and_lim c :
  keeps always (fun p => (c_log (axis c p), c_lim (axis c p)))
        (_parse_coordinate_label_override c).
Proof. parser_keeps. Qed.

Lemma histogram_bin_keeps_units_log_lim c :
  keeps always (fun p => (c_units (axis c p), c_log (axis c p), c_lim (axis c p)))
        (_parse_coordinate_histogram_bin c).
Proof. parser_keeps. Qed.

Lemma histogram_bin_keeps_number_of_bins c :
  keeps always number_of_bins (_parse_coordinate_histogram_bin c).
Proof. parser_keeps. Qed.


(** *** What is set *)

Lemma float_of_int_error (z : Z) (e : exn) :
  float_of_int z = Raise e -> e = OverflowError.
Proof.
  unfold float_of_int. destruct (round _); try discriminate; now intros [= <-].
Qed.

Lemma py_float_error (v : yaml) (e : exn) :
  py_float v = Raise e ->
  e = TypeError \/ e = ValueError \/ e = OverflowError.
Proof.
  destruct v as [| |z| |s| |]; cbn; try discriminate;
    try (intros [= <-]; now left).
  - intros H. right. right. exact (float_of_int_error z e H).
  - destruct (float_of_str s); [discriminate|]. intros [= <-]. right. now left.
Qed.

Lemma Unit_of_error (u : yaml) (e : exn) :
  Unit_of u = Raise e -> e = UnitParseError.
Proof.
  destruct u as [| | | |s| |]; cbn; try discriminate;
    try (now intros [= <-]).
  destruct (Unit_of_str s); [discriminate|]. now intros [= <-].
Qed.

Lemma log_sets_log (c : coordinate) (p p' : VelociraptorPlot) :
  _parse_coordinate_log c p = (p', Ok tt) ->
  exists b, c_log (axis c p') = Some b.
Proof.
  unfold _parse_coordinate_log. step.
  destruct (subitem (data p) c "log") as [v|e].
  - intros [= <-]. autorewrite with plot. cbn. eauto.
  - destruct e; try discriminate.
    intros [= <-]. autorewrite with plot. cbn. eauto.
Qed.

(** One [try] block of [_parse_coordinate_limit], when it raises nothing:
    the limit for [key] is what [limit_value] says, when this is a
    quantity, and stays as it was otherwise. *)
Lemma limit_item_sets
  (c : coordinate) (key : string) (i : nat) (p p' : VelociraptorPlot)
  (l : option unyt_quantity * option unyt_quantity) :
  parse_limit_item c key i p = (p', Ok tt) ->
  c_lim (axis c p) = Some l ->
  exists v, limit_value (data p) c key = Ok v
            /\ c_lim (axis c p')
               = Some (match v with
                       | None => l
                       | Some q => match i with
                                   | O => (Some q, snd l)
                                   | _ => (fst l, Some q)
                                   end
                       end).
Proof.
  intros H Hl. revert H. unfold parse_limit_item, limit_value, set_lim_item. step.
  destruct (subitem (data p) c key) as [v|e].
  2:{ destruct e; try discriminate. intros [= <-]. now exists None. }
  destruct (py_float v) as [f|e] eqn:Ef.
  2:{ destruct (py_float_error _ _ Ef) as [-> | [-> | ->]]; discriminate. }
  destruct (subitem (data p) c "units") as [u|e].
  2:{ destruct e; try discriminate. intros [= <-]. now exists None. }
  unfold new_unyt_quantity, rbind.
  destruct (Unit_of u) as [un|e] eqn:Eu.
  2:{ rewrite (Unit_of_error _ _ Eu). discriminate. }
  rewrite Hl. destruct i; intros [= <-]; autorewrite with plot; cbn;
    now eexists (Some _).
Qed.

Lemma limit_item_keeps_data c key i :
  keeps always data (parse_limit_item c key i).
Proof. parser_keeps. Qed.

Lemma limit_sets_lim (c : coordinate) (p p' : VelociraptorPlot) :
  _parse_coordinate_limit c p = (p', Ok tt) ->
  exists s e, limit_value (data p) c "start" = Ok s
              /\ limit_value (data p) c "end" = Ok e
              /\ c_lim (axis c p') = Some (s, e).
Proof.
  unfold _parse_coordinate_limit. intros H.
  apply bind_inv_ok in H as (p1 & [] & H1 & H).
  apply bind_inv_ok in H as (p2 & [] & H2 & H3).
  injection H1 as <-.
  assert (Hl1 : c_lim (axis c (with_axis c (with_lim (None, None)) p))
                = Some (None, None)) by now rewrite axis_with_axis.
  destruct (limit_item_sets _ _ _ _ _ _ H2 Hl1) as (s & Hs & Hl2).
  pose proof (limit_item_keeps_data _ _ _ _ _ _ I H2) as Hd2.
  destruct (limit_item_sets _ _ _ _ _ _ H3 Hl2) as (e & He & Hl3).
  rewrite Hd2 in He. rewrite data_with_axis in Hs, He.
  exists s, e. repeat split; try assumption.
  rewrite Hl3. now destruct s, e.
Qed.

Lemma limits_body_resolves (c : coordinate) (p p' : VelociraptorPlot) :
  limits_body c p = (p', Ok tt) -> limits_resolved (data p) c p'.
Proof.
  unfold limits_body. intros H.
  apply bind_inv_ok in H as (p1 & [] & H1 & H).
  apply bind_inv_ok in H as (p2 & [] & H2 & H3).
  destruct (log_sets_log _ _ _ H1) as [b Hb].
  destruct (limit_sets_lim _ _ _ H2) as (s & e & Hs & He & Hl).
  rewrite (log_keeps_data _ _ _ _ I H1) in Hs, He.
  pose proof (limit_keeps_log _ _ _ _ I H2) as Hk2. cbn in Hk2.
  pose proof (label_override_keeps_log_and_lim _ _ _ _ I H3) as Hk3.
  injection Hk3 as Hlog Hlim.
  split.
  - exists b. now rewrite Hlog, Hk2.
  - exists s, e. repeat split; try assumption. now rewrite Hlim.
Qed.

Lemma quantity_resolves_units (c : coordinate) (p p' : VelociraptorPlot) :
  _parse_coordinate_quantity c p = (p', Ok tt) -> units_resolved (data p) c p'.
Proof.
  unfold _parse_coordinate_quantity, units_resolved. step.
  destruct (subitem (data p) c "quantity") as [q|e]; cbn.
  2:{ destruct e; discriminate. }
  autorewrite with plot.
  destruct (subitem (data p) c "units") as [u|e]; cbn.
  2:{ destruct e; discriminate. }
  destruct (Unit_of u) as [un|e] eqn:Eu; cbn.
  2:{ rewrite (Unit_of_error _ _ Eu). discriminate. }
  intros [= <-]. exists u, un. autorewrite with plot. now cbn.
Qed.

(** The body of the loop of [_parse_scatter], when it raises nothing. *)
Lemma scatter_body_resolves (c : coordinate) (p p' : VelociraptorPlot) :
  scatter_body c p = (p', Ok tt) ->
  limits_resolved (data p) c p' /\ units_resolved (data p) c p'
  /\ c_bins (axis c p') = c_bins (axis c p).
Proof.
  unfold scatter_body. intros H.
  apply bind_inv_ok in H as (p1 & [] & H1 & H2).
  pose proof (quantity_keeps_data _ _ _ _ I H1) as Hd.
  pose proof (quantity_resolves_units _ _ _ H1) as (uy & u & Hu1 & Hu2 & Hu3).
  pose proof (limits_body_resolves _ _ _ H2) as Hr. rewrite Hd in Hr.
  pose proof (limits_body_keeps_units_and_bins _ _ _ _ I H2) as Hk.
  injection Hk as Hku Hkb.
  split; [exact Hr|]. split.
  - exists uy, u. repeat split; try assumption. now rewrite Hku.
  - rewrite Hkb. exact (quantity_keeps_bins _ _ _ _ I H1).
Qed.


Lemma limits_resolved_same_axis d c p p' :
  axis c p' = axis c p -> limits_resolved d c p -> limits_resolved d c p'.
Proof. unfold limits_resolved. now intros ->. Qed.

Lemma units_resolved_same_axis d c p p' :
  axis c p' = axis c p -> units_resolved d c p -> units_resolved d c p'.
Proof. unfold units_resolved. now intros ->. Qed.

Lemma scatter_unfold :
  _parse_scatter = bind (for_each [X; Y] scatter_body) (fun _ => _parse_lines).
Proof. reflexivity. Qed.

(** [_parse_scatter], when it raises nothing, has resolved the units, the
    log flag and the limits of both coordinates, and has made no bins. *)
Lemma scatter_resolves (p p' : VelociraptorPlot) :
  _parse_scatter p = (p', Ok tt) ->
  data p' = data p
  /\ forall c, limits_resolved (data p) c p' /\ units_resolved (data p) c p'
               /\ c_bins (axis c p') = c_bins (axis c p).
Proof.
  rewrite scatter_unfold. intros H.
  apply bind_inv_ok in H as (p2 & [] & H & Hlines).
  cbn [for_each] in H.
  apply bind_inv_ok in H as (p1 & [] & Hx & H).
  apply bind_inv_ok in H as (p2' & [] & Hy & H).
  injection H as ->.
  pose proof (scatter_body_keeps_data _ _ _ _ I Hx) as Hd1.
  pose proof (scatter_body_keeps_data _ _ _ _ I Hy) as Hd2.
  pose proof (lines_keep_data _ _ _ I Hlines) as Hd3.
  split; [now rewrite Hd3, Hd2, Hd1|].
  destruct (scatter_body_resolves _ _ _ Hx) as (Lx & Ux & Bx).
  destruct (scatter_body_resolves _ _ _ Hy) as (Ly & Uy & By).
  rewrite Hd1 in Ly, Uy.
  assert (HX : axis X p' = axis X p1).
  { rewrite (lines_keep_axis X _ _ _ I Hlines).
    apply (scatter_body_keeps_other_axis X Y ltac:(discriminate) _ _ _ I Hy). }
  assert (HY : axis Y p' = axis Y p2) by apply (lines_keep_axis Y _ _ _ I Hlines).
  assert (HY0 : axis Y p1 = axis Y p)
    by apply (scatter_body_keeps_other_axis Y X ltac:(discriminate) _ _ _ I Hx).
  intros [|].
  - split; [|split].
    + now apply (limits_resolved_same_axis _ _ p1).
    + now apply (units_resolved_same_axis _ _ p1).
    + now rewrite HX.
  - split; [|split].
    + now apply (limits_resolved_same_axis _ _ p2).
    + now apply (units_resolved_same_axis _ _ p2).
    + now rewrite HY, By, HY0.
Qed.

Lemma number_of_bins_sets (p p' : VelociraptorPlot) :
  _parse_number_of_bins p = (p', Ok tt) -> exists n, number_of_bins p' = Some n.
Proof.
  unfold _parse_number_of_bins. step.
  destruct (getitem (data p) "number_of_bins") as [v|e]; cbn.
  - destruct (py_int v) as [n|e]; cbn.
    + intros [= <-]. autorewrite with plot. eauto.
    + destruct e; try discriminate. intros [= <-]. autorewrite with plot. eauto.
  - destruct e; try discriminate. intros [= <-]. autorewrite with plot. eauto.
Qed.

(** *** Bins without a limit *)

Lemma linspace_error (a b : pyfloat) (n : Z) (e : exn) :
  linspace a b n = Raise e -> e = ValueError.
Proof.
  unfold linspace. destruct (n <? 0)%Z; [|discriminate]. now intros [= <-].
Qed.

(** With a limit that is [None], [_parse_coordinate_histogram_bin] raises
    what numpy raises: a [TypeError], or the [ValueError] of a negative
    number of samples. *)
Lemma histogram_bin_without_limit
  (c : coordinate) (p : VelociraptorPlot)
  (s e : option unyt_quantity) (b : bool) (n : Z) :
  c_lim (axis c p) = Some (s, e) ->
  s = None \/ e = None ->
  c_log (axis c p) = Some b ->
  number_of_bins p = Some n ->
  exists err, _parse_coordinate_histogram_bin c p = (p, Raise err)
              /\ (err = TypeError \/ err = ValueError).
Proof.
  intros Hl Hn Hb Hnb. unfold _parse_coordinate_histogram_bin. step.
  rewrite Hl. step. rewrite Hb. destruct b; step.
  - destruct s as [s|]; cbn; [|eauto].
    destruct e as [e|]; cbn; [|eauto].
    destruct Hn; discriminate.
  - rewrite Hnb. cbn. unfold linspace_quantity.
    destruct s as [s|], e as [e|]; [destruct Hn; discriminate|eauto|eauto|].
    destruct (n <? 0)%Z; eauto.
Qed.

(** Whatever the limits are, it raises nothing else. *)
Lemma histogram_bin_errors
  (c : coordinate) (p p' : VelociraptorPlot)
  (l : option unyt_quantity * option unyt_quantity) (b : bool) (n : Z) (err : exn) :
  c_lim (axis c p) = Some l ->
  c_log (axis c p) = Some b ->
  number_of_bins p = Some n ->
  _parse_coordinate_histogram_bin c p = (p', Raise err) ->
  err = TypeError \/ err = ValueError.
Proof.
  intros Hl Hb Hnb. unfold _parse_coordinate_histogram_bin. step.
  rewrite Hl. destruct l as [s e]. step. rewrite Hb. destruct b; step.
  - destruct s as [s|]; cbn; [|intros [= _ <-]; now left].
    destruct e as [e|]; cbn; [|intros [= _ <-]; now left].
    rewrite Hnb. cbn. unfold logspace, rbind.
    destruct (linspace _ _ n) as [y|e'] eqn:E; cbn; [discriminate|].
    intros [= _ <-]. right. exact (linspace_error _ _ _ _ E).
  - rewrite Hnb. cbn. unfold linspace_quantity.
    destruct s as [s|], e as [e|];
      [|intros [= _ <-]; auto|intros [= _ <-]; auto
       |destruct (n <? 0)%Z; intros [= _ <-]; auto].
    unfold rbind. destruct (linspace _ _ n) as [y|e'] eqn:E; cbn; [discriminate|].
    intros [= _ <-]. right. exact (linspace_error _ _ _ _ E).
Qed.

Lemma limit_value_of_missing_key (m am : list (string * yaml)) c key :
  assoc (coordinate_name c) m = Some (YMap am) ->
  assoc key am = None ->
  limit_value (YMap m) c key = Ok None.
Proof.
  intros Hc Hk. unfold limit_value, subitem. cbn. rewrite Hc. cbn. now rewrite Hk.
Qed.

Lemma lacking_limit_is_None (m : list (string * yaml)) c p :
  lacks_limit m c ->
  limits_resolved (YMap m) c p ->
  exists s e b, c_lim (axis c p) = Some (s, e) /\ (s = None \/ e = None)
                /\ c_log (axis c p) = Some b.
Proof.
  intros (am & Hc & Hk) ((b & Hb) & s & e & Hs & He & Hl).
  exists s, e, b. repeat split; try assumption.
  destruct Hk as [Hk|Hk].
  - rewrite (limit_value_of_missing_key m am c "start" Hc Hk) in Hs.
    left. congruence.
  - rewrite (limit_value_of_missing_key m am c "end" Hc Hk) in He.
    right. congruence.
Qed.


(** ** Two-dimensional histograms without a limit *)

Lemma init_with_valid_type (name : string) (m : list (string * yaml)) (t : string) :
  assoc "type" m = Some (YStr t) ->
  in_valid_plot_types (YStr t) = true ->
  VelociraptorPlot_init name (YMap m)
  = match parse_method (YStr t) (with_plot_type (YStr t) (new_plot name (YMap m))) with
    | (p, Ok _) => Ok p
    | (_, Raise e) => Raise e
    end.
Proof.
  intros Ht Hv. unfold VelociraptorPlot_init, _parse_data.
  unfold try_except_KeyError, bind, get, lift, modify, getattr.
  rewrite data_new_plot. cbn [getitem]. rewrite Ht.
  rewrite plot_type_with_plot_type, Hv. reflexivity.
Qed.

(** The loop over the bins of [_parse_2dhistogram], on a plot whose limits
    are resolved and of which one is [None]. *)
Lemma histogram_bins_without_limit
  (d : yaml) (p : VelociraptorPlot) (c : coordinate)
  (s e : option unyt_quantity) (n : Z) :
  (forall c', limits_resolved d c' p) ->
  number_of_bins p = Some n ->
  c_lim (axis c p) = Some (s, e) ->
  s = None \/ e = None ->
  exists p' err,
    for_each [X; Y] _parse_coordinate_histogram_bin p = (p', Raise err)
    /\ (err = TypeError \/ err = ValueError).
Proof.
  intros Hres Hn Hl Hnone. cbn [for_each].
  destruct (Hres X) as ((bx & Hbx) & sx & ex & _ & _ & Hlx).
  destruct (Hres Y) as ((by_ & Hby) & sy & ey & _ & _ & Hly).
  destruct (_parse_coordinate_histogram_bin X p) as [p1 [[]|err]] eqn:EX.
  - (* the bins of x were made: the missing limit is one of y *)
    destruct c.
    + destruct (histogram_bin_without_limit X p s e bx n Hl Hnone Hbx Hn)
        as (err & Herr & _).
      rewrite Herr in EX. discriminate.
    + pose proof (histogram_bin_keeps_other_axis Y X ltac:(discriminate) _ _ _ I EX)
        as Hax.
      pose proof (histogram_bin_keeps_number_of_bins X _ _ _ I EX) as Hnb.
      cbn [axis] in Hl, Hax, Hby.
      destruct (histogram_bin_without_limit Y p1 s e by_ n) as (err & Herr & Hkind);
        try assumption; cbn [axis]; try (now rewrite Hax); try congruence.
      exists p1, err. split; [|exact Hkind].
      rewrite (bind_ok _ _ _ _ _ EX). now rewrite (bind_raise _ _ _ _ _ Herr).
  - exists p1, err. split; [now rewrite (bind_raise _ _ _ _ _ EX)|].
    exact (histogram_bin_errors X p p1 _ bx n err Hlx Hbx Hn EX).
Qed.

(** C3 (as amended): a [2dhistogram] entry in which a coordinate has no
    [start] or no [end] is never built.  There is no error of its own for
    this: when the quantities, limits, lines and number of bins are parsed
    without an exception, the exception is the one numpy raises on the
    limit that is [None], a [TypeError] (or the [ValueError] of a negative
    number of bins), and not an [AutoPlotterError]. *)
Theorem histogram2d_without_limit_fails_in_numpy
  (name : string) (m : list (string * yaml)) (c : coordinate) :
  assoc "type" m = Some (YStr "2dhistogram") ->
  lacks_limit m c ->
  exists e,
    VelociraptorPlot_init name (YMap m) = Raise e
    /\ (forall p,
          bind _parse_scatter (fun _ => _parse_number_of_bins)
               (with_plot_type (YStr "2dhistogram") (new_plot name (YMap m)))
          = (p, Ok tt) ->
          (e = TypeError \/ e = ValueError) /\ is_AutoPlotterError e = false).
Proof.
  intros Ht Hlack.
  rewrite (init_with_valid_type name m "2dhistogram" Ht eq_refl).
  change (parse_method (YStr "2dhistogram")) with _parse_2dhistogram.
  set (p1 := with_plot_type (YStr "2dhistogram") (new_plot name (YMap m))).
  assert (Hd1 : data p1 = YMap m) by reflexivity.
  unfold _parse_2dhistogram.
  destruct (_parse_scatter p1) as [p2 [[]|e]] eqn:E1.
  2:{ rewrite (bind_raise _ _ _ _ _ E1). exists e. split; [reflexivity|].
      intros p H. rewrite (bind_raise _ _ _ _ _ E1) in H. discriminate. }
  rewrite (bind_ok _ _ _ _ _ E1).
  destruct (_parse_number_of_bins p2) as [p3 [[]|e]] eqn:E2.
  2:{ rewrite (bind_raise _ _ _ _ _ E2). exists e. split; [reflexivity|].
      intros p H. rewrite (bind_ok _ _ _ _ _ E1), E2 in H. discriminate. }
  rewrite (bind_ok _ _ _ _ _ E2).
  destruct (scatter_resolves _ _ E1) as (Hd2 & Hres2). rewrite Hd1 in Hres2.
  destruct (number_of_bins_sets _ _ E2) as [n Hn].
  assert (Hres3 : forall c', limits_resolved (YMap m) c' p3).
  { intros c'. apply (limits_resolved_same_axis _ _ p2);
      [apply (number_of_bins_keeps_axis c' _ _ _ I E2) | apply Hres2]. }
  destruct (lacking_limit_is_None m c p3 Hlack (Hres3 c)) as (s & e & b & Hl & Hnone & _).
  destruct (histogram_bins_without_limit (YMap m) p3 c s e n Hres3 Hn Hl Hnone)
    as (p4 & err & Hrun & Hkind).
  rewrite Hrun. exists err. split; [reflexivity|].
  intros _ _. split; [exact Hkind|]. now destruct Hkind as [-> | ->].
Qed.


(** ** The plot object while the plot is made *)

Lemma limit_value_units d c key q :
  limit_value d c key = Ok (Some q) ->
  exists uy, subitem d c "units" = Ok uy /\ Unit_of uy = Ok (units q).
Proof.
  unfold limit_value.
  destruct (subitem d c key) as [v|e]; [|destruct e; discriminate].
  destruct (py_float v) as [f|e]; [|discriminate].
  destruct (subitem d c "units") as [u|e]; [|destruct e; discriminate].
  destruct (Unit_of u) as [un|e] eqn:Eu; [|discriminate].
  intros [= <-]. now exists u.
Qed.

(** The lower limit of a coordinate is in the unit of the coordinate. *)
Lemma lower_limit_in_units d c p s e :
  limits_resolved d c p -> units_resolved d c p ->
  c_lim (axis c p) = Some (Some s, e) ->
  c_units (axis c p) = Some (units s).
Proof.
  intros (_ & s' & e' & Hs & _ & Hl) (uy & u & Hu1 & Hu2 & Hu3) Hlim.
  rewrite Hl in Hlim. injection Hlim as -> _.
  destruct (limit_value_units _ _ _ _ Hs) as (uy' & Hu1' & Hu2').
  rewrite Hu3. congruence.
Qed.

Lemma histogram_bin_sets_bins (c : coordinate) (p p' : VelociraptorPlot) :
  _parse_coordinate_histogram_bin c p = (p', Ok tt) ->
  exists b s e, c_lim (axis c p) = Some (Some s, e)
                /\ c_bins (axis c p') = Some b
                /\ array_units b = units s.
Proof.
  unfold _parse_coordinate_histogram_bin. step.
  destruct (c_lim (axis c p)) as [[s e]|]; [|discriminate]. step.
  destruct (c_log (axis c p)) as [[|]|]; [| |discriminate]; step.
  - destruct s as [s|]; cbn; [|discriminate].
    destruct e as [e|]; cbn; [|discriminate].
    destruct (number_of_bins p) as [n|]; [|discriminate]. cbn.
    destruct (logspace _ _ n) as [y|err]; cbn; [|discriminate].
    intros [= <-]. autorewrite with plot. cbn.
    do 3 eexists. repeat split; reflexivity.
  - destruct (number_of_bins p) as [n|]; [|discriminate]. cbn.
    unfold linspace_quantity.
    destruct s as [s|], e as [e|];
      [|discriminate|discriminate|destruct (n <? 0)%Z; discriminate].
    unfold rbind. destruct (linspace _ _ n) as [y|err]; cbn; [|discriminate].
    intros [= <-]. autorewrite with plot. cbn.
    do 3 eexists. repeat split; reflexivity.
Qed.

Lemma histogram_bin_in_units d (c : coordinate) (p p' : VelociraptorPlot) :
  limits_resolved d c p -> units_resolved d c p ->
  _parse_coordinate_histogram_bin c p = (p', Ok tt) ->
  exists b, c_bins (axis c p') = Some b
            /\ c_units (axis c p') = Some (array_units b).
Proof.
  intros Hl Hu H.
  destruct (histogram_bin_sets_bins _ _ _ H) as (b & s & e & Hlim & Hb & Hbu).
  pose proof (histogram_bin_keeps_units_log_lim _ _ _ _ I H) as Hk.
  injection Hk as Hku _ _.
  exists b. split; [exact Hb|].
  rewrite Hku, Hbu. exact (lower_limit_in_units d c p s e Hl Hu Hlim).
Qed.

(** An object that [__init__] returned has a valid plot type and went
    through the method of that type. *)
Lemma init_inversion (name : string) (d : yaml) (p : VelociraptorPlot) :
  VelociraptorPlot_init name d = Ok p ->
  exists t, in_valid_plot_types (YStr t) = true
            /\ parse_method (YStr t) (with_plot_type (YStr t) (new_plot name d))
               = (p, Ok tt).
Proof.
  unfold VelociraptorPlot_init, _parse_data.
  unfold try_except_KeyError, bind, get, lift, modify, getattr.
  rewrite data_new_plot.
  assert (H : forall t,
    match (if negb (in_valid_plot_types t)
           then raise (AutoPlotterError (invalid_type_message t))
           else parse_method t) (with_plot_type t (new_plot name d))
    with (p0, Ok _) => Ok p0 | (_, Raise e) => Raise e end = Ok p ->
    exists t0, in_valid_plot_types (YStr t0) = true
               /\ parse_method (YStr t0) (with_plot_type (YStr t0) (new_plot name d))
                  = (p, Ok tt)).
  { intros t. destruct (in_valid_plot_types t) eqn:Ev; cbn [negb].
    - destruct t as [| | | |s| |]; try discriminate.
      destruct (parse_method _ _) as [p0 [[]|e]] eqn:E; [|discriminate].
      intros [= <-]. now exists s.
    - unfold raise. discriminate. }
  destruct (getitem d "type") as [t|e].
  - rewrite plot_type_with_plot_type. apply H.
  - destruct e; try discriminate.
    rewrite plot_type_with_plot_type. apply H.
Qed.

Lemma valid_plot_type_cases (t : string) :
  in_valid_plot_types (YStr t) = true ->
  t = "scatter" \/ t = "2dhistogram" \/ t = "massfunction".
Proof.
  unfold in_valid_plot_types, valid_plot_types. cbn [existsb].
  intros H.
  apply orb_prop in H as [H|H]; [left; now apply String.eqb_eq|].
  apply orb_prop in H as [H|H]; [right; left; now apply String.eqb_eq|].
  apply orb_prop in H as [H|H]; [right; right; now apply String.eqb_eq|].
  discriminate.
Qed.

Lemma massfunction_unfold :
  _parse_massfunction
  = bind (_parse_coordinate_quantity X) (fun _ =>
    bind (_set_coordinate_quantity_none Y) (fun _ =>
    bind (for_each [X; Y] limits_body) (fun _ =>
    bind _parse_number_of_bins (fun _ =>
    _parse_coordinate_histogram_bin X)))).
Proof. reflexivity. Qed.

Lemma units_resolved_same_units d c p p' :
  c_units (axis c p') = c_units (axis c p) ->
  units_resolved d c p -> units_resolved d c p'.
Proof. unfold units_resolved. now intros ->. Qed.


Lemma new_plot_has_no_bins name d t c :
  c_bins (axis c (with_plot_type t (new_plot name d))) = None.
Proof. rewrite axis_with_plot_type. now destruct c. Qed.

(** Every object that [__init__] returns has its bins, where it has some,
    in the unit of their coordinate: both come from the same [units] key. *)
Lemma built_bins_in_units (name : string) (d : yaml) (p : VelociraptorPlot) :
  VelociraptorPlot_init name d = Ok p -> bins_in_units p.
Proof.
  intros Hinit.
  destruct (init_inversion _ _ _ Hinit) as (t & Hv & Hrun).
  set (p1 := with_plot_type (YStr t) (new_plot name d)) in *.
  assert (Hd1 : data p1 = d) by reflexivity.
  assert (Hb1 : forall c, c_bins (axis c p1) = None)
    by (intros c; apply new_plot_has_no_bins).
  destruct (valid_plot_type_cases t Hv) as [-> | [-> | ->]].
  - (* scatter *)
    change (parse_method (YStr "scatter")) with _parse_scatter in Hrun.
    destruct (scatter_resolves _ _ Hrun) as (_ & Hres).
    intros c b Hb. destruct (Hres c) as (_ & _ & Hbins).
    rewrite Hbins, Hb1 in Hb. discriminate.
  - (* 2dhistogram *)
    change (parse_method (YStr "2dhistogram")) with _parse_2dhistogram in Hrun.
    unfold _parse_2dhistogram in Hrun.
    apply bind_inv_ok in Hrun as (p2 & [] & E1 & Hrun).
    apply bind_inv_ok in Hrun as (p3 & [] & E2 & Hrun).
    cbn [for_each] in Hrun.
    apply bind_inv_ok in Hrun as (p4 & [] & EX & Hrun).
    apply bind_inv_ok in Hrun as (p5 & [] & EY & Hrun).
    injection Hrun as ->.
    destruct (scatter_resolves _ _ E1) as (_ & Hres). rewrite Hd1 in Hres.
    assert (Hres3 : forall c, limits_resolved d c p3 /\ units_resolved d c p3).
    { intros c. destruct (Hres c) as (Hl & Hu & _).
      pose proof (number_of_bins_keeps_axis c _ _ _ I E2) as Hax.
      split; [now apply (limits_resolved_same_axis _ _ p2)
             | now apply (units_resolved_same_axis _ _ p2)]. }
    destruct (Hres3 X) as (HlX & HuX). destruct (Hres3 Y) as (HlY & HuY).
    destruct (histogram_bin_in_units d X p3 p4 HlX HuX EX) as (bx & HbX & HbuX).
    pose proof (histogram_bin_keeps_other_axis Y X ltac:(discriminate) _ _ _ I EX)
      as HaxY.
    destruct (histogram_bin_in_units d Y p4 p) as (by_ & HbY & HbuY);
      [now apply (limits_resolved_same_axis _ _ p3)
      | now apply (units_resolved_same_axis _ _ p3) | exact EY |].
    pose proof (histogram_bin_keeps_other_axis X Y ltac:(discriminate) _ _ _ I EY)
      as HaxX.
    intros [|] b Hb.
    + rewrite HaxX in *. congruence.
    + congruence.
  - (* massfunction *)
    change (parse_method (YStr "massfunction")) with _parse_massfunction in Hrun.
    rewrite massfunction_unfold in Hrun.
    apply bind_inv_ok in Hrun as (p2 & [] & EQ & Hrun).
    apply bind_inv_ok in Hrun as (p3 & [] & EN & Hrun).
    apply bind_inv_ok in Hrun as (p5 & [] & EL & Hrun).
    apply bind_inv_ok in Hrun as (p6 & [] & EB & EH).
    cbn [for_each] in EL.
    apply bind_inv_ok in EL as (p4 & [] & ELX & EL).
    apply bind_inv_ok in EL as (p5' & [] & ELY & EL).
    injection EL as ->.
    pose proof (quantity_keeps_data _ _ _ _ I EQ) as Hd2.
    pose proof (set_none_keeps_data _ _ _ _ I EN) as Hd3.
    pose proof (quantity_resolves_units _ _ _ EQ) as Hu2. rewrite Hd1 in Hu2.
    pose proof (set_none_keeps_other_axis X Y ltac:(discriminate) _ _ _ I EN) as Hax3.
    pose proof (limits_body_resolves _ _ _ ELX) as Hl4.
    rewrite Hd3, Hd2, Hd1 in Hl4.
    pose proof (limits_body_keeps_units_and_bins _ _ _ _ I ELX) as Hk4.
    injection Hk4 as Hku4 _.
    pose proof (limits_body_keeps_other_axis X Y ltac:(discriminate) _ _ _ I ELY) as Hax5.
    pose proof (number_of_bins_keeps_axis X _ _ _ I EB) as Hax6.
    assert (Hl6 : limits_resolved d X p6).
    { apply (limits_resolved_same_axis _ _ p4); [congruence | exact Hl4]. }
    assert (Hu6 : units_resolved d X p6).
    { apply (units_resolved_same_units _ _ p2); [|exact Hu2].
      cbn [axis] in *. now rewrite Hax6, Hax5, Hku4, Hax3. }
    destruct (histogram_bin_in_units d X p6 p Hl6 Hu6 EH) as (bx & HbX & HbuX).
    (* no bins for y *)
    pose proof (quantity_keeps_other_axis Y X ltac:(discriminate) _ _ _ I EQ) as HY2.
    pose proof (set_none_keeps_bins Y _ _ _ I EN) as HY3. cbn beta in HY3.
    pose proof (limits_body_keeps_other_axis Y X ltac:(discriminate) _ _ _ I ELX) as HY4.
    pose proof (limits_body_keeps_units_and_bins Y _ _ _ I ELY) as HY5.
    injection HY5 as _ HY5.
    pose proof (number_of_bins_keeps_axis Y _ _ _ I EB) as HY6.
    pose proof (histogram_bin_keeps_other_axis Y X ltac:(discriminate) _ _ _ I EH) as HY7.
    pose proof (Hb1 Y) as HY1.
    intros [|] b Hb.
    + congruence.
    + cbn [axis] in *. rewrite HY7, HY6, HY5, HY4, HY3, HY2, HY1 in Hb.
      discriminate.
Qed.

(** ** More on what [__init__] builds *)

Ltac unfold_plot_parsers :=
  unfold _parse_histogram, _parse_massfunction, _parse_2dhistogram,
    _parse_scatter; unfold_parsers.

Lemma parse_method_keeps_source_and_type (t : yaml) :
  keeps always (fun p => (filename p, data p, plot_type p)) (parse_method t).
Proof. unfold parse_method. unfold_plot_parsers. keeps_tac. Qed.

Lemma in_valid_plot_types_In (t : string) :
  in_valid_plot_types (YStr t) = true -> In t valid_plot_types.
Proof.
  intros H. destruct (valid_plot_type_cases t H) as [-> | [-> | ->]]; cbn; auto.
Qed.

(** A plot that [__init__] returns went through the parsing method of its
    plot type, which left its name and its entry alone. *)
Lemma built_plot_inversion
  (name : string) (d : yaml) (p : VelociraptorPlot) :
  VelociraptorPlot_init name d = Ok p ->
  filename p = name /\ data p = d
  /\ exists t, plot_type p = Some (YStr t) /\ In t valid_plot_types
               /\ parse_method (YStr t) (with_plot_type (YStr t) (new_plot name d))
                  = (p, Ok tt).
Proof.
  intros Hinit.
  destruct (init_inversion _ _ _ Hinit) as (t & Hv & Hrun).
  pose proof (parse_method_keeps_source_and_type _ _ _ _ I Hrun) as Hk.
  injection Hk as Hf Hd Ht.
  repeat split; try assumption.
  exists t. repeat split; [exact Ht | now apply in_valid_plot_types_In | exact Hrun].
Qed.

Lemma built_plot_of_type (name : string) (d : yaml) (p : VelociraptorPlot) (t : string) :
  VelociraptorPlot_init name d = Ok p ->
  plot_type p = Some (YStr t) ->
  parse_method (YStr t) (with_plot_type (YStr t) (new_plot name d)) = (p, Ok tt).
Proof.
  intros Hinit Ht.
  destruct (built_plot_inversion _ _ _ Hinit)
    as (_ & _ & t' & Ht' & _ & Hrun).
  congruence.
Qed.

(** X1: a plot that [__init__] returns has the name of the entry as its
    [filename], the entry as its [data], and a plot type that is one of
    [valid_plot_types], so that [make_plot] finds a [_make_plot_] method for
    it. *)
Theorem built_plot_keeps_name_entry_and_valid_type
  (name : string) (d : yaml) (p : VelociraptorPlot) :
  VelociraptorPlot_init name d = Ok p ->
  filename p = name /\ data p = d
  /\ exists t, plot_type p = Some (YStr t) /\ In t valid_plot_types.
Proof.
  intros Hinit.
  destruct (built_plot_inversion _ _ _ Hinit) as (Hf & Hd & t & Ht & Hv & _).
  repeat split; try assumption. now exists t.
Qed.

(** *** Defaults *)

Lemma omitted_log_is_a_KeyError (m : list (string * yaml)) (c : coordinate) :
  omits_log m c -> exists k, subitem (YMap m) c "log" = Raise (KeyError k).
Proof.
  unfold subitem. cbn. intros [Hc | (am & Hc & Hk)]; rewrite Hc; cbn.
  - eauto.
  - rewrite Hk. eauto.
Qed.

Lemma limits_body_log_default
  (m : list (string * yaml)) (c : coordinate) (p p' : VelociraptorPlot) :
  data p = YMap m -> omits_log m c ->
  limits_body c p = (p', Ok tt) ->
  c_log (axis c p') = Some true.
Proof.
  intros Hd Hlog H. unfold limits_body in H.
  apply bind_inv_ok in H as (p1 & [] & H1 & H).
  apply bind_inv_ok in H as (p2 & [] & H2 & H3).
  pose proof (limit_keeps_log _ _ _ _ I H2) as Hk2. cbn beta in Hk2.
  pose proof (label_override_keeps_log_and_lim _ _ _ _ I H3) as Hk3.
  injection Hk3 as Hk3 _.
  rewrite Hk3, Hk2.
  destruct (omitted_log_is_a_KeyError m c Hlog) as [k Hk].
  revert H1. unfold _parse_coordinate_log. step. rewrite Hd, Hk.
  intros [= <-]. now rewrite axis_with_axis.
Qed.

Lemma histogram_bin_keeps_log c c' :
  keeps always (fun p => c_log (axis c p)) (_parse_coordinate_histogram_bin c').
Proof. parser_keeps. Qed.

Lemma number_of_bins_default_sets
  (m : list (string * yaml)) (p p' : VelociraptorPlot) :
  data p = YMap m -> assoc "number_of_bins" m = None ->
  _parse_number_of_bins p = (p', Ok tt) ->
  number_of_bins p' = Some 128%Z.
Proof.
  intros Hd Hk. rewrite (parse_number_of_bins_default p m Hd Hk).
  now intros [= <-].
Qed.

(** A plot that [__init__] returns has a log-scaled axis for every
    coordinate for which the entry gives no [log]. *)
Lemma built_log_default
  (name : string) (m : list (string * yaml)) (p : VelociraptorPlot)
  (c : coordinate) :
  VelociraptorPlot_init name (YMap m) = Ok p ->
  omits_log m c ->
  c_log (axis c p) = Some true.
Proof.
  intros Hinit Hlog.
  destruct (init_inversion _ _ _ Hinit) as (t & Hv & Hrun).
  set (p1 := with_plot_type (YStr t) (new_plot name (YMap m))) in *.
  assert (Hd1 : data p1 = YMap m) by reflexivity.
  assert (Hscatter : forall q q', data q = YMap m ->
            _parse_scatter q = (q', Ok tt) -> c_log (axis c q') = Some true).
  { intros q q' Hd H. rewrite scatter_unfold in H.
    apply bind_inv_ok in H as (q3 & [] & H & Hlines).
    cbn [for_each] in H.
    apply bind_inv_ok in H as (q1 & [] & Hx & H).
    apply bind_inv_ok in H as (q2 & [] & Hy & H).
    injection H as ->.
    rewrite (lines_keep_axis c _ _ _ I Hlines).
    pose proof (scatter_body_keeps_data _ _ _ _ I Hx) as Hdx.
    unfold scatter_body in Hx, Hy.
    apply bind_inv_ok in Hx as (qx & [] & Hqx & Hlx).
    apply bind_inv_ok in Hy as (qy & [] & Hqy & Hly).
    pose proof (quantity_keeps_data _ _ _ _ I Hqx) as Hdqx.
    pose proof (quantity_keeps_data _ _ _ _ I Hqy) as Hdqy.
    destruct c.
    - assert (HX : axis X q3 = axis X q1).
      { rewrite (limits_body_keeps_other_axis X Y ltac:(discriminate) _ _ _ I Hly).
        apply (quantity_keeps_other_axis X Y ltac:(discriminate) _ _ _ I Hqy). }
      rewrite HX. apply (limits_body_log_default m X qx q1); try assumption; congruence.
    - apply (limits_body_log_default m Y qy q3); try assumption; congruence. }
  destruct (valid_plot_type_cases t Hv) as [-> | [-> | ->]].
  - change (parse_method (YStr "scatter")) with _parse_scatter in Hrun.
    exact (Hscatter _ _ Hd1 Hrun).
  - change (parse_method (YStr "2dhistogram")) with _parse_2dhistogram in Hrun.
    unfold _parse_2dhistogram in Hrun.
    apply bind_inv_ok in Hrun as (p2 & [] & E1 & Hrun).
    apply bind_inv_ok in Hrun as (p3 & [] & E2 & Hrun).
    cbn [for_each] in Hrun.
    apply bind_inv_ok in Hrun as (p4 & [] & EX & Hrun).
    apply bind_inv_ok in Hrun as (p5 & [] & EY & Hrun).
    injection Hrun as ->.
    rewrite (histogram_bin_keeps_log c Y _ _ _ I EY).
    rewrite (histogram_bin_keeps_log c X _ _ _ I EX).
    rewrite (number_of_bins_keeps_axis c _ _ _ I E2).
    exact (Hscatter _ _ Hd1 E1).
  - change (parse_method (YStr "massfunction")) with _parse_massfunction in Hrun.
    rewrite massfunction_unfold in Hrun.
    apply bind_inv_ok in Hrun as (p2 & [] & EQ & Hrun).
    apply bind_inv_ok in Hrun as (p3 & [] & EN & Hrun).
    apply bind_inv_ok in Hrun as (p5 & [] & EL & Hrun).
    apply bind_inv_ok in Hrun as (p6 & [] & EB & EH).
    cbn [for_each] in EL.
    apply bind_inv_ok in EL as (p4 & [] & ELX & EL).
    apply bind_inv_ok in EL as (p5' & [] & ELY & EL).
    injection EL as ->.
    pose proof (quantity_keeps_data _ _ _ _ I EQ) as Hd2.
    pose proof (set_none_keeps_data _ _ _ _ I EN) as Hd3.
    pose proof (limits_body_keeps_data _ _ _ _ I ELX) as Hd4.
    rewrite (histogram_bin_keeps_log c X _ _ _ I EH).
    rewrite (number_of_bins_keeps_axis c _ _ _ I EB).
    destruct c.
    + rewrite (limits_body_keeps_other_axis X Y ltac:(discriminate) _ _ _ I ELY).
      apply (limits_body_log_default m X p3 p4); try assumption; congruence.
    + apply (limits_body_log_default m Y p4 p5); try assumption; congruence.
Qed.

(** A binned plot that [__init__] returns has 128 bins when the entry gives
    no [number_of_bins]. *)
Lemma built_number_of_bins_default
  (name : string) (m : list (string * yaml)) (p : VelociraptorPlot) :
  VelociraptorPlot_init name (YMap m) = Ok p ->
  assoc "number_of_bins" m = None ->
  plot_type p = Some (YStr "2dhistogram")
  \/ plot_type p = Some (YStr "massfunction") ->
  number_of_bins p = Some 128%Z.
Proof.
  intros Hinit Hk [Ht | Ht];
    pose proof (built_plot_of_type _ _ _ _ Hinit Ht) as Hrun;
    set (p1 := with_plot_type _ (new_plot name (YMap m))) in *;
    assert (Hd1 : data p1 = YMap m) by reflexivity.
  - change (parse_method (YStr "2dhistogram")) with _parse_2dhistogram in Hrun.
    unfold _parse_2dhistogram in Hrun.
    apply bind_inv_ok in Hrun as (p2 & [] & E1 & Hrun).
    apply bind_inv_ok in Hrun as (p3 & [] & E2 & Hrun).
    cbn [for_each] in Hrun.
    apply bind_inv_ok in Hrun as (p4 & [] & EX & Hrun).
    apply bind_inv_ok in Hrun as (p5 & [] & EY & Hrun).
    injection Hrun as ->.
    destruct (scatter_resolves _ _ E1) as (Hd2 & _).
    rewrite (histogram_bin_keeps_number_of_bins Y _ _ _ I EY).
    rewrite (histogram_bin_keeps_number_of_bins X _ _ _ I EX).
    apply (number_of_bins_default_sets m p2 p3); try assumption; congruence.
  - change (parse_method (YStr "massfunction")) with _parse_massfunction in Hrun.
    rewrite massfunction_unfold in Hrun.
    apply bind_inv_ok in Hrun as (p2 & [] & EQ & Hrun).
    apply bind_inv_ok in Hrun as (p3 & [] & EN & Hrun).
    apply bind_inv_ok in Hrun as (p5 & [] & EL & Hrun).
    apply bind_inv_ok in Hrun as (p6 & [] & EB & EH).
    cbn [for_each] in EL.
    apply bind_inv_ok in EL as (p4 & [] & ELX & EL).
    apply bind_inv_ok in EL as (p5' & [] & ELY & EL).
    injection EL as ->.
    pose proof (quantity_keeps_data _ _ _ _ I EQ) as Hd2.
    pose proof (set_none_keeps_data _ _ _ _ I EN) as Hd3.
    pose proof (limits_body_keeps_data _ _ _ _ I ELX) as Hd4.
    pose proof (limits_body_keeps_data _ _ _ _ I ELY) as Hd5.
    rewrite (histogram_bin_keeps_number_of_bins X _ _ _ I EH).
    apply (number_of_bins_default_sets m p5 p6); try assumption; congruence.
Qed.

(** C9: in the plot that [__init__] builds from an entry, the plot type is
    [scatter] when the entry has no [type] key; the axis of a coordinate is
    log-scaled ([True]) when the entry gives no [log] for the coordinate;
    and a binned plot, a [2dhistogram] or a [massfunction], has 128 bins
    when the entry has no [number_of_bins] key. *)
Theorem defaults_of_omitted_keys
  (name : string) (m : list (string * yaml)) (p : VelociraptorPlot) :
  VelociraptorPlot_init name (YMap m) = Ok p ->
  (assoc "type" m = None -> plot_type p = Some (YStr "scatter"))
  /\ (forall c, omits_log m c -> c_log (axis c p) = Some true)
  /\ (assoc "number_of_bins" m = None ->
      plot_type p = Some (YStr "2dhistogram")
      \/ plot_type p = Some (YStr "massfunction") ->
      number_of_bins p = Some 128%Z).
Proof.
  intros Hinit. split; [|split].
  - intros Hk. revert Hinit. unfold VelociraptorPlot_init.
    rewrite (parse_data_default_type name m Hk).
    destruct (_parse_scatter _) as [p' [[]|e]] eqn:E; [|discriminate].
    intros [= <-]. exact (parse_scatter_keeps_plot_type _ _ _ I E).
  - intros c. exact (built_log_default name m p c Hinit).
  - exact (built_number_of_bins_default name m p Hinit).
Qed.

(** *** Scatter plots *)

Lemma scatter_keeps_bins_and_number_of_bins :
  keeps always (fun p => (c_bins (x p), c_bins (y p), number_of_bins p))
        _parse_scatter.
Proof. unfold_plot_parsers. keeps_tac. Qed.

Lemma line_sets_line (t : line_type) (p p' : VelociraptorPlot) :
  _parse_line t p = (p', Ok tt) ->
  exists l, match t with median => median_line p' | mean => mean_line p' end
            = Some l.
Proof.
  unfold _parse_line. step.
  destruct (getitem (data p) (line_type_name t)) as [v|e]; cbn.
  - destruct (VelociraptorLine (line_type_name t) v) as [l|e]; cbn.
    + intros [= <-]. destruct t; unfold with_line; cbn; eauto.
    + destruct e; try discriminate. intros [= <-].
      destruct t; unfold with_line; cbn; eauto.
  - destruct e; try discriminate. intros [= <-].
    destruct t; unfold with_line; cbn; eauto.
Qed.

Lemma mean_line_keeps_median_line :
  keeps always median_line (_parse_line mean).
Proof. parser_keeps. Qed.

Lemma lines_set_both (p p' : VelociraptorPlot) :
  _parse_lines p = (p', Ok tt) ->
  exists a b, median_line p' = Some a /\ mean_line p' = Some b.
Proof.
  unfold _parse_lines, valid_line_types. cbn [for_each]. intros H.
  apply bind_inv_ok in H as (p1 & [] & H1 & H).
  apply bind_inv_ok in H as (p2 & [] & H2 & H).
  injection H as ->.
  destruct (line_sets_line _ _ _ H1) as [a Ha].
  destruct (line_sets_line _ _ _ H2) as [b Hb].
  exists a, b. split; [|exact Hb].
  now rewrite (mean_line_keeps_median_line _ _ _ I H2).
Qed.

(** X2: a scatter plot that [__init__] returns has no bins and no number of
    bins (a [number_of_bins] key of the entry is not read), and both of its
    line attributes are set, to a line or to [None]. *)
Theorem built_scatter_has_lines_and_no_bins
  (name : string) (d : yaml) (p : VelociraptorPlot) :
  VelociraptorPlot_init name d = Ok p ->
  plot_type p = Some (YStr "scatter") ->
  c_bins (x p) = None /\ c_bins (y p) = None /\ number_of_bins p = None
  /\ exists a b, median_line p = Some a /\ mean_line p = Some b.
Proof.
  intros Hinit Ht.
  pose proof (built_plot_of_type _ _ _ _ Hinit Ht) as Hrun.
  change (parse_method (YStr "scatter")) with _parse_scatter in Hrun.
  pose proof (scatter_keeps_bins_and_number_of_bins _ _ _ I Hrun) as Hk.
  injection Hk as Hx Hy Hn.
  rewrite Hx, Hy, Hn. repeat split.
  rewrite scatter_unfold in Hrun.
  apply bind_inv_ok in Hrun as (p2 & [] & _ & Hlines).
  exact (lines_set_both _ _ Hlines).
Qed.

(** *** Mass functions *)

Lemma massfunction_keeps_lines_and_y_bins :
  keeps always (fun p => (mean_line p, median_line p, c_bins (y p)))
        _parse_massfunction.
Proof. unfold_plot_parsers. keeps_tac. Qed.

Lemma massfunction_tail_keeps_y_quantity :
  keeps always (fun p => (c_quantity (y p), c_units (y p)))
    (bind (for_each [X; Y] limits_body) (fun _ =>
     bind _parse_number_of_bins (fun _ =>
     _parse_coordinate_histogram_bin X))).
Proof. unfold_parsers. keeps_tac. Qed.

(** X3: a mass function that [__init__] returns has no y quantity ([None])
    and a dimensionless y unit, whatever the entry has under [y]; it has no
    bins for y, and its line attributes are never set, so that [median] and
    [mean] keys of the entry are not read. *)
Theorem built_massfunction_has_no_y_quantity
  (name : string) (d : yaml) (p : VelociraptorPlot) :
  VelociraptorPlot_init name d = Ok p ->
  plot_type p = Some (YStr "massfunction") ->
  c_quantity (y p) = Some YNull /\ c_units (y p) = Some dimensionless
  /\ c_bins (y p) = None /\ mean_line p = None /\ median_line p = None.
Proof.
  intros Hinit Ht.
  pose proof (built_plot_of_type _ _ _ _ Hinit Ht) as Hrun.
  change (parse_method (YStr "massfunction")) with _parse_massfunction in Hrun.
  pose proof (massfunction_keeps_lines_and_y_bins _ _ _ I Hrun) as Hk.
  injection Hk as Hmean Hmedian Hbins.
  rewrite massfunction_unfold in Hrun.
  apply bind_inv_ok in Hrun as (p2 & [] & _ & Hrun).
  apply bind_inv_ok in Hrun as (p3 & [] & EN & Hrun).
  pose proof (massfunction_tail_keeps_y_quantity _ _ _ I Hrun) as Hq.
  injection Hq as Hq Hu.
  unfold _set_coordinate_quantity_none, bind, setattr, modify in EN.
  injection EN as <-.
  rewrite Hq, Hu, Hbins, Hmean, Hmedian. now repeat split.
Qed.
(** *** Histograms *)

Lemma linspace_made (a b : pyfloat) (n : Z) (l : list pyfloat) :
  linspace a b n = Ok l -> (0 <= n)%Z /\ length l = Z.to_nat n.
Proof.
  intros H. destruct (Z.ltb_spec n 0) as [Hlt|Hge].
  - rewrite (linspace_negative a b n Hlt) in H. discriminate.
  - destruct (linspace_samples a b n Hge) as (l' & Hl' & Hlen).
    split; [exact Hge|]. congruence.
Qed.

(** When [_parse_coordinate_histogram_bin] raises nothing, both limits were
    there, the number of bins was not negative, and the bins have that many
    values. *)
Lemma histogram_bin_made (c : coordinate) (p p' : VelociraptorPlot) :
  _parse_coordinate_histogram_bin c p = (p', Ok tt) ->
  exists n s e b,
    number_of_bins p = Some n /\ (0 <= n)%Z
    /\ c_lim (axis c p) = Some (Some s, Some e)
    /\ c_bins (axis c p') = Some b
    /\ length (values b) = Z.to_nat n.
Proof.
  unfold _parse_coordinate_histogram_bin. step.
  destruct (c_lim (axis c p)) as [[s e]|]; [|discriminate]. step.
  destruct (c_log (axis c p)) as [[|]|]; [| |discriminate]; step.
  - destruct s as [s|]; cbn; [|discriminate].
    destruct e as [e|]; cbn; [|discriminate].
    destruct (number_of_bins p) as [n|]; [|discriminate]. cbn.
    unfold logspace, rbind.
    destruct (linspace _ _ n) as [l|err] eqn:El; cbn; [|discriminate].
    destruct (linspace_made _ _ _ _ El) as (Hn & Hlen).
    intros [= <-]. autorewrite with plot. cbn.
    exists n, s, e. eexists. repeat split; try reflexivity; try assumption.
    cbn. now rewrite length_map.
  - destruct (number_of_bins p) as [n|]; [|discriminate]. cbn.
    unfold linspace_quantity.
    destruct s as [s|], e as [e|];
      [|discriminate|discriminate|destruct (n <? 0)%Z; discriminate].
    unfold rbind. destruct (linspace _ _ n) as [l|err] eqn:El; cbn; [|discriminate].
    destruct (linspace_made _ _ _ _ El) as (Hn & Hlen).
    intros [= <-]. autorewrite with plot. cbn.
    exists n, s, e. eexists. repeat split; try reflexivity; assumption.
Qed.

(** X4: a [2dhistogram] that [__init__] returns has a number of bins that is
    not negative and, for x and for y, both limits and an array of bins of
    [number_of_bins] values. *)
Theorem built_histogram2d_has_limits_and_bins
  (name : string) (d : yaml) (p : VelociraptorPlot) (c : coordinate) :
  VelociraptorPlot_init name d = Ok p ->
  plot_type p = Some (YStr "2dhistogram") ->
  exists n s e b,
    number_of_bins p = Some n /\ (0 <= n)%Z
    /\ c_lim (axis c p) = Some (Some s, Some e)
    /\ c_bins (axis c p) = Some b
    /\ length (values b) = Z.to_nat n.
Proof.
  intros Hinit Ht.
  pose proof (built_plot_of_type _ _ _ _ Hinit Ht) as Hrun.
  change (parse_method (YStr "2dhistogram")) with _parse_2dhistogram in Hrun.
  unfold _parse_2dhistogram in Hrun.
  apply bind_inv_ok in Hrun as (p2 & [] & _ & Hrun).
  apply bind_inv_ok in Hrun as (p3 & [] & _ & Hrun).
  cbn [for_each] in Hrun.
  apply bind_inv_ok in Hrun as (p4 & [] & EX & Hrun).
  apply bind_inv_ok in Hrun as (p5 & [] & EY & Hrun).
  injection Hrun as ->.
  destruct (histogram_bin_made _ _ _ EX) as (n & sx & ex & bx & Hn & Hpos & Hlx & Hbx & Hlenx).
  destruct (histogram_bin_made _ _ _ EY) as (n' & sy & ey & by_ & Hn' & _ & Hly & Hby & Hleny).
  pose proof (histogram_bin_keeps_number_of_bins X _ _ _ I EX) as Hk4.
  pose proof (histogram_bin_keeps_number_of_bins Y _ _ _ I EY) as Hk5.
  assert (n' = n) by congruence. subst n'.
  pose proof (histogram_bin_keeps_units_log_lim X _ _ _ I EX) as HkX.
  injection HkX as _ _ HlimX.
  pose proof (histogram_bin_keeps_units_log_lim Y _ _ _ I EY) as HkY.
  injection HkY as _ _ HlimY.
  pose proof (histogram_bin_keeps_other_axis X Y ltac:(discriminate) _ _ _ I EY) as HaxX.
  destruct c; cbn [axis] in *.
  - exists n, sx, ex, bx. rewrite HaxX. repeat split; try assumption; congruence.
  - exists n, sy, ey, by_. repeat split; try assumption; congruence.
Qed.

(** X21: a mass function that [__init__] returns has both limits of x, a
    number of bins that is not negative, and an array of bins of x of
    [number_of_bins] values. *)
Theorem built_massfunction_has_x_limits_and_bins
  (name : string) (d : yaml) (p : VelociraptorPlot) :
  VelociraptorPlot_init name d = Ok p ->
  plot_type p = Some (YStr "massfunction") ->
  exists n s e b,
    number_of_bins p = Some n /\ (0 <= n)%Z
    /\ c_lim (x p) = Some (Some s, Some e)
    /\ c_bins (x p) = Some b
    /\ length (values b) = Z.to_nat n.
Proof.
  intros Hinit Ht.
  pose proof (built_plot_of_type _ _ _ _ Hinit Ht) as Hrun.
  change (parse_method (YStr "massfunction")) with _parse_massfunction in Hrun.
  rewrite massfunction_unfold in Hrun.
  apply bind_inv_ok in Hrun as (p2 & [] & _ & Hrun).
  apply bind_inv_ok in Hrun as (p3 & [] & _ & Hrun).
  apply bind_inv_ok in Hrun as (p5 & [] & _ & Hrun).
  apply bind_inv_ok in Hrun as (p6 & [] & _ & EH).
  destruct (histogram_bin_made _ _ _ EH) as (n & s & e & b & Hn & Hpos & Hl & Hb & Hlen).
  pose proof (histogram_bin_keeps_number_of_bins X _ _ _ I EH) as Hkn.
  pose proof (histogram_bin_keeps_units_log_lim X _ _ _ I EH) as Hk.
  injection Hk as _ _ Hlim.
  cbn [axis] in *.
  exists n, s, e, b. repeat split; try assumption; congruence.
Qed.

(** *** Limits and units *)

Lemma limits_resolved_same_log_lim d c p p' :
  c_log (axis c p') = c_log (axis c p) ->
  c_lim (axis c p') = c_lim (axis c p) ->
  limits_resolved d c p -> limits_resolved d c p'.
Proof. unfold limits_resolved. now intros -> ->. Qed.

(** In a plot that [__init__] returns, the unit, the log flag and the
    limits of x are what the entry gives; those of y too, unless the plot
    is a mass function. *)
Lemma built_axis_resolved
  (name : string) (d : yaml) (p : VelociraptorPlot) (c : coordinate) :
  VelociraptorPlot_init name d = Ok p ->
  (c = Y -> plot_type p <> Some (YStr "massfunction")) ->
  limits_resolved d c p /\ units_resolved d c p.
Proof.
  intros Hinit Hc.
  destruct (init_inversion _ _ _ Hinit) as (t & Hv & Hrun).
  pose proof (parse_method_keeps_source_and_type _ _ _ _ I Hrun) as Hk.
  injection Hk as _ _ Ht.
  set (p1 := with_plot_type (YStr t) (new_plot name d)) in *.
  assert (Hd1 : data p1 = d) by reflexivity.
  destruct (valid_plot_type_cases t Hv) as [-> | [-> | ->]].
  - change (parse_method (YStr "scatter")) with _parse_scatter in Hrun.
    destruct (scatter_resolves _ _ Hrun) as (_ & Hres). rewrite Hd1 in Hres.
    destruct (Hres c) as (Hl & Hu & _). now split.
  - change (parse_method (YStr "2dhistogram")) with _parse_2dhistogram in Hrun.
    unfold _parse_2dhistogram in Hrun.
    apply bind_inv_ok in Hrun as (p2 & [] & E1 & Hrun).
    apply bind_inv_ok in Hrun as (p3 & [] & E2 & Hrun).
    cbn [for_each] in Hrun.
    apply bind_inv_ok in Hrun as (p4 & [] & EX & Hrun).
    apply bind_inv_ok in Hrun as (p5 & [] & EY & Hrun).
    injection Hrun as ->.
    destruct (scatter_resolves _ _ E1) as (_ & Hres). rewrite Hd1 in Hres.
    destruct (Hres c) as (Hl & Hu & _).
    pose proof (number_of_bins_keeps_axis c _ _ _ I E2) as Hax3.
    assert (Hl3 : limits_resolved d c p3)
      by now apply (limits_resolved_same_axis _ _ p2).
    assert (Hu3 : units_resolved d c p3)
      by now apply (units_resolved_same_axis _ _ p2).
    destruct c.
    + pose proof (histogram_bin_keeps_units_log_lim X _ _ _ I EX) as HkX.
      injection HkX as Hku Hklog Hklim.
      pose proof (histogram_bin_keeps_other_axis X Y ltac:(discriminate) _ _ _ I EY)
        as HaxX.
      split.
      * apply (limits_resolved_same_axis _ _ p4); [exact HaxX|].
        now apply (limits_resolved_same_log_lim _ _ p3).
      * apply (units_resolved_same_axis _ _ p4); [exact HaxX|].
        now apply (units_resolved_same_units _ _ p3).
    + pose proof (histogram_bin_keeps_other_axis Y X ltac:(discriminate) _ _ _ I EX)
        as HaxY.
      pose proof (histogram_bin_keeps_units_log_lim Y _ _ _ I EY) as HkY.
      injection HkY as Hku Hklog Hklim.
      split.
      * apply (limits_resolved_same_log_lim _ _ p4); try assumption.
        now apply (limits_resolved_same_axis _ _ p3).
      * apply (units_resolved_same_units _ _ p4); try assumption.
        now apply (units_resolved_same_axis _ _ p3).
  - destruct c; [|now contradiction (Hc eq_refl)].
    change (parse_method (YStr "massfunction")) with _parse_massfunction in Hrun.
    rewrite massfunction_unfold in Hrun.
    apply bind_inv_ok in Hrun as (p2 & [] & EQ & Hrun).
    apply bind_inv_ok in Hrun as (p3 & [] & EN & Hrun).
    apply bind_inv_ok in Hrun as (p5 & [] & EL & Hrun).
    apply bind_inv_ok in Hrun as (p6 & [] & EB & EH).
    cbn [for_each] in EL.
    apply bind_inv_ok in EL as (p4 & [] & ELX & EL).
    apply bind_inv_ok in EL as (p5' & [] & ELY & EL).
    injection EL as ->.
    pose proof (quantity_keeps_data _ _ _ _ I EQ) as Hd2.
    pose proof (set_none_keeps_data _ _ _ _ I EN) as Hd3.
    pose proof (quantity_resolves_units _ _ _ EQ) as Hu2. rewrite Hd1 in Hu2.
    pose proof (set_none_keeps_other_axis X Y ltac:(discriminate) _ _ _ I EN) as Hax3.
    pose proof (limits_body_resolves _ _ _ ELX) as Hl4.
    rewrite Hd3, Hd2, Hd1 in Hl4.
    pose proof (limits_body_keeps_units_and_bins _ _ _ _ I ELX) as Hk4.
    injection Hk4 as Hku4 _.
    pose proof (limits_body_keeps_other_axis X Y ltac:(discriminate) _ _ _ I ELY) as Hax5.
    pose proof (number_of_bins_keeps_axis X _ _ _ I EB) as Hax6.
    pose proof (histogram_bin_keeps_units_log_lim X _ _ _ I EH) as HkX.
    injection HkX as Hku Hklog Hklim.
    split.
    + apply (limits_resolved_same_log_lim _ _ p6); try assumption.
      apply (limits_resolved_same_axis _ _ p4); [congruence | exact Hl4].
    + apply (units_resolved_same_units _ _ p2); [|exact Hu2].
      cbn [axis] in *. now rewrite Hku, Hax6, Hax5, Hku4, Hax3.
Qed.

(** X5: in a plot that [__init__] returns, every limit of x that is set is a
    quantity in the unit of x, [self.x_units]; the same holds for y, unless
    the plot is a mass function (whose y unit is dimensionless whatever the
    unit of its y limits). *)
Theorem built_limits_are_in_axis_units
  (name : string) (d : yaml) (p : VelociraptorPlot) (c : coordinate)
  (s e : option unyt_quantity) (q : unyt_quantity) :
  VelociraptorPlot_init name d = Ok p ->
  (c = Y -> plot_type p <> Some (YStr "massfunction")) ->
  c_lim (axis c p) = Some (s, e) ->
  s = Some q \/ e = Some q ->
  c_units (axis c p) = Some (units q).
Proof.
  intros Hinit Hc Hlim Hq.
  destruct (built_axis_resolved name d p c Hinit Hc)
    as ((_ & s' & e' & Hs & He & Hl) & uy & u & Hu1 & Hu2 & Hu3).
  rewrite Hl in Hlim. injection Hlim as -> ->.
  rewrite Hu3.
  destruct Hq as [-> | ->];
    [destruct (limit_value_units _ _ _ _ Hs) as (uy' & Hu1' & Hu2')
    |destruct (limit_value_units _ _ _ _ He) as (uy' & Hu1' & Hu2')];
    congruence.
Qed.
(** *** Keys that are there *)

Lemma py_int_error (v : yaml) (e : exn) :
  py_int v = Raise e -> e = TypeError \/ e = ValueError \/ e = OverflowError.
Proof.
  destruct v as [| | |[q| | |]|s| |]; cbn; try discriminate;
    try (intros [= <-]; auto).
  destruct (int_of_str s); [discriminate|]. intros [= <-]. auto.
Qed.

(** X6: a [number_of_bins] key that is there is never replaced by the
    default: its [int] is the number of bins, and when [int] raises (a text
    that is no number, a null, a list), the exception leaves
    [_parse_number_of_bins] and the number of bins stays unset. *)
Theorem given_number_of_bins_is_used_or_raises
  (p : VelociraptorPlot) (m : list (string * yaml)) (v : yaml) :
  data p = YMap m ->
  assoc "number_of_bins" m = Some v ->
  (forall n, py_int v = Ok n ->
             _parse_number_of_bins p = (with_number_of_bins n p, Ok tt))
  /\ (forall e, py_int v = Raise e ->
                _parse_number_of_bins p = (p, Raise e)
                /\ (e = TypeError \/ e = ValueError \/ e = OverflowError)).
Proof.
  intros Hd Hk. split.
  - intros n Hn. unfold _parse_number_of_bins. step.
    rewrite Hd. cbn. rewrite Hk. cbn. now rewrite Hn.
  - intros e He. split; [|exact (py_int_error v e He)].
    unfold _parse_number_of_bins. step.
    rewrite Hd. cbn. rewrite Hk. cbn. rewrite He.
    destruct (py_int_error v e He) as [-> | [-> | ->]]; reflexivity.
Qed.

(** X7: a line whose key is not in the entry is [None]; so is a line whose
    key is there when [VelociraptorLine] raises a [KeyError] on its value:
    the [except KeyError] of [_parse_line] takes both, and nothing is
    raised. *)
Theorem line_is_None_on_any_KeyError
  (t : line_type) (p : VelociraptorPlot) (m : list (string * yaml)) :
  data p = YMap m ->
  assoc (line_type_name t) m = None
  \/ (exists v k, assoc (line_type_name t) m = Some v
                  /\ VelociraptorLine (line_type_name t) v = Raise (KeyError k)) ->
  _parse_line t p = (with_line t None p, Ok tt).
Proof.
  intros Hd H. unfold _parse_line. step. rewrite Hd. cbn.
  destruct H as [Hk | (v & k & Hk & Hline)]; rewrite Hk; cbn.
  - reflexivity.
  - now rewrite Hline.
Qed.

(** A line whose key is there is what [VelociraptorLine] makes of it, and
    any other exception of [VelociraptorLine] leaves [_parse_line]. *)
Lemma given_line_is_made
  (t : line_type) (p : VelociraptorPlot) (m : list (string * yaml)) (v : yaml) :
  data p = YMap m ->
  assoc (line_type_name t) m = Some v ->
  _parse_line t p
  = match VelociraptorLine (line_type_name t) v with
    | Ok l => (with_line t (Some l) p, Ok tt)
    | Raise (KeyError _) => (with_line t None p, Ok tt)
    | Raise e => (p, Raise e)
    end.
Proof.
  intros Hd Hk. unfold _parse_line. step. rewrite Hd. cbn. rewrite Hk. cbn.
  destruct (VelociraptorLine (line_type_name t) v) as [l|[]]; reflexivity.
Qed.

(** X8: when the entry has no block for the coordinate at all, the
    [KeyError] is the same to [_parse_coordinate_quantity] as a missing
    [quantity]: it raises the [AutoPlotterError] that names the coordinate
    and the entry, and sets nothing. *)
Theorem missing_axis_block_names_coordinate_and_entry
  (c : coordinate) (p : VelociraptorPlot) (m : list (string * yaml)) :
  data p = YMap m ->
  assoc (coordinate_name c) m = None ->
  _parse_coordinate_quantity c p
  = (p, Raise (AutoPlotterError
                 ("You must provide an " ++ coordinate_name c
                  ++ "-quantity and units to plot for " ++ filename p))).
Proof.
  intros Hd Hk. rewrite <- missing_quantity_message_text.
  unfold _parse_coordinate_quantity. step.
  rewrite Hd. unfold subitem. cbn. rewrite Hk. reflexivity.
Qed.

(** X9: only a [KeyError] becomes an [AutoPlotterError].  A block of the
    coordinate that is no mapping (a text, a number, a list, a null) makes
    [_parse_coordinate_quantity] raise a [TypeError]; units that unyt does
    not parse make it raise unyt's error, after the quantity was set. *)
Theorem other_quantity_errors_pass_through
  (c : coordinate) (p : VelociraptorPlot) (m : list (string * yaml)) (v : yaml) :
  data p = YMap m ->
  assoc (coordinate_name c) m = Some v ->
  ((forall am, v <> YMap am) ->
   _parse_coordinate_quantity c p = (p, Raise TypeError))
  /\ (forall am q u e,
        v = YMap am -> assoc "quantity" am = Some q ->
        assoc "units" am = Some u -> Unit_of u = Raise e ->
        _parse_coordinate_quantity c p
        = (with_axis c (with_quantity q) p, Raise UnitParseError)).
Proof.
  intros Hd Hk. split.
  - intros Hv. unfold _parse_coordinate_quantity. step.
    rewrite Hd. unfold subitem. cbn. rewrite Hk. cbn.
    destruct v as [| | | | | |am]; try reflexivity.
    now contradiction (Hv am).
  - intros am q u e -> Hq Hu He.
    unfold _parse_coordinate_quantity. step.
    rewrite Hd. unfold subitem. cbn. rewrite Hk. cbn. rewrite Hq. cbn.
    rewrite data_with_axis, Hd. cbn. rewrite Hk. cbn. rewrite Hu. cbn.
    rewrite He, (Unit_of_error _ _ He). reflexivity.
Qed.

(** *** Limits that are there *)

(** One [try] block of [_parse_coordinate_limit], whatever it does. *)
Lemma limit_item_outcome
  (c : coordinate) (key : string) (i : nat) (p : VelociraptorPlot)
  (l : option unyt_quantity * option unyt_quantity) :
  c_lim (axis c p) = Some l ->
  parse_limit_item c key i p
  = match limit_value (data p) c key with
    | Ok None => (p, Ok tt)
    | Ok (Some q) =>
        (with_axis c (with_lim (match i with
                                | O => (Some q, snd l)
                                | _ => (fst l, Some q)
                                end)) p, Ok tt)
    | Raise e => (p, Raise e)
    end.
Proof.
  intros Hl. unfold parse_limit_item, limit_value, set_lim_item. step.
  destruct (subitem (data p) c key) as [v|e]; [|destruct e; reflexivity].
  destruct (py_float v) as [f|e] eqn:Ef.
  2:{ destruct (py_float_error _ _ Ef) as [-> | [-> | ->]]; reflexivity. }
  destruct (subitem (data p) c "units") as [u|e]; [|destruct e; reflexivity].
  unfold new_unyt_quantity, rbind.
  destruct (Unit_of u) as [un|e] eqn:Eu.
  2:{ rewrite (Unit_of_error _ _ Eu). reflexivity. }
  rewrite Hl. destruct i; reflexivity.
Qed.

Lemma with_lim_twice (c : coordinate) (p : VelociraptorPlot)
  (l l' : option unyt_quantity * option unyt_quantity) :
  with_axis c (with_lim l') (with_axis c (with_lim l) p)
  = with_axis c (with_lim l') p.
Proof. now destruct c. Qed.

(** X10: limits may be given in part.  With a [start] that is a number,
    units that parse and no [end], [_parse_coordinate_limit] raises nothing
    and leaves the limits [start, None], the lower one in the unit of the
    block. *)
Theorem lower_limit_alone_is_kept
  (c : coordinate) (p : VelociraptorPlot) (m am : list (string * yaml))
  (v u : yaml) (f : pyfloat) (un : Unit) :
  data p = YMap m ->
  assoc (coordinate_name c) m = Some (YMap am) ->
  assoc "start" am = Some v -> py_float v = Ok f ->
  assoc "units" am = Some u -> Unit_of u = Ok un ->
  assoc "end" am = None ->
  _parse_coordinate_limit c p
  = (with_axis c (with_lim (Some {| value := f; units := un |}, None)) p, Ok tt).
Proof.
  intros Hd Hc Hs Hf Hu Hun He. unfold _parse_coordinate_limit.
  assert (Hstart : limit_value (YMap m) c "start"
                   = Ok (Some {| value := f; units := un |})).
  { unfold limit_value, subitem. cbn. rewrite Hc. cbn.
    rewrite Hs, Hf, Hu, Hun. reflexivity. }
  assert (Hend : limit_value (YMap m) c "end" = Ok None)
    by exact (limit_value_of_missing_key m am c "end" Hc He).
  unfold bind at 1. unfold setattr at 1, modify.
  unfold bind.
  rewrite (limit_item_outcome c "start" 0 _ (None, None))
    by now rewrite axis_with_axis.
  rewrite data_with_axis, Hd, Hstart, with_lim_twice.
  rewrite (limit_item_outcome c "end" 1 _ (Some {| value := f; units := un |}, None))
    by now rewrite axis_with_axis.
  now rewrite data_with_axis, Hd, Hend.
Qed.

(** X11: a [start] or an [end] that is there and of which [float] makes no
    number is an error for every plot type: the exception of [float] (a
    [TypeError], a [ValueError], or the [OverflowError] of an integer beyond
    the doubles) leaves [_parse_coordinate_limit], it is not taken for a
    missing limit. *)
Theorem limit_that_is_no_number_raises
  (c : coordinate) (p : VelociraptorPlot) (m am : list (string * yaml))
  (key : string) (v : yaml) (e : exn) :
  data p = YMap m ->
  assoc (coordinate_name c) m = Some (YMap am) ->
  key = "start" \/ (key = "end" /\ assoc "start" am = None) ->
  assoc key am = Some v ->
  py_float v = Raise e ->
  snd (_parse_coordinate_limit c p) = Raise e
  /\ (e = TypeError \/ e = ValueError \/ e = OverflowError).
Proof.
  intros Hd Hc Hkey Hv He. split; [|exact (py_float_error v e He)].
  assert (Hbad : limit_value (YMap m) c key = Raise e).
  { unfold limit_value, subitem. cbn. rewrite Hc. cbn. rewrite Hv, He.
    reflexivity. }
  unfold _parse_coordinate_limit.
  unfold bind at 1. unfold setattr at 1, modify.
  unfold bind.
  rewrite (limit_item_outcome c "start" 0 _ (None, None))
    by now rewrite axis_with_axis.
  rewrite data_with_axis, Hd.
  destruct Hkey as [-> | [-> Hnostart]].
  - now rewrite Hbad.
  - rewrite (limit_value_of_missing_key m am c "start" Hc Hnostart).
    rewrite (limit_item_outcome c "end" 1 _ (None, None))
      by now rewrite axis_with_axis.
    now rewrite data_with_axis, Hd, Hbad.
Qed.
(** *** Entries that are built *)

Lemma runs_on_bind (d : yaml) (a : Method unit) (b : Method unit) :
  runs_on d a -> runs_on d b -> runs_on d (bind a (fun _ => b)).
Proof.
  intros Ha Hb p Hd.
  destruct (Ha p Hd) as (p1 & H1 & Hd1).
  destruct (Hb p1 Hd1) as (p2 & H2 & Hd2).
  exists p2. split; [|exact Hd2]. now rewrite (bind_ok _ _ _ _ _ H1).
Qed.

Section CompleteAxis.

Variables (m am : list (string * yaml)) (c : coordinate).
Hypothesis Hblock : assoc (coordinate_name c) m = Some (YMap am).
Hypothesis Hcomplete : complete_axis am.

Lemma subitem_of_block (key : string) :
  subitem (YMap m) c key
  = match assoc key am with
    | Some v => Ok v
    | None => Raise (KeyError key)
    end.
Proof. unfold subitem. cbn. now rewrite Hblock. Qed.

Lemma complete_quantity_runs : runs_on (YMap m) (_parse_coordinate_quantity c).
Proof.
  destruct Hcomplete as ((q & Hq) & (u & un & Hu & Hun) & _).
  intros p Hd. unfold _parse_coordinate_quantity. step.
  rewrite Hd, subitem_of_block, Hq. cbn.
  rewrite data_with_axis, Hd, subitem_of_block, Hu. cbn. rewrite Hun.
  eexists. split; [reflexivity|]. now autorewrite with plot.
Qed.

Lemma complete_log_runs : runs_on (YMap m) (_parse_coordinate_log c).
Proof.
  intros p Hd. unfold _parse_coordinate_log. step.
  rewrite Hd, subitem_of_block.
  destruct (assoc "log" am); eexists; (split; [reflexivity|]);
    now autorewrite with plot.
Qed.

Lemma complete_label_override_runs :
  runs_on (YMap m) (_parse_coordinate_label_override c).
Proof.
  intros p Hd. unfold _parse_coordinate_label_override. step.
  rewrite Hd, subitem_of_block.
  destruct (assoc "label_override" am); eexists; (split; [reflexivity|]);
    now autorewrite with plot.
Qed.

Lemma complete_limit_value (key : string) :
  key = "start" \/ key = "end" ->
  exists v, limit_value (YMap m) c key = Ok v.
Proof.
  intros Hkey.
  destruct Hcomplete as (_ & (u & un & Hu & Hun) & Hnum).
  unfold limit_value. rewrite !subitem_of_block, Hu, Hun.
  destruct (assoc key am) as [v|] eqn:Ev; [|eauto].
  destruct (Hnum key v Hkey Ev) as [f ->]. eauto.
Qed.

Lemma limit_item_runs (key : string) (i : nat) (p : VelociraptorPlot) :
  key = "start" \/ key = "end" ->
  data p = YMap m ->
  (exists l, c_lim (axis c p) = Some l) ->
  exists p', parse_limit_item c key i p = (p', Ok tt)
             /\ data p' = YMap m
             /\ exists l, c_lim (axis c p') = Some l.
Proof.
  intros Hkey Hd [l Hl].
  rewrite (limit_item_outcome c key i p l Hl), Hd.
  destruct (complete_limit_value key Hkey) as [[q|] ->].
  - eexists. split; [reflexivity|]. autorewrite with plot. cbn. eauto.
  - exists p. eauto.
Qed.

Lemma complete_limit_runs : runs_on (YMap m) (_parse_coordinate_limit c).
Proof.
  intros p Hd. unfold _parse_coordinate_limit.
  unfold bind at 1. unfold setattr at 1, modify.
  destruct (limit_item_runs "start" 0 (with_axis c (with_lim (None, None)) p))
    as (p1 & H1 & Hd1 & Hl1); [now left | now rewrite data_with_axis | |].
  { rewrite axis_with_axis. cbn. eauto. }
  destruct (limit_item_runs "end" 1 p1) as (p2 & H2 & Hd2 & _);
    [now right | exact Hd1 | exact Hl1 |].
  exists p2. split; [|exact Hd2].
  now rewrite (bind_ok _ _ _ _ _ H1).
Qed.

Lemma complete_scatter_body_runs : runs_on (YMap m) (scatter_body c).
Proof.
  unfold scatter_body, limits_body.
  apply runs_on_bind; [apply complete_quantity_runs|].
  apply runs_on_bind; [apply complete_log_runs|].
  apply runs_on_bind; [apply complete_limit_runs|].
  apply complete_label_override_runs.
Qed.

End CompleteAxis.

Lemma line_runs (m : list (string * yaml)) (t : line_type) :
  line_can_be_made m t -> runs_on (YMap m) (_parse_line t).
Proof.
  intros H p Hd. unfold _parse_line. step. rewrite Hd. cbn.
  destruct H as [Hk | (v & l & Hk & Hl)]; rewrite Hk; cbn.
  - eexists. split; [reflexivity|]. now autorewrite with plot.
  - rewrite Hl. eexists. split; [reflexivity|]. now autorewrite with plot.
Qed.

(** X22: what a scatter entry needs.  An entry without [type], or of type
    [scatter], whose [x] and [y] blocks each have a quantity, units that
    parse and only numbers as limits (where it has limits at all), and whose
    lines, where it has some, can be made, is built; limits, a log flag, a
    label and a number of bins are not needed. *)
Theorem complete_scatter_entry_is_built
  (name : string) (m xm ym : list (string * yaml)) :
  assoc "type" m = None \/ assoc "type" m = Some (YStr "scatter") ->
  assoc "x" m = Some (YMap xm) -> complete_axis xm ->
  assoc "y" m = Some (YMap ym) -> complete_axis ym ->
  line_can_be_made m median -> line_can_be_made m mean ->
  exists p, VelociraptorPlot_init name (YMap m) = Ok p
            /\ plot_type p = Some (YStr "scatter").
Proof.
  intros Ht Hx Hxc Hy Hyc Hmedian Hmean.
  assert (Hrun : runs_on (YMap m) _parse_scatter).
  { rewrite scatter_unfold. apply runs_on_bind.
    - cbn [for_each].
      apply runs_on_bind; [now apply (complete_scatter_body_runs m xm X)|].
      apply runs_on_bind; [now apply (complete_scatter_body_runs m ym Y)|].
      intros p Hd. now exists p.
    - unfold _parse_lines, valid_line_types. cbn [for_each].
      apply runs_on_bind; [now apply line_runs|].
      apply runs_on_bind; [now apply line_runs|].
      intros p Hd. now exists p. }
  set (p1 := with_plot_type (YStr "scatter") (new_plot name (YMap m))).
  destruct (Hrun p1 eq_refl) as (p & Hp & _).
  exists p.
  assert (Hinit : VelociraptorPlot_init name (YMap m) = Ok p).
  { destruct Ht as [Ht|Ht].
    - unfold VelociraptorPlot_init.
      rewrite (parse_data_default_type name m Ht). fold p1. now rewrite Hp.
    - rewrite (init_with_valid_type name m "scatter" Ht eq_refl).
      change (parse_method (YStr "scatter")) with _parse_scatter.
      fold p1. now rewrite Hp. }
  split; [exact Hinit|].
  pose proof (parse_scatter_keeps_plot_type _ _ _ I Hp) as Hk.
  now rewrite Hk.
Qed.

(** *** The values of the bins *)

Lemma of_Z_positive (z : Z) :
  (0 < z)%Z -> (Q2Qc (inject_Z z) ?= 0)%Qc = Gt.
Proof.
  intros Hz. unfold Qccompare. cbn [this Q2Qc].
  rewrite <- Qred_compare. unfold Qcompare. cbn.
  rewrite Z.mul_1_r. now apply Z.compare_gt_iff.
Qed.

Lemma set_last_app {A : Type} (l : list A) (a b : A) :
  set_last (l ++ [a]) b = (l ++ [b])%list.
Proof.
  induction l as [|c l IH]; [reflexivity|].
  cbn [app]. destruct l as [|d l]; [reflexivity|].
  change (c :: set_last ((d :: l) ++ [a]) b = c :: ((d :: l) ++ [b])%list).
  now rewrite IH.
Qed.

(** [linspace] for two samples or more: the samples are [i * step + a] in
    double arithmetic, and the last one is [b] itself. *)
Lemma linspace_values (a b : pyfloat) (n : Z) :
  (2 <= n)%Z -> linspace a b n = Ok (samples a b n).
Proof.
  intros Hn. unfold linspace, samples.
  destruct (Z.ltb_spec n 0) as [Hlt|_]; [lia|].
  destruct (Z.ltb_spec 0 (n - 1)) as [Hd|Hd]; [|lia].
  destruct (Z.ltb_spec 1 n) as [_|H1]; [|lia].
  assert (Hbody :
    map (fun v => fadd v a)
      (if fis_zero (fdiv (fsub b a) (of_Z (n - 1)))
       then map (fun v => fmul (fdiv v (of_Z (n - 1))) (fsub b a)) (arange n)
       else map (fun v => fmul v (fdiv (fsub b a) (of_Z (n - 1)))) (arange n))
    = map (sample a b n) (seq 0 (Z.to_nat n))).
  { unfold arange, sample.
    destruct (fis_zero _); rewrite !map_map; reflexivity. }
  rewrite Hbody. f_equal.
  replace (Z.to_nat n) with (Z.to_nat n - 1 + 1)%nat at 1 by lia.
  rewrite seq_app, map_app. cbn [seq map]. apply set_last_app.
Qed.

Lemma samples_length (a b : pyfloat) (n : Z) :
  (2 <= n)%Z -> length (samples a b n) = Z.to_nat n.
Proof.
  intros Hn. unfold samples. rewrite length_app, length_map, length_seq.
  cbn [length]. lia.
Qed.

Lemma samples_last (a b : pyfloat) (n : Z) :
  nth_error (samples a b n) (Z.to_nat n - 1) = Some b.
Proof.
  unfold samples. rewrite nth_error_app2; rewrite length_map, length_seq; [|lia].
  now rewrite Nat.sub_diag.
Qed.

Lemma samples_first (a b : pyfloat) (n : Z) :
  (2 <= n)%Z -> nth_error (samples a b n) 0 = Some (sample a b n 0).
Proof.
  intros Hn. unfold samples.
  destruct (Z.to_nat n - 1)%nat as [|k] eqn:E; [lia|]. reflexivity.
Qed.

Lemma fmul_0_finite (q : Qc) : fmul (of_Z 0) (Fin q) = of_Z 0.
Proof.
  unfold fmul. destruct (is_one (Fin q)); [reflexivity|].
  change (round (0 * q)%Qc = of_Z 0).
  now rewrite Qcmult_0_l.
Qed.

Lemma fdiv_finite (a b : pyfloat) (q : Qc) :
  fdiv a b = Fin q -> exists p, a = Fin p.
Proof.
  destruct a as [p| | |]; [now exists p| | |]; destruct b as [r| | |];
    cbn; try discriminate; destruct (r ?= 0)%Qc; discriminate.
Qed.

(** The first sample is [a] when [a] is a double and the step is finite:
    zero times the step is zero. *)
Lemma sample_first (a : Qc) (b : pyfloat) (n : Z) (step : Qc) :
  (2 <= n)%Z ->
  is_double a ->
  fdiv (fsub b (Fin a)) (of_Z (n - 1)) = Fin step ->
  sample (Fin a) b n 0 = Fin a.
Proof.
  intros Hn Ha Hstep. unfold sample. rewrite Hstep.
  destruct (fdiv_finite _ _ _ Hstep) as [d Hd]. rewrite Hd.
  assert (Hzero : (if fis_zero (Fin step)
                   then fmul (fdiv (of_Z (Z.of_nat 0)) (of_Z (n - 1))) (Fin d)
                   else fmul (of_Z (Z.of_nat 0)) (Fin step)) = of_Z 0).
  { destruct (fis_zero (Fin step)); [|apply fmul_0_finite].
    change (of_Z (Z.of_nat 0)) with (Fin 0%Qc).
    assert (Hq : fdiv (Fin 0%Qc) (of_Z (n - 1)) = of_Z 0).
    { unfold fdiv, of_Z. rewrite (of_Z_positive (n - 1)) by lia.
      unfold Qcdiv. now rewrite Qcmult_0_l. }
    rewrite Hq. apply fmul_0_finite. }
  rewrite Hzero. change (of_Z 0) with (Fin 0%Qc). cbn [fadd].
  now rewrite Qcplus_0_l.
Qed.

(** When [b - a] is beyond the doubles, the first sample is not a number:
    it is zero times an infinite step. *)
Lemma sample_first_of_infinite_range (a b : pyfloat) (n : Z) :
  (2 <= n)%Z ->
  fsub b a = PInf \/ fsub b a = NInf ->
  sample a b n 0 = NaN.
Proof.
  intros Hn Hinf. unfold sample.
  assert (Hpos : (Q2Qc (inject_Z (n - 1)) ?= 0)%Qc = Gt)
    by (apply of_Z_positive; lia).
  destruct Hinf as [-> | ->]; unfold fdiv, of_Z; rewrite Hpos; reflexivity.
Qed.

(** X12: on a linear axis with both limits and two bins or more, the bins
    are the [number_of_bins] samples of numpy's [linspace], in the unit of
    the lower limit: [i * step + a] in double arithmetic, with the step
    [(b - a) / (number_of_bins - 1)].  The last bin is the upper limit
    itself.  The first bin is the lower limit when the step is finite, and
    is not a number when [b - a] is beyond the doubles. *)
Theorem linear_bins_are_evenly_spaced
  (c : coordinate) (p : VelociraptorPlot) (s e : unyt_quantity) (n : Z) :
  c_lim (axis c p) = Some (Some s, Some e) ->
  c_log (axis c p) = Some false ->
  number_of_bins p = Some n ->
  (2 <= n)%Z ->
  let edges := {| values := samples (value s) (value e) n;
                  array_units := units s |} in
  _parse_coordinate_histogram_bin c p = (with_axis c (with_bins edges) p, Ok tt)
  /\ length (values edges) = Z.to_nat n
  /\ nth_error (values edges) (Z.to_nat n - 1) = Some (value e)
  /\ (forall a step,
        value s = Fin a -> is_double a ->
        fdiv (fsub (value e) (value s)) (of_Z (n - 1)) = Fin step ->
        nth_error (values edges) 0 = Some (value s))
  /\ (fsub (value e) (value s) = PInf \/ fsub (value e) (value s) = NInf ->
      nth_error (values edges) 0 = Some NaN).
Proof.
  intros Hl Hlog Hnb Hn edges. split; [|split; [|split; [|split]]].
  - unfold _parse_coordinate_histogram_bin. step.
    rewrite Hl. step. rewrite Hlog. step. rewrite Hnb. cbn.
    unfold linspace_quantity.
    rewrite (linspace_values _ _ n Hn). reflexivity.
  - apply samples_length, Hn.
  - apply samples_last.
  - intros a st Ha Hdouble Hstep. unfold edges. cbn [values].
    rewrite (samples_first _ _ n Hn), Ha in *.
    now rewrite (sample_first a (value e) n st Hn Hdouble Hstep).
  - intros Hinf. unfold edges. cbn [values].
    now rewrite (samples_first _ _ n Hn), (sample_first_of_infinite_range _ _ n Hn Hinf).
Qed.

(** X20: on a log-scaled axis with both limits and two bins or more, the
    bins are the powers of ten of the [number_of_bins] samples that
    [linspace] makes between the logarithms of the limits, in the unit of
    the lower limit.  The last bin is the power of the logarithm of the
    upper limit; the first is the power of the logarithm of the lower
    limit when the step between the exponents is finite. *)
Theorem log_bins_are_powers_of_evenly_spaced_exponents
  (c : coordinate) (p : VelociraptorPlot) (s e : unyt_quantity) (n : Z) :
  c_lim (axis c p) = Some (Some s, Some e) ->
  c_log (axis c p) = Some true ->
  number_of_bins p = Some n ->
  (2 <= n)%Z ->
  let la := np_log10 (value s) in
  let lb := np_log10 (value e) in
  let edges := {| values := map np_power10 (samples la lb n);
                  array_units := units s |} in
  _parse_coordinate_histogram_bin c p = (with_axis c (with_bins edges) p, Ok tt)
  /\ length (values edges) = Z.to_nat n
  /\ nth_error (values edges) (Z.to_nat n - 1) = Some (np_power10 lb)
  /\ (forall a step,
        la = Fin a -> is_double a ->
        fdiv (fsub lb la) (of_Z (n - 1)) = Fin step ->
        nth_error (values edges) 0 = Some (np_power10 la)).
Proof.
  intros Hl Hlog Hnb Hn la lb edges. split; [|split; [|split]].
  - unfold _parse_coordinate_histogram_bin. step.
    rewrite Hl. step. rewrite Hlog. step. rewrite Hnb. cbn.
    unfold logspace.
    rewrite (linspace_values _ _ n Hn). reflexivity.
  - unfold edges. cbn [values]. rewrite length_map. apply samples_length, Hn.
  - unfold edges. cbn [values]. now rewrite nth_error_map, samples_last.
  - intros a st Ha Hdouble Hstep. unfold edges. cbn [values].
    rewrite nth_error_map, (samples_first _ _ n Hn). cbn [option_map].
    fold la lb. rewrite Ha in *.
    now rewrite (sample_first a lb n st Hn Hdouble Hstep).
Qed.

(** A limit that is [None] on a linear axis is a [TypeError] whatever the
    number of bins, a negative one too. *)
Lemma linspace_quantity_without_a_limit
  (s e : option unyt_quantity) (q : unyt_quantity) (n : Z) :
  (s = None /\ e = Some q) \/ (s = Some q /\ e = None) ->
  linspace_quantity s e n = Raise TypeError.
Proof. now intros [[-> ->] | [-> ->]]. Qed.

(** X13: the numbers of bins at the edge.  With both limits set, a negative
    number of bins makes [_parse_coordinate_histogram_bin] raise numpy's
    [ValueError] on either scale, and sets nothing; zero bins give an empty
    array of bins, and nothing is raised. *)
Theorem bins_for_negative_and_zero_number_of_bins
  (c : coordinate) (p : VelociraptorPlot) (s e : unyt_quantity) (is_log : bool) (n : Z) :
  c_lim (axis c p) = Some (Some s, Some e) ->
  c_log (axis c p) = Some is_log ->
  number_of_bins p = Some n ->
  ((n < 0)%Z -> _parse_coordinate_histogram_bin c p = (p, Raise ValueError))
  /\ (n = 0%Z ->
      _parse_coordinate_histogram_bin c p
      = (with_axis c (with_bins {| values := []; array_units := units s |}) p,
         Ok tt)).
Proof.
  intros Hl Hlog Hnb. split.
  - intros Hn. unfold _parse_coordinate_histogram_bin. step.
    rewrite Hl. step. rewrite Hlog. destruct is_log; step; rewrite Hnb; cbn.
    + unfold logspace. now rewrite (linspace_negative _ _ n Hn).
    + unfold linspace_quantity. now rewrite (linspace_negative _ _ n Hn).
  - intros ->. unfold _parse_coordinate_histogram_bin. step.
    rewrite Hl. step. rewrite Hlog. destruct is_log; step; rewrite Hnb;
      reflexivity.
Qed.

Section Rendering.

(** unyt converts a unit into itself with the factor one. *)
Hypothesis conversion_to_same_unit :
  forall u : Unit, conversion_factor u u = Some (of_Z 1).

Lemma convert_to_own_units (b : unyt_array) :
  convert_to_units b (array_units b) = Ok b.
Proof.
  unfold convert_to_units. rewrite conversion_to_same_unit, map_fmul_1_r.
  now destruct b.
Qed.

Lemma with_same_bins (c : coordinate) (p : VelociraptorPlot) (b : unyt_array) :
  c_bins (axis c p) = Some b -> with_axis c (with_bins b) p = p.
Proof.
  unfold with_axis, with_bins.
  destruct c, p as [f d t [] [] ml dl n]; cbn; now intros ->.
Qed.

Lemma keeps_self_attr {T A : Type} (J : T -> Prop) (obs : Render -> T)
  (field : VelociraptorPlot -> option A) : keeps J obs (self_attr field).
Proof.
  intros r r' res _. unfold self_attr.
  destruct (field (self r)); intros [= <- _]; reflexivity.
Qed.

(** What a call leaves when it returns, and when it raises. *)
Lemma call_outcome (d : draw) (r r' : Render) (res : result unit) :
  call d r = (r', res) ->
  (res = Ok tt /\ r' = {| self := self r; catalogue := catalogue r;
                          drawn := drawn r ++ [d] |})
  \/ (exists e, res = Raise e /\ r' = r).
Proof.
  unfold call. destruct (rendering r d) as [[]|e]; intros [= <- <-].
  - now left.
  - right. now exists e.
Qed.

Lemma call_keeps_self (J : VelociraptorPlot -> Prop) (d : draw) :
  keeps J self (call d).
Proof.
  intros r r' res _ H.
  destruct (call_outcome _ _ _ _ H) as [[_ ->] | (e & _ & ->)]; reflexivity.
Qed.

Ltac plotting_step :=
  lazymatch goal with
  | |- keeps _ _ (self_attr _) => apply keeps_self_attr
  | |- keeps _ _ (call _) => apply call_keeps_self
  | |- _ => keeps_step
  end.

Lemma deref_keeps_self (J : VelociraptorPlot -> Prop) (path : list string) :
  keeps J self (deref path).
Proof. unfold deref. repeat plotting_step. Qed.

Lemma catalogue_quantity_keeps_self (J : VelociraptorPlot -> Prop) (c : coordinate) :
  keeps J self (catalogue_quantity c).
Proof. unfold catalogue_quantity. repeat plotting_step. Qed.

Lemma convert_quantity_keeps_self (J : VelociraptorPlot -> Prop)
  (path : list string) (c : coordinate) :
  keeps J self (convert_quantity path c).
Proof.
  unfold convert_quantity.
  apply keeps_bind; [apply deref_keeps_self|]. intros a.
  repeat plotting_step. reflexivity.
Qed.

(** Converting the bins of a plot whose bins are in the unit of their
    coordinate writes back what was there. *)
Lemma convert_bins_keeps_self (c : coordinate) :
  keeps bins_in_units self (convert_bins c).
Proof.
  intros r r' res HJ. unfold convert_bins, self_attr, bind, lift, modify.
  destruct (c_bins (axis c (self r))) as [b|] eqn:Eb; [|now intros [= <- _]].
  rewrite (HJ c b Eb), convert_to_own_units.
  intros [= <- _]. cbn [self]. now apply with_same_bins.
Qed.

Ltac plotting_keeps :=
  repeat lazymatch goal with
         | |- keeps _ _ (deref _) => apply deref_keeps_self
         | |- keeps _ _ (catalogue_quantity _) => apply catalogue_quantity_keeps_self
         | |- keeps _ _ (convert_quantity _ _) => apply convert_quantity_keeps_self
         | |- keeps _ _ (convert_bins _) => apply convert_bins_keeps_self
         | |- _ => plotting_step
         end.

Lemma make_plot_keeps_self (directory file_extension : string) :
  keeps bins_in_units self (make_plot directory file_extension).
Proof.
  unfold make_plot, make_plot_method, _make_plot_scatter,
    _make_plot_2dhistogram, _make_plot_massfunction, _add_lines_to_axes,
    set_scales_and_limits.
  plotting_keeps.
Qed.

(** C5: making the plot of an object that [__init__] returned leaves every
    attribute of the object as it was, the bins too, whether the plot is
    made or an exception is raised on the way: the bins are converted in
    place, but to the unit they already have.  (unyt's conversion of a unit
    into itself, by the factor one, is the hypothesis of this section.) *)
Theorem make_plot_leaves_the_plot_as_built
  (name : string) (d : yaml) (p : VelociraptorPlot)
  (cat : pyobj) (done : list draw) (directory file_extension : string) :
  VelociraptorPlot_init name d = Ok p ->
  self (fst (make_plot directory file_extension
               {| self := p; catalogue := cat; drawn := done |})) = p.
Proof.
  intros Hinit.
  destruct (make_plot _ _ _) as [r' res] eqn:E. cbn [fst].
  exact (make_plot_keeps_self directory file_extension
           {| self := p; catalogue := cat; drawn := done |} r' res
           (built_bins_in_units name d p Hinit) E).
Qed.

(** *** Figures *)

Lemma saved_files_app (a b : list draw) :
  saved_files (a ++ b) = (saved_files a ++ saved_files b)%list.
Proof.
  induction a as [|d a IH]; [reflexivity|].
  destruct d; cbn; now rewrite IH.
Qed.

Ltac same_figures :=
  intros; cbn;
  rewrite ?saved_files_app; cbn;
  rewrite ?app_nil_r, ?filename_with_axis; reflexivity.

(** A call other than [savefig] saves no figure. *)
Lemma call_saves_nothing (J : list string * string -> Prop) (d : draw) :
  saved_files [d] = [] ->
  keeps J (fun r => (saved_files (drawn r), filename (self r))) (call d).
Proof.
  intros Hd r r' res _ H.
  destruct (call_outcome _ _ _ _ H) as [[_ ->] | (e & _ & ->)]; [|reflexivity].
  cbn. now rewrite saved_files_app, Hd, app_nil_r.
Qed.

Ltac figures_step :=
  lazymatch goal with
  | |- keeps _ _ (self_attr _) => apply keeps_self_attr
  | |- keeps _ _ (call _) => apply call_saves_nothing; reflexivity
  | |- keeps _ _ (modify _) => apply keeps_modify; same_figures
  | |- _ => keeps_step
  end.

(** The methods that draw save no figure and keep the name of the plot. *)
Lemma make_plot_method_saves_nothing (J : list string * string -> Prop) (t : yaml) :
  keeps J (fun r => (saved_files (drawn r), filename (self r)))
        (make_plot_method t).
Proof.
  unfold make_plot_method, _make_plot_scatter, _make_plot_2dhistogram,
    _make_plot_massfunction, _add_lines_to_axes, set_scales_and_limits,
    convert_bins, convert_quantity, catalogue_quantity, deref.
  repeat figures_step.
Qed.

Lemma make_plot_figures
  (directory file_extension : string) (r r' : Render) (res : result unit) :
  make_plot directory file_extension r = (r', res) ->
  saved_files (drawn r')
  = (saved_files (drawn r)
     ++ match res with
        | Ok _ => [figure_path directory file_extension (self r)]
        | Raise _ => []
        end)%list
  /\ filename (self r') = filename (self r)
  /\ (is_Ok res = true ->
      exists calls, drawn r' = (calls ++ [savefig (figure_path directory
                                                     file_extension (self r))])%list).
Proof.
  unfold make_plot, bind, self_attr.
  destruct (plot_type (self r)) as [t|].
  2:{ intros [= <- <-]. rewrite app_nil_r. repeat split. discriminate. }
  destruct (make_plot_method t r) as [r1 [[]|e]] eqn:E;
    pose proof (make_plot_method_saves_nothing always t r r1 _ I E) as Hk;
    injection Hk as Hfiles Hname.
  - intros H.
    destruct (call decorate_axes r1) as [r2 res2] eqn:E2.
    destruct (call_outcome _ _ _ _ E2) as [[-> ->] | (e2 & -> & ->)].
    2:{ injection H as <- <-. rewrite app_nil_r. repeat split; try assumption.
        discriminate. }
    destruct (call tight_layout _) as [r3 res3] eqn:E3 in H.
    destruct (call_outcome _ _ _ _ E3) as [[-> ->] | (e3 & -> & ->)].
    2:{ injection H as <- <-. cbn. rewrite saved_files_app. cbn.
        rewrite !app_nil_r. repeat split; try assumption. discriminate. }
    unfold get in H. cbn in H.
    destruct (call_outcome _ _ _ _ H) as [[-> ->] | (e4 & -> & ->)]; cbn.
    + rewrite !saved_files_app. cbn. rewrite !app_nil_r.
      unfold figure_path. rewrite Hfiles, Hname. repeat split.
      intros _. eexists. reflexivity.
    + rewrite !saved_files_app. cbn. rewrite !app_nil_r.
      repeat split; try assumption. discriminate.
  - intros [= <- <-]. rewrite app_nil_r. repeat split; try assumption.
    discriminate.
Qed.

(** X14: [make_plot] saves one figure when it raises nothing, under the
    name [directory/filename.file_extension] of the plot, as the last thing
    it does; when it raises, whatever the exception, it saves none. *)
Theorem make_plot_saves_one_figure_or_none
  (directory file_extension : string) (r r' : Render) (res : result unit) :
  make_plot directory file_extension r = (r', res) ->
  saved_files (drawn r')
  = (saved_files (drawn r)
     ++ match res with
        | Ok _ => [figure_path directory file_extension (self r)]
        | Raise _ => []
        end)%list
  /\ (is_Ok res = true ->
      exists calls, drawn r' = (calls ++ [savefig (figure_path directory
                                                     file_extension (self r))])%list).
Proof.
  intros H. destruct (make_plot_figures _ _ _ _ _ H) as (H1 & _ & H2).
  now split.
Qed.

Lemma reduce_getattr_raised (path : list string) (e : exn) :
  fold_left (fun r name => rbind r (fun o => getattr_obj o name)) path (Raise e)
  = Raise e.
Proof. induction path as [|n path IH]; [reflexivity | exact IH]. Qed.

Lemma reduce_getattr_error (path : list string) (cat : pyobj) (e : exn) :
  reduce_getattr path cat = Raise e -> e = AttributeError.
Proof.
  unfold reduce_getattr. revert cat.
  induction path as [|n path IH]; intros cat; cbn; [discriminate|].
  destruct (getattr_obj cat n) as [o|e'] eqn:Eo.
  - apply IH.
  - rewrite reduce_getattr_raised. intros [= <-].
    unfold getattr_obj in Eo.
    destruct cat as [| |attrs]; try (now injection Eo as <-).
    destruct (assoc n attrs); [discriminate | now injection Eo as <-].
Qed.

(** X15: when the x quantity of a plot is no text, or is a path that does
    not lead to an attribute of the catalogue, [make_plot] raises an
    [AttributeError] for every plot type, before it converts, draws or saves
    anything: the plot, the catalogue and the calls are as before. *)
Theorem make_plot_without_x_quantity_raises
  (directory file_extension : string) (r : Render) (t : string) (q : yaml) (e : exn) :
  plot_type (self r) = Some (YStr t) ->
  In t valid_plot_types ->
  c_quantity (x (self r)) = Some q ->
  rbind (split_quantity q) (fun path => reduce_getattr path (catalogue r))
  = Raise e ->
  make_plot directory file_extension r = (r, Raise AttributeError)
  /\ e = AttributeError.
Proof.
  intros Ht Hv Hq He.
  assert (Hcq : catalogue_quantity X r = (r, Raise AttributeError) /\ e = AttributeError).
  { unfold catalogue_quantity, bind, self_attr, lift, get. cbn [axis].
    rewrite Hq. unfold rbind in He.
    destruct (split_quantity q) as [path|e'] eqn:Es.
    - pose proof (reduce_getattr_error _ _ _ He) as ->.
      rewrite He. now split.
    - injection He as <-.
      destruct q; cbn in Es; try discriminate; now injection Es as <-. }
  destruct Hcq as [Hcq ->]. split; [|reflexivity].
  unfold make_plot, bind at 1, self_attr. rewrite Ht.
  assert (Hm : make_plot_method (YStr t) r = (r, Raise AttributeError)).
  { cbn in Hv. destruct Hv as [<- | [<- | [<- | []]]]; cbn [make_plot_method String.eqb Ascii.eqb Bool.eqb];
      cbn;
      [unfold _make_plot_scatter | unfold _make_plot_2dhistogram
      | unfold _make_plot_massfunction];
      unfold bind at 1; now rewrite Hcq. }
  unfold bind at 1. now rewrite Hm.
Qed.

(** *** The series that are drawn *)

Lemma reduce_getattr_cons (name : string) (path : list string) (cat : pyobj) :
  reduce_getattr (name :: path) cat
  = rbind (getattr_obj cat name) (reduce_getattr path).
Proof.
  unfold reduce_getattr. cbn.
  destruct (getattr_obj cat name); [reflexivity | apply reduce_getattr_raised].
Qed.

Lemma assoc_replace_attr (name : string) (f : pyobj -> pyobj)
  (attrs : list (string * pyobj)) :
  assoc name (replace_attr name f attrs) = option_map f (assoc name attrs).
Proof.
  induction attrs as [|[k v] attrs IH]; [reflexivity|].
  cbn. destruct (String.eqb name k) eqn:E; cbn; rewrite E; [reflexivity | exact IH].
Qed.

(** What was stored at a path of the catalogue is what is found there. *)
Lemma lookup_after_store (path : list string) (cat o v : pyobj) :
  reduce_getattr path cat = Ok o ->
  reduce_getattr path (store_at path v cat) = Ok v.
Proof.
  revert cat. induction path as [|name path IH]; intros cat; [reflexivity|].
  rewrite reduce_getattr_cons.
  destruct cat as [a|f|attrs]; try discriminate.
  cbn [getattr_obj]. destruct (assoc name attrs) as [o1|] eqn:E; [|discriminate].
  cbn [rbind]. intros H.
  cbn [store_at]. rewrite reduce_getattr_cons. cbn [getattr_obj].
  rewrite assoc_replace_attr, E. cbn. now apply IH.
Qed.

Lemma catalogue_quantity_found (c : coordinate) (r r' : Render) (path : list string) :
  catalogue_quantity c r = (r', Ok path) ->
  r' = r /\ exists q, c_quantity (axis c (self r)) = Some q
                      /\ split_quantity q = Ok path.
Proof.
  unfold catalogue_quantity, bind, self_attr, lift, get, ret.
  destruct (c_quantity (axis c (self r))) as [q|]; [|discriminate].
  destruct (split_quantity q) as [pth|] eqn:Es; [|discriminate].
  destruct (reduce_getattr pth (catalogue r)); [|discriminate].
  intros [= <- <-]. split; [reflexivity|]. now exists q.
Qed.

Lemma deref_found (path : list string) (r r' : Render) (a : unyt_array) :
  deref path r = (r', Ok a) ->
  r' = r /\ reduce_getattr path (catalogue r) = Ok (Array a).
Proof.
  unfold deref, bind, lift, get, ret, raise.
  destruct (reduce_getattr path (catalogue r)) as [[b| |]|]; try discriminate.
  now intros [= <- <-].
Qed.


Lemma only_draws_bind {A B : Type} (m : Plotting A) (k : A -> Plotting B) :
  only_draws m -> (forall a, only_draws (k a)) -> only_draws (bind m k).
Proof.
  intros Hm Hk r r' res. unfold bind.
  destruct (m r) as [r1 [a|e]] eqn:E.
  - intros H. destruct (Hm _ _ _ E) as [c1 H1].
    destruct (Hk a _ _ _ H) as [c2 H2].
    exists (c1 ++ c2)%list. now rewrite H2, H1, app_assoc.
  - intros [= <- _]. exact (Hm _ _ _ E).
Qed.

Lemma only_draws_same {A : Type} (m : Plotting A) :
  (forall r r' res, m r = (r', res) -> drawn r' = drawn r) -> only_draws m.
Proof.
  intros H r r' res E. exists []. now rewrite app_nil_r, (H _ _ _ E).
Qed.

Lemma only_draws_ret {A : Type} (a : A) : only_draws (ret a).
Proof. apply only_draws_same. now intros r r' res [= <- _]. Qed.

Lemma only_draws_self_attr {A : Type} (field : VelociraptorPlot -> option A) :
  only_draws (self_attr field).
Proof.
  apply only_draws_same. intros r r' res. unfold self_attr.
  destruct (field (self r)); now intros [= <- _].
Qed.

Lemma only_draws_deref (path : list string) : only_draws (deref path).
Proof.
  apply only_draws_same. intros r r' res.
  unfold deref, bind, lift, get, ret, raise.
  destruct (reduce_getattr path (catalogue r)) as [[b| |]|]; now intros [= <- _].
Qed.

Lemma only_draws_call (d : draw) : only_draws (call d).
Proof.
  intros r r' res H.
  destruct (call_outcome _ _ _ _ H) as [[_ ->] | (e & _ & ->)].
  - now exists [d].
  - exists []. now rewrite app_nil_r.
Qed.

Ltac draws_step :=
  lazymatch goal with
  | |- only_draws (bind _ _) => apply only_draws_bind; [|intros ?]
  | |- only_draws (ret _) => apply only_draws_ret
  | |- only_draws (self_attr _) => apply only_draws_self_attr
  | |- only_draws (deref _) => apply only_draws_deref
  | |- only_draws (call _) => apply only_draws_call
  | |- only_draws (if ?b then _ else _) => destruct b
  | |- only_draws (match ?v with _ => _ end) => destruct v
  end.

Lemma scales_and_limits_only_draw : only_draws set_scales_and_limits.
Proof. unfold set_scales_and_limits. repeat draws_step. Qed.

Lemma add_lines_only_draws (xp yp : list string) :
  only_draws (_add_lines_to_axes xp yp).
Proof. unfold _add_lines_to_axes. repeat draws_step. Qed.

Lemma assoc_replace_attr_other (n m : string) (f : pyobj -> pyobj)
  (attrs : list (string * pyobj)) :
  n <> m -> assoc n (replace_attr m f attrs) = assoc n attrs.
Proof.
  intros Hnm. induction attrs as [|[k v] attrs IH]; [reflexivity|].
  cbn. destruct (String.eqb m k) eqn:Emk; cbn.
  - apply String.eqb_eq in Emk. subst k.
    destruct (String.eqb n m) eqn:Enm; [|reflexivity].
    apply String.eqb_eq in Enm. contradiction.
  - destruct (String.eqb n k); [reflexivity | exact IH].
Qed.

(** Storing at the path of one array leaves the array at another path
    where it is. *)
Lemma lookup_other_after_store
  (xp yp : list string) (cat v : pyobj) (a b : unyt_array) :
  reduce_getattr xp cat = Ok (Array a) ->
  reduce_getattr yp cat = Ok (Array b) ->
  xp <> yp ->
  reduce_getattr xp (store_at yp v cat) = Ok (Array a).
Proof.
  revert yp cat. induction xp as [|n xp IH]; intros yp cat Hx Hy Hne.
  - cbn in Hx. injection Hx as ->.
    destruct yp as [|m yp]; [contradiction|].
    rewrite reduce_getattr_cons in Hy. discriminate.
  - rewrite reduce_getattr_cons in Hx.
    destruct cat as [c|f|attrs]; try discriminate.
    cbn [getattr_obj] in Hx.
    destruct (assoc n attrs) as [o1|] eqn:En; [|discriminate].
    cbn [rbind] in Hx.
    destruct yp as [|m yp]; [discriminate|].
    rewrite reduce_getattr_cons in Hy. cbn [getattr_obj] in Hy.
    destruct (assoc m attrs) as [o2|] eqn:Em; [|discriminate].
    cbn [rbind] in Hy.
    cbn [store_at]. rewrite reduce_getattr_cons. cbn [getattr_obj].
    destruct (string_dec n m) as [->|Hnm].
    + rewrite assoc_replace_attr, Em. cbn.
      assert (o1 = o2) by congruence. subst o2.
      apply (IH yp o1 Hx Hy). congruence.
    + rewrite (assoc_replace_attr_other n m _ attrs Hnm), En. exact Hx.
Qed.

Lemma convert_quantity_result (path : list string) (c : coordinate) (r r' : Render) :
  convert_quantity path c r = (r', Ok tt) ->
  exists a u a',
    reduce_getattr path (catalogue r) = Ok (Array a)
    /\ c_units (axis c (self r)) = Some u
    /\ convert_to_units a u = Ok a'
    /\ r' = {| self := self r;
               catalogue := store_at path (Array a') (catalogue r);
               drawn := drawn r |}.
Proof.
  unfold convert_quantity. intros H.
  apply bind_inv_ok in H as (r1 & a & Hd & H).
  destruct (deref_found _ _ _ _ Hd) as [-> Hfound].
  revert H. unfold bind, self_attr, lift, modify.
  destruct (c_units (axis c (self r))) as [u|]; [|discriminate].
  destruct (convert_to_units a u) as [a'|] eqn:Ec; [|discriminate].
  intros [= <-]. now exists a, u, a'.
Qed.

Lemma convert_to_units_units (a a' : unyt_array) (u : Unit) :
  convert_to_units a u = Ok a' -> array_units a' = u.
Proof.
  unfold convert_to_units.
  destruct (conversion_factor (array_units a) u); [|discriminate].
  now intros [= <-].
Qed.

(** X23: when [_make_plot_scatter] raises nothing, the first thing it draws
    is the scatter of the two series of the catalogue: the array found at
    the path of the x quantity, converted to the unit of x, against the
    array found at the path of the y quantity, converted to the unit of y.
    The conversions are made in place, x first: when x and y are the same
    quantity of the catalogue, the x series is that one array as well, in
    the unit of y. *)
Theorem scatter_draws_the_converted_series (r r' : Render) :
  _make_plot_scatter r = (r', Ok tt) ->
  exists qx qy xp yp ux uy x0 x1 y0 y1 later,
    (c_quantity (x (self r)) = Some qx /\ split_quantity qx = Ok xp
     /\ c_quantity (y (self r)) = Some qy /\ split_quantity qy = Ok yp)
    /\ (c_units (x (self r)) = Some ux /\ c_units (y (self r)) = Some uy)
    /\ (reduce_getattr xp (catalogue r) = Ok (Array x0)
        /\ convert_to_units x0 ux = Ok x1)
    /\ (reduce_getattr yp (store_at xp (Array x1) (catalogue r)) = Ok (Array y0)
        /\ convert_to_units y0 uy = Ok y1)
    /\ drawn r'
       = (drawn r
          ++ scatter_x_against_y
               (if list_eq_dec string_dec xp yp then y1 else x1) y1
          :: later)%list
    /\ array_units y1 = uy.
Proof.
  unfold _make_plot_scatter. intros H.
  apply bind_inv_ok in H as (r1 & xp & HX & H).
  destruct (catalogue_quantity_found _ _ _ _ HX) as (-> & qx & Hqx & Hsx).
  apply bind_inv_ok in H as (r2 & [] & HcX & H).
  destruct (convert_quantity_result _ _ _ _ HcX) as (x0 & ux & x1 & Hx0 & Hux & Hx1 & ->).
  apply bind_inv_ok in H as (r3 & yp & HY & H).
  destruct (catalogue_quantity_found _ _ _ _ HY) as (-> & qy & Hqy & Hsy).
  apply bind_inv_ok in H as (r4 & [] & HcY & H).
  destruct (convert_quantity_result _ _ _ _ HcY) as (y0 & uy & y1 & Hy0 & Huy & Hy1 & ->).
  cbn [self catalogue drawn axis] in *.
  apply bind_inv_ok in H as (r5 & xs & Hxs & H).
  destruct (deref_found _ _ _ _ Hxs) as (-> & Hxs').
  apply bind_inv_ok in H as (r6 & ys & Hys & H).
  destruct (deref_found _ _ _ _ Hys) as (-> & Hys').
  cbn [self catalogue drawn] in *.
  rewrite (lookup_after_store _ _ _ (Array y1) Hy0) in Hys'.
  injection Hys' as <-.
  assert (Hxs1 : xs = if list_eq_dec string_dec xp yp then y1 else x1).
  { destruct (list_eq_dec string_dec xp yp) as [->|Hne].
    - rewrite (lookup_after_store _ _ _ (Array y1) Hy0) in Hxs'. congruence.
    - pose proof (lookup_after_store _ _ _ (Array x1) Hx0) as Hx1'.
      rewrite (lookup_other_after_store _ _ _ _ _ _ Hx1' Hy0 Hne) in Hxs'.
      congruence. }
  apply bind_inv_ok in H as (r7 & [] & Hcall & H).
  destruct (call_outcome _ _ _ _ Hcall) as [[_ ->] | (e & He & _)];
    [|discriminate].
  assert (Hrest : only_draws (bind set_scales_and_limits
                                (fun _ => _add_lines_to_axes xp yp))).
  { apply only_draws_bind; [apply scales_and_limits_only_draw|].
    intros _. apply add_lines_only_draws. }
  destruct (Hrest _ _ _ H) as [later Hlater]. cbn [drawn] in Hlater.
  exists qx, qy, xp, yp, ux, uy, x0, x1, y0, y1, later.
  repeat split; try assumption.
  - rewrite Hlater, <- app_assoc, <- Hxs1. reflexivity.
  - exact (convert_to_units_units _ _ _ Hy1).
Qed.

(** *** The catalogue after a plot *)









End Rendering.


(** ** Parsing all the entries *)

(** C4 (as amended): [parse_yaml] builds the plots of the entries in the
    order of the mapping and stops at the first entry whose [__init__]
    raises: the entries after it are not visited, the exception leaves
    [parse_yaml], and no plot and no list of errors is returned.  When no
    entry raises, every entry is visited and there is one plot for each. *)
Theorem parse_yaml_stops_at_first_failure (items : list (string * yaml)) :
  (exists plots,
      parse_yaml (YMap items) = (map fst items, Ok plots)
      /\ Forall2 (fun it p => VelociraptorPlot_init (fst it) (snd it) = Ok p)
                 items plots)
  \/ (exists before name entry after e,
         items = (before ++ (name, entry) :: after)%list
         /\ Forall (fun it => exists p,
                        VelociraptorPlot_init (fst it) (snd it) = Ok p) before
         /\ VelociraptorPlot_init name entry = Raise e
         /\ parse_yaml (YMap items) = ((map fst before ++ [name])%list, Raise e)).
Proof.
  cbn [parse_yaml].
  induction items as [|[name entry] rest IH].
  - left. exists []. split; [reflexivity | constructor].
  - cbn [build_plots].
    destruct (VelociraptorPlot_init name entry) as [p|e] eqn:E.
    + destruct IH as [(plots & Hrun & Hall)
                     | (before & n & en & after & e & Hitems & Hbefore & Hfail & Hrun)].
      * left. exists (p :: plots). rewrite Hrun. cbn.
        split; [reflexivity | now constructor].
      * right. exists ((name, entry) :: before), n, en, after, e.
        rewrite Hrun. cbn. repeat split.
        -- now rewrite Hitems.
        -- constructor; [now exists p | exact Hbefore].
        -- exact Hfail.
    + right. exists [], name, entry, rest, e. cbn. repeat split.
      * constructor.
      * exact E.
Qed.

(** ** The plotter *)

(** X16: when [parse_yaml] raises nothing, it visited every entry, and the
    plots are those of the entries in the order of the mapping: each has
    the key of its entry as [filename] and the entry as [data]. *)
Theorem parse_yaml_keeps_the_order_of_the_entries
  (items : list (string * yaml)) (visited : list string)
  (built : list VelociraptorPlot) :
  parse_yaml (YMap items) = (visited, Ok built) ->
  visited = map fst items
  /\ map filename built = map fst items
  /\ map data built = map snd items.
Proof.
  cbn [parse_yaml]. revert visited built.
  induction items as [|[name entry] rest IH]; intros visited built; cbn [build_plots].
  - intros [= <- <-]. now repeat split.
  - destruct (VelociraptorPlot_init name entry) as [p|e] eqn:E; [|discriminate].
    destruct (build_plots rest) as [vis [ps|e]]; cbn; [|discriminate].
    intros [= <- <-].
    destruct (IH vis ps eq_refl) as (Hv & Hf & Hd).
    destruct (built_plot_inversion _ _ _ E) as (Hname & Hdata & _).
    cbn. now rewrite Hv, Hf, Hd, Hname, Hdata.
Qed.

(** The loop of [create_plots] saves the figures of the plots before the
    first one that raises, in order, and keeps the names of all plots. *)
Lemma plot_each_figures
  (directory file_extension : string) (todo : list VelociraptorPlot)
  (cat : option pyobj) (calls : list draw)
  (ps : list VelociraptorPlot) (cat' : option pyobj) (calls' : list draw)
  (res : result unit) :
  plot_each directory file_extension todo cat calls = (ps, cat', calls', res) ->
  exists k,
    saved_files calls'
    = (saved_files calls
       ++ map (figure_path directory file_extension) (firstn k todo))%list
    /\ map filename ps = map filename todo
    /\ match res with
       | Ok _ => k = length todo
       | Raise _ => (k < length todo)%nat
       end.
Proof.
  revert cat calls ps cat' calls' res.
  induction todo as [|p rest IH]; intros cat calls ps cat' calls' res; cbn [plot_each].
  - intros [= <- <- <- <-]. exists 0%nat. cbn. now rewrite app_nil_r.
  - destruct cat as [c|].
    2:{ intros [= <- <- <- <-]. exists 0%nat. cbn. rewrite app_nil_r.
        repeat split. lia. }
    destruct (make_plot _ _ _) as [r [[]|e]] eqn:E;
      destruct (make_plot_figures _ _ _ _ _ E) as (Hfiles & Hname & _);
      cbn [self drawn] in Hfiles, Hname.
    + destruct (plot_each _ _ rest _ _) as [[[rest' cat2] calls2] res2] eqn:Erest.
      intros [= <- <- <- <-].
      destruct (IH _ _ _ _ _ _ Erest) as (k & Hk & Hnames & Hres).
      exists (S k). cbn [firstn map length]. repeat split.
      * rewrite Hk, Hfiles, <- app_assoc. reflexivity.
      * now rewrite Hname, Hnames.
      * destruct res2; lia.
    + intros [= <- <- <- <-]. exists 0%nat. cbn [firstn map length].
      rewrite Hfiles, Hname. repeat split. lia.
Qed.

(** The loop over a list that begins with plots that are all made goes on
    with the rest of the list, in the state these plots left. *)
Lemma plot_each_app
  (directory file_extension : string) (before rest : list VelociraptorPlot)
  (cat cat1 : option pyobj) (calls calls1 : list draw)
  (before' : list VelociraptorPlot) :
  plot_each directory file_extension before cat calls
  = (before', cat1, calls1, Ok tt) ->
  plot_each directory file_extension (before ++ rest) cat calls
  = match plot_each directory file_extension rest cat1 calls1 with
    | (rest', cat2, calls2, res) => ((before' ++ rest')%list, cat2, calls2, res)
    end.
Proof.
  revert cat calls before'.
  induction before as [|p before IH]; intros cat calls before'; cbn [plot_each app].
  - intros [= <- <- <-].
    now destruct (plot_each _ _ rest cat calls) as [[[rest' cat2] calls2] res].
  - destruct cat as [c|]; [|discriminate].
    destruct (make_plot _ _ _) as [r [[]|e]]; [|discriminate].
    destruct (plot_each _ _ before _ _) as [[[b' c'] k'] res'] eqn:Eb.
    intros [= <- <- <- ->].
    rewrite (IH _ _ _ Eb).
    now destruct (plot_each _ _ rest c' k') as [[[rest' cat2] calls2] res].
Qed.

Section Files.

Variable filesystem : Type.
Variable path_exists : filesystem -> string -> bool.
Variable mkdir : filesystem -> string -> option filesystem.

(** X17: when [create_plots] raises nothing, it has saved one figure for
    each plot of [self.plots], in the order of the list, each under
    [directory/filename.file_extension]; the plots have the names they
    had. *)
Theorem create_plots_saves_a_figure_for_each_plot
  (directory file_extension : string) (s s' : Session filesystem) :
  create_plots filesystem path_exists mkdir directory file_extension s = (s', None) ->
  saved_files (figures _ s')
  = (saved_files (figures _ s)
     ++ map (figure_path directory file_extension) (plots (plotter _ s)))%list
  /\ map filename (plots (plotter _ s')) = map filename (plots (plotter _ s)).
Proof.
  unfold create_plots.
  destruct (if path_exists _ _ then _ else _) as [fs|]; [|discriminate].
  destruct (plot_each _ _ _ _ _) as [[[ps cat] calls] res] eqn:E.
  destruct (plot_each_figures _ _ _ _ _ _ _ _ _ E) as (k & Hk & Hnames & Hres).
  destruct res as [[]|e]; [|discriminate].
  intros [= <-]. cbn. subst k. now rewrite firstn_all in Hk.
Qed.

(** X18: [create_plots] stops at the first plot whose [make_plot] raises.
    When the plots [before] are all made and [make_plot] raises [e] on the
    plot [p] that follows them, [create_plots] raises [e]: the figures of
    the plots before [p] are saved, in order, no figure is saved for [p] or
    for the plots after it, which are left as they were, and the catalogue
    is as [p] left it. *)
Theorem create_plots_stops_at_the_first_plot_that_raises
  (directory file_extension : string) (s : Session filesystem) (fs : filesystem)
  (before after before' : list VelociraptorPlot) (p : VelociraptorPlot)
  (cat : pyobj) (calls : list draw) (r : Render) (e : exn) :
  (if path_exists (files _ s) directory then Some (files _ s)
   else mkdir (files _ s) directory) = Some fs ->
  plots (plotter _ s) = (before ++ p :: after)%list ->
  plot_each directory file_extension before
            (linked_catalogue (plotter _ s)) (figures _ s)
  = (before', Some cat, calls, Ok tt) ->
  make_plot directory file_extension
            {| self := p; catalogue := cat; drawn := calls |}
  = (r, Raise e) ->
  create_plots filesystem path_exists mkdir directory file_extension s
  = ({| plotter := {| plots := (before' ++ self r :: after)%list;
                      linked_catalogue := Some (catalogue r) |};
        files := fs; figures := drawn r |},
     Some (PlotError e))
  /\ saved_files (drawn r)
     = (saved_files (figures _ s)
        ++ map (figure_path directory file_extension) before)%list.
Proof.
  intros Hfs Hplots Hbefore Hmake. split.
  - unfold create_plots. rewrite Hfs, Hplots, (plot_each_app _ _ _ _ _ _ _ _ _ Hbefore).
    cbn [plot_each]. now rewrite Hmake.
  - destruct (plot_each_figures _ _ _ _ _ _ _ _ _ Hbefore) as (k & Hk & _ & ->).
    rewrite firstn_all in Hk.
    destruct (make_plot_figures _ _ _ _ _ Hmake) as (Hfiles & _ & _).
    cbn [drawn] in Hfiles. now rewrite Hfiles, app_nil_r.
Qed.

(** X19: [create_plots] on a plotter whose catalogue was never linked.  The
    directory is made first, if it is not there; then, with no plot, nothing
    is raised, and with a plot, the [AttributeError] of the missing
    [self.catalogue] is raised before anything is drawn. *)
Theorem create_plots_without_catalogue
  (directory file_extension : string) (s : Session filesystem)
  (fs : filesystem) :
  linked_catalogue (plotter _ s) = None ->
  (if path_exists (files _ s) directory then Some (files _ s)
   else mkdir (files _ s) directory) = Some fs ->
  create_plots filesystem path_exists mkdir directory file_extension s
  = ({| plotter := plotter _ s; files := fs; figures := figures _ s |},
     match plots (plotter _ s) with
     | [] => None
     | _ :: _ => Some (PlotError AttributeError)
     end).
Proof.
  intros Hcat Hfs. unfold create_plots. rewrite Hfs, Hcat.
  destruct (plotter _ s) as [ps cat] eqn:Ep. cbn in *. subst cat.
  destruct ps as [|p rest]; reflexivity.
Qed.

End Files.

End Properties.

(** * The code on concrete entries *)

Import Sample.

Lemma is_Ok_built {A : Type} (r : result A) :
  is_Ok r = true -> exists a, r = Ok a.
Proof. destruct r as [a|e]; [now exists a | discriminate]. Qed.

Lemma is_Ok_value {A : Type} (r : result A) (default : A) :
  is_Ok r = true -> r = Ok (value_or r default).
Proof. destruct r as [a|e]; [reflexivity | discriminate]. Defined.

Lemma pair_of_snd {A B : Type} (p : A * B) (b : B) :
  snd p = b -> p = (fst p, b).
Proof. destruct p as [a b']. cbn. now intros ->. Defined.

Lemma error_of_raised {A : Type} (r : result A) (e : exn) :
  error_of r = Some e -> r = Raise e.
Proof. destruct r as [a|e']; [discriminate | now intros [= ->]]. Qed.

Lemma floats_opt_eqb_eq (a b : option (list pyfloat)) :
  floats_opt_eqb a b = true -> a = b.
Proof.
  destruct a as [l|], b as [l'|]; cbn; try discriminate; try reflexivity.
  intros H. f_equal. now apply floats_eqb_eq.
Qed.

(** ** Bin edges *)

(** The entry of the second example of the specification, a linear axis
    from 0 to 10 with [number_of_bins: 5], gets the five edges 0, 2.5, 5,
    7.5 and 10, which bound four bins. *)
Lemma linear_massfunction_edges :
  x_bin_values (VelociraptorPlot_init (L := library) "mass_function" linear_massfunction)
  = Some [of_Z 0; of_Q (5 # 2); of_Z 5; of_Q (15 # 2); of_Z 10].
Proof. apply floats_opt_eqb_eq. vm_compute. reflexivity. Qed.

(** The entry of the first example, a log axis from 1 to 100 with
    [number_of_bins: 2], gets the two edges 1 and 100; 1, 10 and 100 are the
    edges for [number_of_bins: 3]. *)
Lemma log_massfunction_edges :
  x_bin_values (VelociraptorPlot_init (L := library) "mass_function"
                  (log_massfunction 1 100 2))
  = Some [of_Z 1; of_Z 100]
  /\ x_bin_values (VelociraptorPlot_init (L := library) "mass_function"
                     (log_massfunction 1 100 3))
     = Some [of_Z 1; of_Z 10; of_Z 100].
Proof. split; apply floats_opt_eqb_eq; vm_compute; reflexivity. Qed.

Lemma histogram_bins_have_number_of_bins_edges_witness :
  exists edges,
    _parse_coordinate_histogram_bin (L := library) X (before_bins false 0 10 5)
    = (with_axis X (with_bins edges) (before_bins false 0 10 5), Ok tt)
    /\ length (values edges) = 5%nat
    /\ length (values edges) <> 6%nat.
Proof.
  apply (histogram_bins_have_number_of_bins_edges (L := library) X
           (before_bins false 0 10 5)
           {| value := of_Z 0; units := Msun |}
           {| value := of_Z 10; units := Msun |} false 5);
    [reflexivity | reflexivity | reflexivity | lia].
Defined.

(** C6, the claim as it was stated: a log axis from 0 to 100 raises
    nothing; the plot is built, with the edges that numpy makes of the
    logarithm of zero. *)
Lemma log_axis_from_zero_is_built :
  (exists p, VelociraptorPlot_init (L := library) "mass_function"
               (log_massfunction 0 100 3) = Ok p)
  /\ x_bin_values (VelociraptorPlot_init (L := library) "mass_function"
                     (log_massfunction 0 100 3))
     = Some [NaN; NaN; of_Z 100].
Proof.
  split.
  - apply is_Ok_built. vm_compute. reflexivity.
  - apply floats_opt_eqb_eq. vm_compute. reflexivity.
Qed.

Lemma log_bins_of_nonpositive_lower_limit_are_made_witness :
  exists edges,
    _parse_coordinate_histogram_bin (L := library) X (before_bins true 0 100 3)
    = (with_axis X (with_bins edges) (before_bins true 0 100 3), Ok tt)
    /\ length (values edges) = 3%nat.
Proof.
  apply (log_bins_of_nonpositive_lower_limit_are_made (L := library) X
           (before_bins true 0 100 3)
           {| value := of_Z 0; units := Msun |}
           {| value := of_Z 100; units := Msun |} (Q2Qc (inject_Z 0)) 3);
    [reflexivity | reflexivity | reflexivity | lia | reflexivity
    | vm_compute; discriminate].
Defined.

(** ** Plot types *)

Lemma histogram_type_is_rejected_witness :
  VelociraptorPlot_init (L := library) "mass_histogram" histogram_entry
  = Raise (AutoPlotterError
             "Plot type histogram is not valid. Please choose from ['scatter', '2dhistogram', 'massfunction'].")
  /\ parse_method (L := library) (YStr "histogram") = _parse_massfunction.
Proof.
  apply (histogram_type_is_rejected (L := library) "mass_histogram"
           [("type", YStr "histogram"); ("x", log_axis 1 100)]).
  reflexivity.
Defined.

(** The same [x] block is accepted under [massfunction]. *)
Lemma massfunction_of_the_same_x_is_built :
  exists p, VelociraptorPlot_init (L := library) "mass_histogram"
              (YMap [("type", YStr "massfunction"); ("x", log_axis 1 100)]) = Ok p.
Proof. apply is_Ok_built. vm_compute. reflexivity. Qed.

(** C7, the claim as it was stated: the message for the entry
    [stellar_mass_function] of type [pie] does not have the name of the
    entry in it. *)
Lemma invalid_type_message_lacks_entry_name :
  exists msg,
    VelociraptorPlot_init (L := library) "stellar_mass_function" pie_entry
    = Raise (AutoPlotterError msg)
    /\ index 0 "stellar_mass_function" msg = None.
Proof.
  exists "Plot type pie is not valid. Please choose from ['scatter', '2dhistogram', 'massfunction'].".
  split; [apply error_of_raised|]; vm_compute; reflexivity.
Qed.

Lemma invalid_type_error_lists_valid_types_witness :
  VelociraptorPlot_init (L := library) "stellar_mass_function" pie_entry
  = Raise (AutoPlotterError
             "Plot type pie is not valid. Please choose from ['scatter', '2dhistogram', 'massfunction'].").
Proof.
  apply (invalid_type_error_lists_valid_types (L := library)
           "stellar_mass_function" [("type", YStr "pie")] (YStr "pie"));
    reflexivity.
Defined.

(** ** Missing keys *)

Lemma missing_quantity_names_coordinate_and_entry_witness :
  snd (_parse_coordinate_quantity (L := library) X
         (new_plot "stellar_mass" scatter_without_quantity))
  = Raise (AutoPlotterError
             "You must provide an x-quantity and units to plot for stellar_mass").
Proof.
  apply (missing_quantity_names_coordinate_and_entry (L := library) X
           (new_plot "stellar_mass" scatter_without_quantity)
           [("units", YStr "Msun")]);
    [reflexivity | left; reflexivity].
Defined.

Lemma limit_without_units_is_dropped_witness :
  _parse_coordinate_limit (L := library) Y
    (new_plot "mass_function" massfunction_with_y_limits)
  = (with_axis Y (with_lim (None, None))
       (new_plot "mass_function" massfunction_with_y_limits), Ok tt)
  /\ c_lim (axis Y (fst (_parse_coordinate_limit (L := library) Y
                           (new_plot "mass_function" massfunction_with_y_limits))))
     = Some (None, None).
Proof.
  apply (limit_without_units_is_dropped (L := library) Y
           (new_plot "mass_function" massfunction_with_y_limits)
           [("start", YInt 1); ("end", YInt 1000)]).
  - reflexivity.
  - reflexivity.
  - exists (YInt 1). left. reflexivity.
  - intros key v H _. cbn in H.
    destruct (String.eqb key "start").
    + injection H as <-. exists (of_Z 1). reflexivity.
    + destruct (String.eqb key "end"); [|discriminate].
      injection H as <-. exists (of_Z 1000). reflexivity.
Defined.

(** At the public interface: the mass function with limits for y and no
    units for y is built, and its y limits are both [None]. *)
Lemma massfunction_drops_y_limits :
  built_without_y_limits
    (VelociraptorPlot_init (L := library) "mass_function"
       massfunction_with_y_limits)
  = true.
Proof. vm_compute. reflexivity. Qed.

(** ** Two-dimensional histograms *)

(** C3, the claim as it was stated: the [2dhistogram] whose y has no
    [start] ends in a [TypeError], which is no [AutoPlotterError]. *)
Lemma histogram2d_without_start_raises_TypeError :
  VelociraptorPlot_init (L := library) "mass_size" histogram2d_without_start
  = Raise TypeError
  /\ ~ (exists msg,
          VelociraptorPlot_init (L := library) "mass_size" histogram2d_without_start
          = Raise (AutoPlotterError msg)).
Proof.
  assert (H : VelociraptorPlot_init (L := library) "mass_size"
                histogram2d_without_start = Raise TypeError)
    by (apply error_of_raised; vm_compute; reflexivity).
  split; [exact H|]. intros [msg Hmsg]. rewrite H in Hmsg. discriminate.
Qed.

Lemma histogram2d_without_limit_fails_in_numpy_witness :
  exists e,
    VelociraptorPlot_init (L := library) "mass_size" histogram2d_without_start
    = Raise e
    /\ (forall p,
          bind (_parse_scatter (L := library)) (fun _ => _parse_number_of_bins)
               (with_plot_type (YStr "2dhistogram")
                  (new_plot "mass_size" histogram2d_without_start))
          = (p, Ok tt) ->
          (e = TypeError \/ e = ValueError) /\ is_AutoPlotterError e = false).
Proof.
  apply (histogram2d_without_limit_fails_in_numpy (L := library) "mass_size"
           [("type", YStr "2dhistogram"); ("x", log_axis 1 100);
            ("y", axis_without_start)] Y).
  - reflexivity.
  - exists [("quantity", YStr "radii.r_200crit"); ("units", YStr "kpc");
            ("end", YInt 1000)].
    split; [reflexivity | left; reflexivity].
Defined.

(** ** Parsing all the entries *)

(** C4, the claim as it was stated: of the two entries [first], which has
    no x quantity, and [second], which is built when parsed alone, only
    [first] is visited; its error is all that [parse_yaml] gives. *)
Lemma parse_yaml_skips_entries_after_a_failure :
  parse_yaml (L := library)
    (YMap [("first", scatter_without_quantity); ("second", scatter_entry)])
  = (["first"],
     Raise (AutoPlotterError
              "You must provide an x-quantity and units to plot for first"))
  /\ (exists p, VelociraptorPlot_init (L := library) "second" scatter_entry = Ok p)
  /\ fst (parse_yaml (L := library)
            (YMap [("first", scatter_without_quantity); ("second", scatter_entry)]))
     <> ["first"; "second"].
Proof.
  assert (H : fst (parse_yaml (L := library)
                     (YMap [("first", scatter_without_quantity);
                            ("second", scatter_entry)])) = ["first"])
    by (vm_compute; reflexivity).
  split; [|split].
  - apply injective_projections; [exact H|].
    apply error_of_raised. vm_compute. reflexivity.
  - apply is_Ok_built. vm_compute. reflexivity.
  - rewrite H. discriminate.
Qed.

(** ** Making a plot *)

Lemma make_plot_leaves_the_plot_as_built_witness :
  self (fst (make_plot (L := library) "plots" "png"
               {| self := histogram2d_plot; catalogue := small_catalogue;
                  drawn := [] |}))
  = histogram2d_plot.
Proof.
  refine (make_plot_leaves_the_plot_as_built (L := library) _
            "mass_histogram" histogram2d histogram2d_plot small_catalogue []
            "plots" "png" _).
  - intros u. cbn. rewrite String.eqb_refl. reflexivity.
  - apply is_Ok_value. vm_compute. reflexivity.
Defined.

(** ** More runs *)

Import Cases.

Lemma histogram2d_plot_is_built :
  VelociraptorPlot_init (L := library) "mass_histogram" histogram2d
  = Ok histogram2d_plot.
Proof. apply is_Ok_value. vm_compute. reflexivity. Defined.

Lemma scatter_plot_is_built :
  VelociraptorPlot_init (L := library) "mass_size" scatter_entry = Ok scatter_plot.
Proof. apply is_Ok_value. vm_compute. reflexivity. Defined.

Lemma massfunction_plot_is_built :
  VelociraptorPlot_init (L := library) "mass_function" massfunction_with_y_limits
  = Ok massfunction_plot.
Proof. apply is_Ok_value. vm_compute. reflexivity. Defined.

Lemma mass_radius_plot_is_built :
  VelociraptorPlot_init (L := library) "mass_radius" mass_radius_entry
  = Ok mass_radius_plot.
Proof. apply is_Ok_value. vm_compute. reflexivity. Defined.

(** The scatter entry has no [type]; the mass function has no [log] for x
    or for y, and no [number_of_bins]. *)
Lemma defaults_of_omitted_keys_witness :
  plot_type scatter_plot = Some (YStr "scatter")
  /\ c_log (axis X massfunction_plot) = Some true
  /\ c_log (axis Y massfunction_plot) = Some true
  /\ number_of_bins massfunction_plot = Some 128%Z.
Proof.
  destruct (defaults_of_omitted_keys (L := library) "mass_size" scatter_items
              scatter_plot scatter_plot_is_built) as (Htype & _ & _).
  destruct (defaults_of_omitted_keys (L := library) "mass_function"
              massfunction_items massfunction_plot massfunction_plot_is_built)
    as (_ & Hlog & Hbins).
  split; [|split; [|split]].
  - apply Htype. reflexivity.
  - apply (Hlog X). right. exists log_axis_items. split; reflexivity.
  - apply (Hlog Y). right. exists [("start", YInt 1); ("end", YInt 1000)].
    split; reflexivity.
  - apply Hbins; [reflexivity | right; vm_compute; reflexivity].
Defined.

Lemma built_plot_keeps_name_entry_and_valid_type_witness :
  filename histogram2d_plot = "mass_histogram"
  /\ data histogram2d_plot = histogram2d
  /\ exists t, plot_type histogram2d_plot = Some (YStr t) /\ In t valid_plot_types.
Proof.
  apply (built_plot_keeps_name_entry_and_valid_type (L := library)
           "mass_histogram" histogram2d histogram2d_plot).
  exact histogram2d_plot_is_built.
Defined.

Lemma built_scatter_has_lines_and_no_bins_witness :
  c_bins (x scatter_plot) = None /\ c_bins (y scatter_plot) = None
  /\ number_of_bins scatter_plot = None
  /\ exists a b, median_line scatter_plot = Some a /\ mean_line scatter_plot = Some b.
Proof.
  apply (built_scatter_has_lines_and_no_bins (L := library)
           "mass_size" scatter_entry scatter_plot).
  - exact scatter_plot_is_built.
  - vm_compute. reflexivity.
Defined.

Lemma built_massfunction_has_no_y_quantity_witness :
  c_quantity (y massfunction_plot) = Some YNull
  /\ c_units (y massfunction_plot) = Some (dimensionless (Library := library))
  /\ c_bins (y massfunction_plot) = None
  /\ mean_line massfunction_plot = None /\ median_line massfunction_plot = None.
Proof.
  apply (built_massfunction_has_no_y_quantity (L := library)
           "mass_function" massfunction_with_y_limits massfunction_plot).
  - exact massfunction_plot_is_built.
  - vm_compute. reflexivity.
Defined.

Lemma built_histogram2d_has_limits_and_bins_witness :
  exists n s e b,
    number_of_bins histogram2d_plot = Some n /\ (0 <= n)%Z
    /\ c_lim (axis Y histogram2d_plot) = Some (Some s, Some e)
    /\ c_bins (axis Y histogram2d_plot) = Some b
    /\ length (values b) = Z.to_nat n.
Proof.
  apply (built_histogram2d_has_limits_and_bins (L := library)
           "mass_histogram" histogram2d histogram2d_plot Y).
  - exact histogram2d_plot_is_built.
  - vm_compute. reflexivity.
Defined.

Lemma built_limits_are_in_axis_units_witness :
  c_units (axis X histogram2d_plot) = Some Msun.
Proof.
  apply (built_limits_are_in_axis_units (L := library)
           "mass_histogram" histogram2d histogram2d_plot X
           (Some {| value := of_Z 1; units := Msun |})
           (Some {| value := of_Z 100; units := Msun |})
           {| value := of_Z 1; units := Msun |}).
  - exact histogram2d_plot_is_built.
  - discriminate.
  - reflexivity.
  - left. reflexivity.
Defined.

Lemma given_number_of_bins_is_used_or_raises_witness :
  _parse_number_of_bins (L := library) (new_plot "mass_function" linear_massfunction)
  = (with_number_of_bins 5 (new_plot "mass_function" linear_massfunction), Ok tt).
Proof.
  destruct (given_number_of_bins_is_used_or_raises (L := library)
              (new_plot "mass_function" linear_massfunction)
              linear_massfunction_items (YInt 5) eq_refl eq_refl) as [H _].
  apply H. reflexivity.
Defined.

Lemma line_is_None_on_any_KeyError_witness :
  _parse_line (L := library) median (new_plot "mass_size" scatter_entry)
  = (with_line median None (new_plot "mass_size" scatter_entry), Ok tt).
Proof.
  apply (line_is_None_on_any_KeyError (L := library) median
           (new_plot "mass_size" scatter_entry) scatter_items).
  - reflexivity.
  - left. reflexivity.
Defined.

Lemma missing_axis_block_names_coordinate_and_entry_witness :
  _parse_coordinate_quantity (L := library) Y
    (new_plot "mass_function" linear_massfunction)
  = (new_plot "mass_function" linear_massfunction,
     Raise (AutoPlotterError
              "You must provide an y-quantity and units to plot for mass_function")).
Proof.
  apply (missing_axis_block_names_coordinate_and_entry (L := library) Y
           (new_plot "mass_function" linear_massfunction)
           linear_massfunction_items);
    reflexivity.
Defined.

Lemma other_quantity_errors_pass_through_witness :
  _parse_coordinate_quantity (L := library) X
    (new_plot "mass_size" (YMap text_axis_items))
  = (new_plot "mass_size" (YMap text_axis_items), Raise TypeError).
Proof.
  destruct (other_quantity_errors_pass_through (L := library) X
              (new_plot "mass_size" (YMap text_axis_items)) text_axis_items
              (YStr "masses.mass_200crit") eq_refl eq_refl) as [H _].
  apply H. discriminate.
Defined.

Lemma lower_limit_alone_is_kept_witness :
  _parse_coordinate_limit (L := library) X
    (new_plot "mass_size" (YMap start_only_items))
  = (with_axis X (with_lim (Some {| value := of_Z 1; units := Msun |}, None))
       (new_plot "mass_size" (YMap start_only_items)), Ok tt).
Proof.
  apply (lower_limit_alone_is_kept (L := library) X
           (new_plot "mass_size" (YMap start_only_items))
           start_only_items start_only_axis (YInt 1) (YStr "Msun")
           (of_Z 1) Msun);
    reflexivity.
Defined.

Lemma limit_that_is_no_number_raises_witness :
  snd (_parse_coordinate_limit (L := library) X
         (new_plot "mass_size" (YMap bad_start_items)))
  = Raise ValueError
  /\ (ValueError = TypeError \/ ValueError = ValueError
      \/ ValueError = OverflowError).
Proof.
  apply (limit_that_is_no_number_raises (L := library) X
           (new_plot "mass_size" (YMap bad_start_items))
           bad_start_items bad_start_axis "start" (YStr "low") ValueError).
  - reflexivity.
  - reflexivity.
  - left. reflexivity.
  - reflexivity.
  - reflexivity.
Defined.

Lemma linear_bins_are_evenly_spaced_witness :
  let edges := {| values := samples (of_Z 0) (of_Z 10) 5; array_units := Msun |} in
  _parse_coordinate_histogram_bin (L := library) X (before_bins false 0 10 5)
  = (with_axis X (with_bins edges) (before_bins false 0 10 5), Ok tt)
  /\ length (values edges) = 5%nat
  /\ nth_error (values edges) 4 = Some (of_Z 10)
  /\ nth_error (values edges) 0 = Some (of_Z 0).
Proof.
  destruct (linear_bins_are_evenly_spaced (L := library) X
              (before_bins false 0 10 5)
              {| value := of_Z 0; units := Msun |}
              {| value := of_Z 10; units := Msun |} 5
              eq_refl eq_refl eq_refl ltac:(lia))
    as (Hrun & Hlen & Hlast & Hfirst & _).
  split; [exact Hrun | split; [exact Hlen | split; [exact Hlast|]]].
  apply (Hfirst (Q2Qc (inject_Z 0)) (Q2Qc (5 # 2))); reflexivity.
Defined.

(** The five bins of that axis, and the four bins from 0 to 1, which are
    doubles and no exact thirds. *)
Lemma samples_of_two_axes :
  floats_eqb (samples (of_Z 0) (of_Z 10) 5)
             [of_Z 0; of_Q (5 # 2); of_Z 5; of_Q (15 # 2); of_Z 10]
  = true
  /\ floats_eqb (samples (of_Z 0) (of_Z 1) 4)
                [of_Z 0; of_Q (6004799503160661 # 18014398509481984);
                 of_Q (6004799503160661 # 9007199254740992); of_Z 1]
     = true.
Proof. split; vm_compute; reflexivity. Qed.

(** Three bins from [-2 ^ 1023] to [2 ^ 1023]: the difference of the limits
    is beyond the doubles, and the first bin is not a number. *)
Lemma samples_of_a_range_beyond_the_doubles :
  floats_eqb (samples (of_Z (- 2 ^ 1023)) (of_Z (2 ^ 1023)) 3)
             [NaN; PInf; of_Z (2 ^ 1023)]
  = true.
Proof. vm_compute. reflexivity. Qed.

(** A [start] of [10 ** 400] is an [OverflowError], with units or without:
    the bound is not dropped. *)
Lemma start_beyond_the_doubles_is_not_dropped :
  snd (_parse_coordinate_limit (L := library) Y
         (new_plot "mass_function"
            (YMap [("type", YStr "massfunction"); ("x", log_axis 1 100);
                   ("y", YMap [("start", YInt (10 ^ 400))])])))
  = Raise OverflowError.
Proof. apply error_of_raised. vm_compute. reflexivity. Qed.

Lemma bins_for_negative_and_zero_number_of_bins_witness :
  _parse_coordinate_histogram_bin (L := library) X (before_bins true 1 100 (-1))
  = (before_bins true 1 100 (-1), Raise ValueError)
  /\ _parse_coordinate_histogram_bin (L := library) X (before_bins false 0 10 0)
     = (with_axis X (with_bins {| values := []; array_units := Msun |})
          (before_bins false 0 10 0), Ok tt).
Proof.
  split.
  - destruct (bins_for_negative_and_zero_number_of_bins (L := library) X
                (before_bins true 1 100 (-1))
                {| value := of_Z 1; units := Msun |}
                {| value := of_Z 100; units := Msun |} true (-1)
                eq_refl eq_refl eq_refl) as [H _].
    apply H. lia.
  - destruct (bins_for_negative_and_zero_number_of_bins (L := library) X
                (before_bins false 0 10 0)
                {| value := of_Z 0; units := Msun |}
                {| value := of_Z 10; units := Msun |} false 0
                eq_refl eq_refl eq_refl) as [_ H].
    apply H. reflexivity.
Defined.

Lemma make_plot_saves_one_figure_or_none_witness :
  saved_files (drawn (fst (make_plot "plots" "png" histogram2d_render)))
  = (saved_files (drawn histogram2d_render)
     ++ match snd (make_plot "plots" "png" histogram2d_render) with
        | Ok _ => [figure_path "plots" "png" (self histogram2d_render)]
        | Raise _ => []
        end)%list
  /\ (is_Ok (snd (make_plot "plots" "png" histogram2d_render)) = true ->
      exists calls,
        drawn (fst (make_plot "plots" "png" histogram2d_render))
        = (calls ++ [savefig (figure_path "plots" "png"
                                (self histogram2d_render))])%list).
Proof.
  apply (make_plot_saves_one_figure_or_none (L := library) "plots" "png"
           histogram2d_render).
  apply surjective_pairing.
Defined.

(** The plot of the run above is made, and its figure is
    [plots/mass_histogram.png]. *)
Lemma histogram2d_figure_is_saved :
  is_Ok (snd (make_plot "plots" "png" histogram2d_render)) = true
  /\ saved_files (drawn (fst (make_plot "plots" "png" histogram2d_render)))
     = ["plots/mass_histogram.png"].
Proof. split; vm_compute; reflexivity. Qed.

Lemma make_plot_without_x_quantity_raises_witness :
  make_plot "plots" "png" render_without_quantity
  = (render_without_quantity, Raise AttributeError)
  /\ AttributeError = AttributeError.
Proof.
  apply (make_plot_without_x_quantity_raises (L := library) "plots" "png"
           render_without_quantity "2dhistogram" (YStr "masses.mass_200crit")).
  - vm_compute. reflexivity.
  - cbn. auto.
  - vm_compute. reflexivity.
  - reflexivity.
Defined.

Lemma parse_yaml_keeps_the_order_of_the_entries_witness :
  fst (parse_yaml (L := library) (YMap configuration)) = map fst configuration
  /\ map filename (value_or (snd (parse_yaml (L := library) (YMap configuration))) [])
     = map fst configuration
  /\ map data (value_or (snd (parse_yaml (L := library) (YMap configuration))) [])
     = map snd configuration.
Proof.
  apply (parse_yaml_keeps_the_order_of_the_entries (L := library) configuration
           (fst (parse_yaml (L := library) (YMap configuration)))
           (value_or (snd (parse_yaml (L := library) (YMap configuration))) [])).
  apply (pair_of_snd (parse_yaml (L := library) (YMap configuration))).
  apply is_Ok_value. vm_compute. reflexivity.
Defined.

Lemma create_plots_saves_a_figure_for_each_plot_witness :
  saved_files (figures _ (fst (run (Some small_catalogue))))
  = (saved_files (figures _ (session (Some small_catalogue)))
     ++ map (figure_path "plots" "png")
            (plots (plotter _ (session (Some small_catalogue)))))%list
  /\ map filename (plots (plotter _ (fst (run (Some small_catalogue)))))
     = map filename (plots (plotter _ (session (Some small_catalogue)))).
Proof.
  unfold run.
  apply (create_plots_saves_a_figure_for_each_plot (L := library)
           directories directory_exists make_directory "plots" "png"
           (session (Some small_catalogue))
           (fst (create_plots directories directory_exists make_directory "plots" "png"
              (session (Some small_catalogue))))).
  apply (pair_of_snd (create_plots directories directory_exists make_directory "plots" "png"
              (session (Some small_catalogue)))).
  vm_compute. reflexivity.
Defined.

(** The figures of that run. *)
Lemma both_figures_are_saved :
  saved_files (figures _ (fst (run (Some small_catalogue))))
  = ["plots/mass_histogram.png"; "plots/mass_size.png"].
Proof. vm_compute. reflexivity. Qed.

Lemma made_of_parts {P C D : Type}
  (T : list P * option C * list D * result unit) (default : C) :
  snd T = Ok tt -> is_Some (snd (fst (fst T))) = true ->
  T = (fst (fst (fst T)), Some (some_or (snd (fst (fst T))) default),
       snd (fst T), Ok tt).
Proof.
  destruct T as [[[ps [c|]] calls] res]; cbn; [|discriminate].
  now intros -> _.
Defined.

Lemma create_plots_stops_at_the_first_plot_that_raises_witness :
  create_plots directories directory_exists make_directory "plots" "png"
               session_without_radii
  = ({| plotter := {| plots := (fst (fst (fst first_made))
                                ++ self (fst second_tried)
                                :: [histogram2d_plot])%list;
                      linked_catalogue := Some (catalogue (fst second_tried)) |};
        files := ["plots"];
        figures := drawn (fst second_tried) |},
     Some (PlotError AttributeError))
  /\ saved_files (drawn (fst second_tried))
     = (saved_files (figures _ session_without_radii)
        ++ map (figure_path "plots" "png") [scatter_plot])%list.
Proof.
  apply (create_plots_stops_at_the_first_plot_that_raises (L := library)
           directories directory_exists make_directory "plots" "png"
           session_without_radii ["plots"]
           [scatter_plot] [histogram2d_plot] (fst (fst (fst first_made)))
           mass_radius_plot
           (some_or (snd (fst (fst first_made))) small_catalogue)
           (snd (fst first_made)) (fst second_tried) AttributeError).
  - reflexivity.
  - reflexivity.
  - apply (made_of_parts first_made small_catalogue); vm_compute; reflexivity.
  - apply (pair_of_snd second_tried). vm_compute. reflexivity.
Defined.

(** In that run the figure of the first plot is saved, and no other. *)
Lemma only_the_first_figure_is_saved :
  saved_files (drawn (fst second_tried)) = ["plots/mass_size.png"]
  /\ map filename (fst (fst (fst first_made))) = ["mass_size"].
Proof. split; vm_compute; reflexivity. Qed.

(** With no room to save a figure, [make_plot] draws the plot and raises
    what [savefig] raises; no figure is saved. *)
Lemma no_figure_on_a_full_disk :
  snd (make_plot (Eng := full_disk) "plots" "png" scatter_render)
  = Raise (OtherError "OSError")
  /\ saved_files (drawn (fst (make_plot (Eng := full_disk) "plots" "png"
                                scatter_render))) = []
  /\ length (drawn (fst (make_plot (Eng := full_disk) "plots" "png"
                           scatter_render))) = 6%nat.
Proof. repeat split; vm_compute; reflexivity. Qed.

Lemma create_plots_without_catalogue_witness :
  run None
  = ({| plotter := plotter _ (session None); files := ["plots"];
        figures := figures _ (session None) |},
     Some (PlotError AttributeError)).
Proof.
  unfold run.
  apply (create_plots_without_catalogue (L := library)
           directories directory_exists make_directory "plots" "png"
           (session None) ["plots"]);
    reflexivity.
Defined.

Lemma log_bins_are_powers_of_evenly_spaced_exponents_witness :
  let la := np_log10 (Library := library) (of_Z 1) in
  let lb := np_log10 (Library := library) (of_Z 100) in
  let edges := {| values := map (np_power10 (Library := library))
                                (samples la lb 3);
                  array_units := Msun |} in
  _parse_coordinate_histogram_bin (L := library) X (before_bins true 1 100 3)
  = (with_axis X (with_bins edges) (before_bins true 1 100 3), Ok tt)
  /\ length (values edges) = 3%nat
  /\ nth_error (values edges) 2 = Some (np_power10 (Library := library) lb)
  /\ nth_error (values edges) 0 = Some (np_power10 (Library := library) la).
Proof.
  destruct (log_bins_are_powers_of_evenly_spaced_exponents (L := library) X
              (before_bins true 1 100 3)
              {| value := of_Z 1; units := Msun |}
              {| value := of_Z 100; units := Msun |} 3
              eq_refl eq_refl eq_refl ltac:(lia))
    as (Hrun & Hlen & Hlast & Hfirst).
  split; [exact Hrun | split; [exact Hlen | split; [exact Hlast|]]].
  apply (Hfirst (Q2Qc (inject_Z 0)) (Q2Qc (inject_Z 1))); reflexivity.
Defined.

Lemma built_massfunction_has_x_limits_and_bins_witness :
  exists n s e b,
    number_of_bins massfunction_plot = Some n /\ (0 <= n)%Z
    /\ c_lim (x massfunction_plot) = Some (Some s, Some e)
    /\ c_bins (x massfunction_plot) = Some b
    /\ length (values b) = Z.to_nat n.
Proof.
  apply (built_massfunction_has_x_limits_and_bins (L := library)
           "mass_function" massfunction_with_y_limits massfunction_plot).
  - exact massfunction_plot_is_built.
  - vm_compute. reflexivity.
Defined.

Lemma log_axis_is_complete : complete_axis (L := library) log_axis_items.
Proof.
  split; [|split].
  - eexists. reflexivity.
  - exists (YStr "Msun"), Msun. split; reflexivity.
  - intros key v [-> | ->] H; injection H as <-;
      [exists (of_Z 1) | exists (of_Z 100)]; reflexivity.
Defined.

Lemma linear_axis_is_complete : complete_axis (L := library) linear_axis_items.
Proof.
  split; [|split].
  - eexists. reflexivity.
  - exists (YStr "Msun"), Msun. split; reflexivity.
  - intros key v [-> | ->] H; injection H as <-;
      [exists (of_Z 0) | exists (of_Z 10)]; reflexivity.
Defined.

(** An integer beyond the doubles is no number for [float]: the axis is not
    complete, and the limit is an [OverflowError]. *)
Lemma start_beyond_the_doubles_raises :
  py_float (L := library) (YInt (10 ^ 400)) = Raise OverflowError
  /\ py_float (L := library) (YInt (2 ^ 53 + 1)) = Ok (of_Z (2 ^ 53)).
Proof.
  split.
  - apply error_of_raised. vm_compute. reflexivity.
  - reflexivity.
Qed.

Lemma complete_scatter_entry_is_built_witness :
  exists p, VelociraptorPlot_init (L := library) "mass_size" scatter_entry = Ok p
            /\ plot_type p = Some (YStr "scatter").
Proof.
  apply (complete_scatter_entry_is_built (L := library) "mass_size"
           scatter_items log_axis_items linear_axis_items).
  - left. reflexivity.
  - reflexivity.
  - exact log_axis_is_complete.
  - reflexivity.
  - exact linear_axis_is_complete.
  - left. reflexivity.
  - left. reflexivity.
Defined.

Lemma scatter_draws_the_converted_series_witness :
  exists qx qy xp yp ux uy x0 x1 y0 y1 later,
    (c_quantity (x (self mass_radius_render)) = Some qx
     /\ split_quantity qx = Ok xp
     /\ c_quantity (y (self mass_radius_render)) = Some qy
     /\ split_quantity qy = Ok yp)
    /\ (c_units (x (self mass_radius_render)) = Some ux
        /\ c_units (y (self mass_radius_render)) = Some uy)
    /\ (reduce_getattr xp (catalogue mass_radius_render) = Ok (Array x0)
        /\ convert_to_units x0 ux = Ok x1)
    /\ (reduce_getattr yp (store_at xp (Array x1) (catalogue mass_radius_render))
        = Ok (Array y0)
        /\ convert_to_units y0 uy = Ok y1)
    /\ drawn (fst (_make_plot_scatter mass_radius_render))
       = (drawn mass_radius_render
          ++ scatter_x_against_y
               (if list_eq_dec string_dec xp yp then y1 else x1) y1
          :: later)%list
    /\ array_units y1 = uy.
Proof.
  apply (scatter_draws_the_converted_series (L := library) mass_radius_render
           (fst (_make_plot_scatter mass_radius_render))).
  apply (pair_of_snd (_make_plot_scatter mass_radius_render)).
  vm_compute. reflexivity.
Defined.

(** The first call of that run: the masses against the radii. *)
Lemma masses_are_drawn_against_radii :
  match drawn (fst (_make_plot_scatter mass_radius_render)) with
  | scatter_x_against_y xs ys :: _ =>
      (floats_eqb (values xs) [of_Z 2; of_Z 50]
       && floats_eqb (values ys) [of_Z 3; of_Z 40]
       && String.eqb (array_units xs) Msun && String.eqb (array_units ys) kpc)%bool
  | _ => false
  end = true.
Proof. vm_compute. reflexivity. Qed.

